(** * MCP demo gateways: a shallow embedding of the GitHub and Merge servers

    The repository holds two Node.js processes, [servers/github-mcp/src/index.js]
    and [servers/merge-mcp/src/index.js].  Each one advertises a static tool
    catalog, dispatches [call_tool] requests through a [switch] on the tool
    name wrapped in a [try]/[catch], and talks to one upstream HTTP API.

    The embedding follows the code:
    - JavaScript values are the JSON values the handlers receive ([JSValue]);
      property reads, optional chaining, truthiness and the string conversions
      of template literals are written out, with the [TypeError]s they raise;
    - effects are a small monad [M]: a trace of the events performed (log
      lines, upstream requests) and either a thrown exception or a value;
    - the upstream (Octokit, [fetch]) is an oracle, a [Variable] of the
      section that holds the server;
    - process start-up is the list of the steps a process takes towards the
      outside, cut where the code calls [process.exit].

    Limits of the model.  Numbers are the integers and [NaN]; fractions and
    infinities are not represented.  Strings are byte strings: lengths and
    slices agree with JavaScript on ASCII text.  The library functions that
    depend on Unicode tables or on number syntax ([toLowerCase], [trim],
    the string-to-number conversion, [JSON.stringify]) are the fields of the
    [Runtime] class and stay abstract in every general statement. *)

From Stdlib Require Import ZArith List String Ascii Bool Lia DecimalString.
Import ListNotations.

Set Warnings "-register-all".
Open Scope string_scope.
Open Scope list_scope.

Infix "+++" := String.append (right associativity, at level 60).

(** ** Characters the source writes with escapes *)

Definition nl : string := String (ascii_of_nat 10) EmptyString.
Definition dq : string := String (ascii_of_nat 34) EmptyString.
Definition sq : string := String (ascii_of_nat 39) EmptyString.

(** ** JavaScript values *)

Inductive Number : Type :=
| Int (z : Z)
| NaN.

Inductive JSValue : Type :=
| JUndefined
| JNull
| JBool (b : bool)
| JNum (n : Number)
| JStr (s : string)
| JArr (items : list JSValue)
| JObj (fields : list (string * JSValue)).

Definition JInt (z : Z) : JSValue := JNum (Int z).

(** Thrown values.  Everything the two programs can throw or await a
    rejection of is an [Error] instance; only its [message] is ever read. *)
Inductive Exn : Type :=
| Error (msg : string)
| TypeError (msg : string)
| SyntaxError (msg : string)
| RequestError (status : Z) (msg : string).

Definition message (e : Exn) : string :=
  match e with
  | Error m | TypeError m | SyntaxError m | RequestError _ m => m
  end.

(** The library functions left abstract (see the header). *)
Class Runtime : Type := {
  StringToNumber : string -> Number;
  JSON_stringify : JSValue -> string;
  toLowerCase : string -> string;
  trim : string -> string
}.

(** ** Events and the effect monad *)

Record FetchOptions : Type := {
  method : string;
  headers : list (string * string);
  body : option string
}.

Inductive OctokitMethod : Type :=
| ReposGet
| IssuesCreate
| IssuesList
| IssuesGet.

Inductive Event : Type :=
| Logged (line : string)
| Fetched (url : string) (options : FetchOptions)
| OctokitCalled (m : OctokitMethod) (params : JSValue).

Definition M (A : Type) : Type := (list Event * (Exn + A))%type.

Definition ret {A} (a : A) : M A := ([], inr a).
Definition throw {A} (e : Exn) : M A := ([], inl e).
Definition emit (ev : Event) : M unit := ([ev], inr tt).

Definition bind {A B} (m : M A) (f : A -> M B) : M B :=
  match m with
  | (t, inl e) => (t, inl e)
  | (t, inr a) => let (t', r) := f a in (t ++ t', r)
  end.

Definition try_catch {A} (m : M A) (handler : Exn -> M A) : M A :=
  match m with
  | (t, inl e) => let (t', r) := handler e in (t ++ t', r)
  | (t, inr a) => (t, inr a)
  end.

Notation "x <- m ;; k" := (bind m (fun x => k))
  (at level 61, m at next level, right associativity).
Notation "m ;;; k" := (bind m (fun _ => k))
  (at level 61, right associativity).

Definition trace {A} (m : M A) : list Event := fst m.
Definition outcome {A} (m : M A) : Exn + A := snd m.

Fixpoint mapM {A B} (f : A -> M B) (l : list A) : M (list B) :=
  match l with
  | [] => ret []
  | x :: rest => y <- f x ;; ys <- mapM f rest ;; ret (y :: ys)
  end.

(** ** Strings *)

Fixpoint includes (s search : string) : bool :=
  prefix search s ||
  match s with
  | EmptyString => false
  | String _ rest => includes rest search
  end.

Fixpoint join (sep : string) (parts : list string) : string :=
  match parts with
  | [] => EmptyString
  | [p] => p
  | p :: rest => p +++ sep +++ join sep rest
  end.

Definition string_of_Z (z : Z) : string := NilZero.string_of_int (Z.to_int z).
Definition string_of_nat (n : nat) : string := string_of_Z (Z.of_nat n).

(** [Number::toString].  [Int z] stands for the number whose value is the
    integer [z]; its text is the decimal one for the safe integers, those of
    magnitude below 2^53, which is where a statement about a number that a
    caller or an upstream chooses keeps [z]. *)
Definition string_of_Number (n : Number) : string :=
  match n with
  | Int z => string_of_Z z
  | NaN => "NaN"
  end.

Fixpoint string_chars (s : string) : list string :=
  match s with
  | EmptyString => []
  | String c rest => String c EmptyString :: string_chars rest
  end.

(** ** The JavaScript operations the handlers use *)

Section JavaScript.
Context {rt : Runtime}.

Definition nullish (v : JSValue) : bool :=
  match v with
  | JUndefined | JNull => true
  | _ => false
  end.

Definition truthy (v : JSValue) : bool :=
  match v with
  | JUndefined | JNull => false
  | JBool b => b
  | JNum (Int z) => negb (z =? 0)%Z
  | JNum NaN => false
  | JStr s => negb (s =? EmptyString)
  | JArr _ | JObj _ => true
  end.

(** Objects are association lists in insertion order; the first binding of a
    key is the property. *)
Fixpoint lookup (k : string) (fields : list (string * JSValue)) : JSValue :=
  match fields with
  | [] => JUndefined
  | (k', v) :: rest => if k =? k' then v else lookup k rest
  end.

Fixpoint has_key (k : string) (fields : list (string * JSValue)) : bool :=
  match fields with
  | [] => false
  | (k', _) :: rest => (k =? k') || has_key k rest
  end.

(** [obj.k = v]: an existing property keeps its place, a new one goes last. *)
Fixpoint set_field (k : string) (v : JSValue) (fields : list (string * JSValue))
  : list (string * JSValue) :=
  match fields with
  | [] => [(k, v)]
  | (k', v') :: rest =>
      if k =? k' then (k, v) :: rest else (k', v') :: set_field k v rest
  end.

(** The value of [v.k] for a [v] that is neither [undefined] nor [null].
    Only data properties are read this way; methods have their own
    definitions below. *)
Definition read (v : JSValue) (k : string) : JSValue :=
  match v with
  | JObj fields => lookup k fields
  | JArr items =>
      if k =? "length" then JInt (Z.of_nat (List.length items)) else JUndefined
  | JStr s =>
      if k =? "length" then JInt (Z.of_nat (String.length s)) else JUndefined
  | _ => JUndefined
  end.

Definition type_name (v : JSValue) : string :=
  match v with
  | JUndefined => "undefined"
  | _ => "null"
  end.

(** The messages of the errors the engine raises follow V8's wording; no
    statement below depends on their text. *)
Definition cannot_read (v : JSValue) (k : string) : Exn :=
  TypeError ("Cannot read properties of " +++ type_name v +++
             " (reading " +++ sq +++ k +++ sq +++ ")").

Definition cannot_destructure (v : JSValue) (expr k : string) : Exn :=
  TypeError ("Cannot destructure property " +++ sq +++ k +++ sq +++
             " of " +++ sq +++ expr +++ sq +++ " as it is " +++
             type_name v +++ ".").

Definition not_a_function (expr : string) : Exn :=
  TypeError (expr +++ " is not a function").

(** [v.k] *)
Definition get_prop (v : JSValue) (k : string) : M JSValue :=
  if nullish v then throw (cannot_read v k) else ret (read v k).

(** [v?.k] *)
Definition opt_prop (v : JSValue) (k : string) : JSValue :=
  if nullish v then JUndefined else read v k.

(** [v?.[i]] *)
Definition opt_index (v : JSValue) (i : nat) : JSValue :=
  match v with
  | JArr items => nth i items JUndefined
  | JStr s => nth i (map JStr (string_chars s)) JUndefined
  | JObj fields => lookup (string_of_nat i) fields
  | _ => JUndefined
  end.

(** [const { k } = v], [expr] being the text of the right-hand side *)
Definition destructure (v : JSValue) (expr k : string) : M JSValue :=
  if nullish v then throw (cannot_destructure v expr k) else ret (read v k).

(** [const { k = d } = v]; for a [v] that cannot be destructured the engine
    reports the read of [k], not the pattern. *)
Definition destructure_default (v : JSValue) (expr k : string) (d : JSValue)
  : M JSValue :=
  if nullish v then throw (cannot_read v k)
  else ret (match read v k with JUndefined => d | _ => read v k end).

(** [a || b], the right operand evaluated only when needed *)
Definition or_else (a : JSValue) (b : M JSValue) : M JSValue :=
  if truthy a then ret a else b.

(** [ToString], as a template literal applies it.  An object that carries an
    own [toString] property (a JSON value, hence not callable) has no
    primitive value. *)
Fixpoint to_string (v : JSValue) : M string :=
  match v with
  | JUndefined => ret "undefined"
  | JNull => ret "null"
  | JBool true => ret "true"
  | JBool false => ret "false"
  | JNum n => ret (string_of_Number n)
  | JStr s => ret s
  | JArr items =>
      parts <- (fix each (l : list JSValue) : M (list string) :=
                  match l with
                  | [] => ret []
                  | x :: rest =>
                      s <- match x with
                           | JUndefined | JNull => ret EmptyString
                           | _ => to_string x
                           end ;;
                      ss <- each rest ;;
                      ret (s :: ss)
                  end) items ;;
      ret (join "," parts)
  | JObj fields =>
      if has_key "toString" fields
      then throw (TypeError "Cannot convert object to primitive value")
      else ret "[object Object]"
  end.

(** [ToNumber] *)
Definition to_number (v : JSValue) : M Number :=
  match v with
  | JUndefined => ret NaN
  | JNull => ret (Int 0)
  | JBool true => ret (Int 1)
  | JBool false => ret (Int 0)
  | JNum n => ret n
  | JStr s => ret (StringToNumber s)
  | JArr _ | JObj _ => s <- to_string v ;; ret (StringToNumber s)
  end.

(** [Math.min(a, b)] *)
Definition Math_min (a b : JSValue) : M JSValue :=
  x <- to_number a ;;
  y <- to_number b ;;
  ret (JNum (match x, y with
             | Int p, Int q => Int (Z.min p q)
             | _, _ => NaN
             end)).

(** [v > z] for a number literal [z] *)
Definition greater_than (v : JSValue) (z : Z) : M bool :=
  n <- to_number v ;;
  ret (match n with
       | Int x => (z <? x)%Z
       | NaN => false
       end).

(** [v === z] for a number literal [z] *)
Definition strict_eq_int (v : JSValue) (z : Z) : bool :=
  match v with
  | JNum (Int x) => (x =? z)%Z
  | _ => false
  end.

(** The end index of [slice(0, end)] over [len] elements. *)
Definition slice_end (len : nat) (e : JSValue) : M nat :=
  match e with
  | JUndefined => ret len
  | _ =>
      n <- to_number e ;;
      ret (match n with
           | NaN => 0
           | Int z =>
               if (z <? 0)%Z
               then Z.to_nat (Z.max (Z.of_nat len + z) 0)
               else Nat.min (Z.to_nat z) len
           end)
  end.

(** [v.slice(0, e)], [expr] being the text of the receiver, with the [?] of
    an optional call *)
Definition slice0 (v : JSValue) (expr : string) (e : JSValue) : M JSValue :=
  match v with
  | JArr items =>
      n <- slice_end (List.length items) e ;; ret (JArr (firstn n items))
  | JStr s =>
      n <- slice_end (String.length s) e ;; ret (JStr (substring 0 n s))
  | JUndefined | JNull => throw (cannot_read v "slice")
  | _ => throw (not_a_function (expr +++ ".slice"))
  end.

(** The elements of the receiver [expr] of an array method [name]; strings,
    numbers, booleans and objects have no [map], [filter] or [some]. *)
Definition array_receiver (v : JSValue) (expr name : string)
  : M (list JSValue) :=
  match v with
  | JArr items => ret items
  | JUndefined | JNull => throw (cannot_read v name)
  | _ => throw (not_a_function (expr +++ "." +++ name))
  end.

(** [v.map(f)] *)
Definition array_map {B} (v : JSValue) (expr : string) (f : JSValue -> M B)
  : M (list B) :=
  items <- array_receiver v expr "map" ;;
  mapM f items.

Fixpoint filterM (p : JSValue -> M JSValue) (l : list JSValue)
  : M (list JSValue) :=
  match l with
  | [] => ret []
  | x :: rest =>
      keep <- p x ;;
      ys <- filterM p rest ;;
      ret (if truthy keep then x :: ys else ys)
  end.

(** [v.filter(p)] *)
Definition array_filter (v : JSValue) (expr : string)
  (p : JSValue -> M JSValue) : M (list JSValue) :=
  items <- array_receiver v expr "filter" ;;
  filterM p items.

Fixpoint someM (p : JSValue -> M JSValue) (l : list JSValue) : M bool :=
  match l with
  | [] => ret false
  | x :: rest =>
      hit <- p x ;;
      if truthy hit then ret true else someM p rest
  end.

(** [v.some(p)] *)
Definition array_some (v : JSValue) (expr : string)
  (p : JSValue -> M JSValue) : M bool :=
  items <- array_receiver v expr "some" ;;
  someM p items.

(** [v.toLowerCase()] *)
Definition call_toLowerCase (v : JSValue) (expr : string) : M string :=
  match v with
  | JStr s => ret (toLowerCase s)
  | JUndefined | JNull => throw (cannot_read v "toLowerCase")
  | _ => throw (not_a_function (expr +++ ".toLowerCase"))
  end.

(** [${v.k}] inside a template literal *)
Definition show_prop (v : JSValue) (k : string) : M string :=
  x <- get_prop v k ;; to_string x.

End JavaScript.

(** ** The result envelope and the catalog entries *)

Record ContentBlock : Type := {
  type : string;
  text : string
}.

Record InvocationResult : Type := {
  content : list ContentBlock;
  isError : option bool
}.

(** [{ content: [{ type: 'text', text: t }] }] *)
Definition text_result (t : string) : InvocationResult :=
  {| content := [{| type := "text"; text := t |}]; isError := None |}.

(** [{ content: [{ type: 'text', text: t }], isError: true }] *)
Definition error_result (t : string) : InvocationResult :=
  {| content := [{| type := "text"; text := t |}]; isError := Some true |}.

Record ToolDescriptor : Type := {
  name : string;
  description : string;
  inputSchema : JSValue
}.

(** The two requests of the invocation channel and their answers. *)
Inductive Request : Type :=
| ListTools
| CallTool (tool : string) (arguments : JSValue).

Inductive Response : Type :=
| ToolList (tools : list ToolDescriptor)
| ToolResult (result : InvocationResult).

(** What a process does towards the outside while it starts. *)
Inductive Startup : Type :=
| Did (ev : Event)
| Listening (port : JSValue)
| Connected
| Exited (code : Z).

Definition truthy_env (v : option string) : bool :=
  match v with
  | Some s => negb (s =? EmptyString)
  | None => false
  end.

(** What a route of the health server answers: the status of the reply and
    the value [res.json] sends. *)
Record HttpReply : Type := {
  reply_status : Z;
  reply_json : JSValue
}.

(** The string a set variable holds. *)
Definition env_value (v : option string) : string :=
  match v with
  | Some s => s
  | None => EmptyString
  end.

(** [s.split(sep)] for a one-character separator *)
Fixpoint split (sep : ascii) (s : string) : list string :=
  match s with
  | EmptyString => [EmptyString]
  | String c rest =>
      if Ascii.eqb c sep then EmptyString :: split sep rest
      else match split sep rest with
           | [] => [String c EmptyString]
           | h :: t => String c h :: t
           end
  end.

(** * servers/github-mcp/src/index.js *)

Module GitHub.

Section Server.
Context {rt : Runtime}.

(** [owner] and [repo] are the two halves of [GITHUB_REPO]; [octokit] is the
    Octokit client: what the promise of a REST call settles to, the awaited
    response or the rejection. *)
Variables owner repo : string.
Variable octokit : OctokitMethod -> JSValue -> Exn + JSValue.

Definition log (message : string) : M unit := emit (Logged message).
Definition logError (message : string) : M unit := emit (Logged message).

(** [await octokit.rest.<method>(params)] *)
Definition octokit_rest (m : OctokitMethod) (params : JSValue) : M JSValue :=
  emit (OctokitCalled m params) ;;;
  match octokit m params with
  | inl e => throw e
  | inr response => ret response
  end.

Definition verifyGitHubConnection : M bool :=
  try_catch
    (response <- octokit_rest ReposGet
                   (JObj [("owner", JStr owner); ("repo", JStr repo)]) ;;
     data <- destructure response "(intermediate value)" "data" ;;
     full_name <- show_prop data "full_name" ;;
     log ("✅ Connected to GitHub repo: " +++ full_name) ;;;
     ret true)
    (fun error =>
       logError "❌ Failed to connect to GitHub:" ;;;
       ret false).

(** The catalog the [ListToolsRequestSchema] handler returns. *)
Definition tools : list ToolDescriptor :=
  [ {| name := "create_github_issue";
       description := "Create a new GitHub issue in the configured repository";
       inputSchema :=
         JObj [("type", JStr "object");
               ("properties",
                JObj [("title",
                       JObj [("type", JStr "string");
                             ("description", JStr "The title of the issue")]);
                      ("body",
                       JObj [("type", JStr "string");
                             ("description",
                              JStr "The body/description of the issue")]);
                      ("labels",
                       JObj [("type", JStr "array");
                             ("items", JObj [("type", JStr "string")]);
                             ("description",
                              JStr "Optional array of label names to apply")]);
                      ("assignees",
                       JObj [("type", JStr "array");
                             ("items", JObj [("type", JStr "string")]);
                             ("description",
                              JStr "Optional array of usernames to assign")])]);
               ("required", JArr [JStr "title"])] |};
    {| name := "list_github_issues";
       description := "List issues from the GitHub repository";
       inputSchema :=
         JObj [("type", JStr "object");
               ("properties",
                JObj [("state",
                       JObj [("type", JStr "string");
                             ("enum",
                              JArr [JStr "open"; JStr "closed"; JStr "all"]);
                             ("description", JStr "Filter issues by state");
                             ("default", JStr "open")]);
                      ("labels",
                       JObj [("type", JStr "string");
                             ("description",
                              JStr "Comma-separated list of label names to filter by")]);
                      ("limit",
                       JObj [("type", JStr "number");
                             ("description",
                              JStr "Maximum number of issues to return");
                             ("default", JInt 10);
                             ("maximum", JInt 100)])])] |};
    {| name := "get_github_issue";
       description := "Get details of a specific GitHub issue";
       inputSchema :=
         JObj [("type", JStr "object");
               ("properties",
                JObj [("issue_number",
                       JObj [("type", JStr "number");
                             ("description", JStr "The issue number")])]);
               ("required", JArr [JStr "issue_number"])] |} ].

Definition list_tools : M (list ToolDescriptor) := ret tools.

(** [case 'create_github_issue'] *)
Definition case_create_github_issue (args : JSValue) : M InvocationResult :=
  title <- destructure args "args" "title" ;;
  body <- destructure args "args" "body" ;;
  labels <- destructure args "args" "labels" ;;
  assignees <- destructure args "args" "assignees" ;;
  let issueData :=
    [("owner", JStr owner); ("repo", JStr repo); ("title", title);
     ("body", if truthy body then body else JStr EmptyString)] in
  issueData <-
    (if truthy labels
     then len <- get_prop labels "length" ;;
          some <- greater_than len 0 ;;
          ret (if some then set_field "labels" labels issueData else issueData)
     else ret issueData) ;;
  issueData <-
    (if truthy assignees
     then len <- get_prop assignees "length" ;;
          some <- greater_than len 0 ;;
          ret (if some then set_field "assignees" assignees issueData
               else issueData)
     else ret issueData) ;;
  response <- octokit_rest IssuesCreate (JObj issueData) ;;
  issue <- destructure response "(intermediate value)" "data" ;;
  number <- show_prop issue "number" ;;
  title <- show_prop issue "title" ;;
  html_url <- show_prop issue "html_url" ;;
  state <- show_prop issue "state" ;;
  ret (text_result
         ("Successfully created GitHub issue #" +++ number +++ ": " +++
          dq +++ title +++ dq +++ nl +++
          "URL: " +++ html_url +++ nl +++
          "State: " +++ state)).

(** [issues.map(issue => ({ number: ..., labels: issue.labels.map(...) }))] *)
Definition issue_summary (issue : JSValue) : M JSValue :=
  number <- get_prop issue "number" ;;
  title <- get_prop issue "title" ;;
  state <- get_prop issue "state" ;;
  url <- get_prop issue "html_url" ;;
  created_at <- get_prop issue "created_at" ;;
  issue_labels <- get_prop issue "labels" ;;
  labels <- array_map issue_labels "issue.labels"
              (fun label => get_prop label "name") ;;
  ret (JObj [("number", number); ("title", title); ("state", state);
             ("url", url); ("created_at", created_at);
             ("labels", JArr labels)]).

(** [`#${issue.number}: ${issue.title} (${issue.state})\n  ${issue.url}`] *)
Definition issue_line (issue : JSValue) : M string :=
  number <- show_prop issue "number" ;;
  title <- show_prop issue "title" ;;
  state <- show_prop issue "state" ;;
  url <- show_prop issue "url" ;;
  ret ("#" +++ number +++ ": " +++ title +++ " (" +++ state +++ ")" +++ nl +++
       "  " +++ url).

(** [case 'list_github_issues'] *)
Definition case_list_github_issues (args : JSValue) : M InvocationResult :=
  state <- destructure_default args "args" "state" (JStr "open") ;;
  labels <- destructure args "args" "labels" ;;
  limit <- destructure_default args "args" "limit" (JInt 10) ;;
  per_page <- Math_min limit (JInt 100) ;;
  let params :=
    [("owner", JStr owner); ("repo", JStr repo); ("state", state);
     ("per_page", per_page)] in
  let params :=
    if truthy labels then set_field "labels" labels params else params in
  response <- octokit_rest IssuesList (JObj params) ;;
  issues <- destructure response "(intermediate value)" "data" ;;
  issueList <- array_map issues "issues" issue_summary ;;
  count <- show_prop issues "length" ;;
  lines <- mapM issue_line issueList ;;
  ret (text_result
         ("Found " +++ count +++ " issues:" +++ nl +++ nl +++
          join (nl +++ nl) lines)).

(** [case 'get_github_issue'] *)
Definition case_get_github_issue (args : JSValue) : M InvocationResult :=
  issue_number <- destructure args "args" "issue_number" ;;
  response <- octokit_rest IssuesGet
                (JObj [("owner", JStr owner); ("repo", JStr repo);
                       ("issue_number", issue_number)]) ;;
  issue <- destructure response "(intermediate value)" "data" ;;
  number <- show_prop issue "number" ;;
  title <- show_prop issue "title" ;;
  state <- show_prop issue "state" ;;
  created_at <- show_prop issue "created_at" ;;
  updated_at <- show_prop issue "updated_at" ;;
  html_url <- show_prop issue "html_url" ;;
  body <- get_prop issue "body" ;;
  body <- or_else body (ret (JStr "No description provided.")) ;;
  body <- to_string body ;;
  ret (text_result
         ("Issue #" +++ number +++ ": " +++ title +++ nl +++ nl +++
          "State: " +++ state +++ nl +++
          "Created: " +++ created_at +++ nl +++
          "Updated: " +++ updated_at +++ nl +++
          "URL: " +++ html_url +++ nl +++ nl +++
          "Body:" +++ nl +++ body)).

(** The [switch (name)] of the [CallToolRequestSchema] handler: the branch a
    name selects, [None] being [default]. *)
Inductive Branch : Type :=
| create_github_issue
| list_github_issues
| get_github_issue.

(** The [case] label of a branch. *)
Definition label (b : Branch) : string :=
  match b with
  | create_github_issue => "create_github_issue"
  | list_github_issues => "list_github_issues"
  | get_github_issue => "get_github_issue"
  end.

Definition switch (name : string) : option Branch :=
  if name =? "create_github_issue" then Some create_github_issue
  else if name =? "list_github_issues" then Some list_github_issues
  else if name =? "get_github_issue" then Some get_github_issue
  else None.

Definition dispatch (name : string) (args : JSValue) : M InvocationResult :=
  match switch name with
  | Some create_github_issue => case_create_github_issue args
  | Some list_github_issues => case_list_github_issues args
  | Some get_github_issue => case_get_github_issue args
  | None => throw (Error ("Unknown tool: " +++ name))
  end.

(** The [CallToolRequestSchema] handler: the [switch] inside [try], and the
    [catch] that turns what was thrown into an error result.  The SDK has
    parsed the request against the schema before it calls the handler, so
    [name] is a string; [args] is whatever [arguments] held, [undefined]
    when the request had none. *)
Definition call_tool (name : string) (args : JSValue) : M InvocationResult :=
  try_catch (dispatch name args)
    (fun error =>
       logError ("Error executing tool " +++ name +++ ":") ;;;
       ret (error_result ("Error: " +++ message error))).

(** One request on the invocation channel. *)
Definition handle (req : Request) : M Response :=
  match req with
  | ListTools => ts <- list_tools ;; ret (ToolList ts)
  | CallTool name args => r <- call_tool name args ;; ret (ToolResult r)
  end.

(** [start()]: the connection check, then [app.listen(PORT, ...)] and
    [server.connect(transport)].  The lines the callback of [listen] logs
    once the port is bound are not part of the steps. *)
Definition start (PORT : JSValue) : list Startup :=
  Did (Logged "🚀 Starting GitHub MCP Server...") ::
  let (t, connected) := verifyGitHubConnection in
  map Did t ++
  match connected with
  | inr true =>
      [Listening PORT;
       Connected;
       Did (Logged "📡 MCP Server connected via stdio")]
  | _ =>
      [Did (Logged "Failed to connect to GitHub. Check your token and repo settings.");
       Exited 1]
  end.

(** [app.get('/health', ...)]: one call of [repos.get], whose answer is not
    read; [now] is what [new Date().toISOString()] gives when the reply is
    built. *)
Definition health (now : string) : M HttpReply :=
  try_catch
    (octokit_rest ReposGet
       (JObj [("owner", JStr owner); ("repo", JStr repo)]) ;;;
     ret {| reply_status := 200;
            reply_json :=
              JObj [("status", JStr "healthy");
                    ("service", JStr "github-mcp-server");
                    ("repo", JStr (owner +++ "/" +++ repo));
                    ("timestamp", JStr now)] |})
    (fun error =>
       ret {| reply_status := 503;
              reply_json :=
                JObj [("status", JStr "unhealthy");
                      ("error", JStr (message error));
                      ("timestamp", JStr now)] |}).

(** [app.get('/info', ...)] *)
Definition info : HttpReply :=
  {| reply_status := 200;
     reply_json :=
       JObj [("service", JStr "github-mcp-server");
             ("version", JStr "1.0.0");
             ("repo", JStr (owner +++ "/" +++ repo));
             ("mcp_protocol", JStr "2024-11-05");
             ("note",
              JStr "This server communicates via stdio, not HTTP. Use a proper MCP client.")] |}.

End Server.

(** The module body from its first line to the call of [start()]: the checks
    of the environment, each ending the process through [process.exit(1)]. *)
Definition main (env : string -> option string)
  (octokit : OctokitMethod -> JSValue -> Exn + JSValue) : list Startup :=
  let GITHUB_TOKEN := env "GITHUB_TOKEN" in
  let GITHUB_REPO := env "GITHUB_REPO" in
  let PORT := if truthy_env (env "PORT")
              then JStr (env_value (env "PORT")) else JInt 8001 in
  if negb (truthy_env GITHUB_TOKEN) then
    [Did (Logged "GITHUB_TOKEN environment variable is required"); Exited 1]
  else if negb (truthy_env GITHUB_REPO) then
    [Did (Logged "GITHUB_REPO environment variable is required (format: owner/repo)");
     Exited 1]
  else
    let parts := split "/" (env_value GITHUB_REPO) in
    let owner := nth 0 parts EmptyString in
    let repo := nth 1 parts EmptyString in
    if (owner =? EmptyString) || (repo =? EmptyString) then
      [Did (Logged ("GITHUB_REPO must be in format " +++ dq +++
                    "owner/repo" +++ dq));
       Exited 1]
    else start owner repo octokit PORT.

End GitHub.

(** * servers/merge-mcp/src/index.js *)

(** What [fetch] resolves to: the status line, and what [response.text()]
    and [response.json()] give for the body. *)
Record HttpResponse : Type := {
  status : Z;
  bodyText : string;
  bodyJson : Exn + JSValue
}.

(** [response.ok] *)
Definition ok (response : HttpResponse) : bool :=
  (200 <=? status response)%Z && (status response <=? 299)%Z.

Module Merge.

Section Server.
Context {rt : Runtime}.

(** [apiKey] and [accountToken] are [MERGE_API_KEY] and
    [MERGE_ACCOUNT_TOKEN]; [fetch] is the upstream: the response of a request
    or the rejection of a failed transport. *)
Variables apiKey accountToken : string.
Variable fetch : string -> FetchOptions -> Exn + HttpResponse.

Definition log (message : string) : M unit := emit (Logged message).
Definition logError (message : string) : M unit := emit (Logged message).

Definition baseURL : string := "https://api.merge.dev/api".

(** [Merge API error ${response.status}: ${errorText}] *)
Definition api_error (response : HttpResponse) : Exn :=
  Error ("Merge API error " +++ string_of_Z (status response) +++ ": " +++
         bodyText response).

(** [MergeAPIClient.makeRequest(endpoint, method, data)] *)
Definition makeRequest (endpoint method : string) (data : JSValue)
  : M JSValue :=
  let url := baseURL +++ endpoint in
  let headers :=
    [("Authorization", "Bearer " +++ apiKey);
     ("X-Account-Token", accountToken);
     ("Content-Type", "application/json");
     ("User-Agent", "MCP-Demo/1.0.0")] in
  let options :=
    {| method := method;
       headers := headers;
       body := if truthy data && negb (method =? "GET")
               then Some (JSON_stringify data) else None |} in
  try_catch
    (emit (Fetched url options) ;;;
     match fetch url options with
     | inl e => throw e
     | inr response =>
         if negb (ok response) then throw (api_error response)
         else match bodyJson response with
              | inl e => throw e
              | inr v => ret v
              end
     end)
    (fun error =>
       logError ("Merge API request failed: " +++ message error) ;;;
       throw error).

(** [createContact(contactData)] *)
Definition createContact (contactData : JSValue) : M JSValue :=
  makeRequest "/crm/v1/contacts" "POST" (JObj [("model", contactData)]).

(** [getContact(contactId)] *)
Definition getContact (contactId : JSValue) : M JSValue :=
  id <- to_string contactId ;;
  makeRequest ("/crm/v1/contacts/" +++ id) "GET" JNull.

(** A page request [`${path}?page_size=${pageSize}`], with [&cursor=] when
    a cursor is given; [cursor = null] and [pageSize = 20] are the defaults
    of the parameters. *)
Definition page_request (path : string) (cursor pageSize : JSValue)
  : M JSValue :=
  let cursor := match cursor with JUndefined => JNull | _ => cursor end in
  let pageSize := match pageSize with JUndefined => JInt 20 | _ => pageSize end in
  size <- to_string pageSize ;;
  let endpoint := path +++ "?page_size=" +++ size in
  endpoint <-
    (if truthy cursor
     then c <- to_string cursor ;; ret (endpoint +++ "&cursor=" +++ c)
     else ret endpoint) ;;
  makeRequest endpoint "GET" JNull.

(** [getOpportunities(cursor, pageSize)] *)
Definition getOpportunities (cursor pageSize : JSValue) : M JSValue :=
  page_request "/crm/v1/opportunities" cursor pageSize.

(** [createOpportunity(opportunityData)] *)
Definition createOpportunity (opportunityData : JSValue) : M JSValue :=
  makeRequest "/crm/v1/opportunities" "POST"
    (JObj [("model", opportunityData)]).

(** [getAccounts(cursor, pageSize)] *)
Definition getAccounts (cursor pageSize : JSValue) : M JSValue :=
  page_request "/crm/v1/accounts" cursor pageSize.

(** [getAccountDetails()] *)
Definition getAccountDetails : M JSValue :=
  makeRequest "/crm/v1/account-details" "GET" JNull.

(** [v?.toLowerCase().includes(searchTerm)]: the whole chain is [undefined]
    for a missing [v]. *)
Definition lower_includes (v : JSValue) (expr searchTerm : string)
  : M JSValue :=
  if nullish v then ret JUndefined
  else s <- call_toLowerCase v expr ;; ret (JBool (includes s searchTerm)).

(** The callback of [response.results?.filter(...)] in [searchCRM]. *)
Definition search_filter (searchTerm : string) (contact : JSValue)
  : M JSValue :=
  first_name <- get_prop contact "first_name" ;;
  by_first <- lower_includes first_name "contact.first_name?" searchTerm ;;
  or_else by_first
    (last_name <- get_prop contact "last_name" ;;
     by_last <- lower_includes last_name "contact.last_name?" searchTerm ;;
     or_else by_last
       (email_addresses <- get_prop contact "email_addresses" ;;
        if nullish email_addresses then ret JUndefined
        else
          hit <- array_some email_addresses "contact.email_addresses?"
                   (fun email =>
                      email_address <- get_prop email "email_address" ;;
                      lower_includes email_address "email.email_address?"
                        searchTerm) ;;
          ret (JBool hit))).

(** The own enumerable properties [{ ...v }] copies. *)
Definition spread (v : JSValue) : list (string * JSValue) :=
  match v with
  | JObj fields => fields
  | JArr items =>
      combine (map string_of_nat (seq 0 (List.length items))) items
  | JStr s =>
      combine (map string_of_nat (seq 0 (String.length s)))
        (map JStr (string_chars s))
  | _ => []
  end.

(** [searchCRM(query)] *)
Definition searchCRM (query : JSValue) : M JSValue :=
  response <- makeRequest "/crm/v1/contacts" "GET" JNull ;;
  if negb (truthy query) then ret response
  else
    searchTerm <- call_toLowerCase query "query" ;;
    results <- get_prop response "results" ;;
    filteredResults <-
      (if nullish results then ret []
       else array_filter results "response.results?"
              (search_filter searchTerm)) ;;
    ret (JObj (set_field "results" (JArr filteredResults) (spread response))).

Definition verifyMergeConnection : M bool :=
  try_catch
    (accountDetails <- getAccountDetails ;;
     log "✅ Connected to Merge CRM integration" ;;;
     integration <- get_prop accountDetails "integration" ;;
     provider <- or_else (opt_prop integration "name") (ret (JStr "Unknown")) ;;
     provider <- to_string provider ;;
     log ("🏢 Provider: " +++ provider) ;;;
     id <- show_prop accountDetails "id" ;;
     log ("📋 Account: " +++ id) ;;;
     ret true)
    (fun error =>
       logError "❌ Failed to connect to Merge:" ;;;
       logError "💡 Check your MERGE_API_KEY and MERGE_ACCOUNT_TOKEN" ;;;
       logError "🔗 Get tokens from: https://app.merge.dev/" ;;;
       ret false).

(** The [limit] property every listing tool declares. *)
Definition limit_schema : JSValue :=
  JObj [("type", JStr "number");
        ("description", JStr "Maximum number of results");
        ("default", JInt 10);
        ("maximum", JInt 100)].

(** The catalog the [ListToolsRequestSchema] handler returns. *)
Definition tools : list ToolDescriptor :=
  [ {| name := "create_crm_contact";
       description := "Create a new contact in your CRM via Merge unified API";
       inputSchema :=
         JObj [("type", JStr "object");
               ("properties",
                JObj [("first_name",
                       JObj [("type", JStr "string");
                             ("description", JStr "First name")]);
                      ("last_name",
                       JObj [("type", JStr "string");
                             ("description", JStr "Last name")]);
                      ("email_addresses",
                       JObj [("type", JStr "array");
                             ("items",
                              JObj [("type", JStr "object");
                                    ("properties",
                                     JObj [("email_address",
                                            JObj [("type", JStr "string")]);
                                           ("email_address_type",
                                            JObj [("type", JStr "string");
                                                  ("enum",
                                                   JArr [JStr "PERSONAL";
                                                         JStr "WORK";
                                                         JStr "OTHER"]);
                                                  ("default", JStr "WORK")])])]);
                             ("description", JStr "Email addresses")]);
                      ("phone_numbers",
                       JObj [("type", JStr "array");
                             ("items",
                              JObj [("type", JStr "object");
                                    ("properties",
                                     JObj [("phone_number",
                                            JObj [("type", JStr "string")]);
                                           ("phone_number_type",
                                            JObj [("type", JStr "string");
                                                  ("enum",
                                                   JArr [JStr "HOME";
                                                         JStr "WORK";
                                                         JStr "MOBILE";
                                                         JStr "OTHER"]);
                                                  ("default", JStr "WORK")])])]);
                             ("description", JStr "Phone numbers")]);
                      ("account",
                       JObj [("type", JStr "string");
                             ("description",
                              JStr "Company/Account ID to associate with")])]);
               ("required", JArr [JStr "first_name"; JStr "last_name"])] |};
    {| name := "search_crm_contacts";
       description := "Search for contacts in your CRM via Merge";
       inputSchema :=
         JObj [("type", JStr "object");
               ("properties",
                JObj [("query",
                       JObj [("type", JStr "string");
                             ("description",
                              JStr "Search term (name or email)")]);
                      ("limit", limit_schema)])] |};
    {| name := "get_crm_contact";
       description := "Get detailed information about a specific CRM contact";
       inputSchema :=
         JObj [("type", JStr "object");
               ("properties",
                JObj [("contact_id",
                       JObj [("type", JStr "string");
                             ("description", JStr "The Merge contact ID")])]);
               ("required", JArr [JStr "contact_id"])] |};
    {| name := "create_crm_opportunity";
       description :=
         "Create a new sales opportunity/deal in your CRM via Merge";
       inputSchema :=
         JObj [("type", JStr "object");
               ("properties",
                JObj [("name",
                       JObj [("type", JStr "string");
                             ("description", JStr "Opportunity name")]);
                      ("description",
                       JObj [("type", JStr "string");
                             ("description", JStr "Opportunity description")]);
                      ("amount",
                       JObj [("type", JStr "number");
                             ("description", JStr "Deal amount/value")]);
                      ("contact",
                       JObj [("type", JStr "string");
                             ("description",
                              JStr "Contact ID to associate with this opportunity")]);
                      ("account",
                       JObj [("type", JStr "string");
                             ("description", JStr "Account/Company ID")]);
                      ("stage",
                       JObj [("type", JStr "string");
                             ("description", JStr "Sales stage/status")])]);
               ("required", JArr [JStr "name"])] |};
    {| name := "list_crm_opportunities";
       description := "List recent opportunities/deals from your CRM";
       inputSchema :=
         JObj [("type", JStr "object");
               ("properties", JObj [("limit", limit_schema)])] |};
    {| name := "get_crm_accounts";
       description := "List companies/accounts from your CRM via Merge";
       inputSchema :=
         JObj [("type", JStr "object");
               ("properties", JObj [("limit", limit_schema)])] |} ].

Definition list_tools : M (list ToolDescriptor) := ret tools.

(** [${result.model?.k || fallback}] *)
Definition show_model_or (result : JSValue) (k : string) (fallback : M JSValue)
  : M string :=
  model <- get_prop result "model" ;;
  v <- or_else (opt_prop model k) fallback ;;
  to_string v.

(** [x.email_addresses?.[0]?.email_address || fallback], and the same chain
    for phone numbers *)
Definition first_entry (x : JSValue) (list_key entry_key fallback : string)
  : JSValue :=
  let v := opt_prop (opt_index (opt_prop x list_key) 0) entry_key in
  if truthy v then v else JStr fallback.

(** [case 'create_crm_contact'] *)
Definition case_create_crm_contact (args : JSValue) : M InvocationResult :=
  result <- createContact args ;;
  id <- show_model_or result "id" (ret (JStr "N/A")) ;;
  model <- get_prop result "model" ;;
  first_name <- to_string (opt_prop model "first_name") ;;
  model <- get_prop result "model" ;;
  last_name <- to_string (opt_prop model "last_name") ;;
  model <- get_prop result "model" ;;
  email <- to_string (first_entry model "email_addresses" "email_address" "N/A") ;;
  model <- get_prop result "model" ;;
  let status := if truthy model then "Created" else "Pending sync" in
  remote_id <- show_model_or result "remote_id" (ret (JStr "Will be assigned")) ;;
  ret (text_result
         ("Successfully created CRM contact via Merge!" +++ nl +++
          "ID: " +++ id +++ nl +++
          "Name: " +++ first_name +++ " " +++ last_name +++ nl +++
          "Email: " +++ email +++ nl +++
          "Status: " +++ status +++ nl +++
          "Remote ID: " +++ remote_id)).

(** [`${x.first_name || ''} ${x.last_name || ''}`.trim()] *)
Definition full_name (x : JSValue) : M string :=
  first_name <- get_prop x "first_name" ;;
  first_name <- or_else first_name (ret (JStr EmptyString)) ;;
  first_name <- to_string first_name ;;
  last_name <- get_prop x "last_name" ;;
  last_name <- or_else last_name (ret (JStr EmptyString)) ;;
  last_name <- to_string last_name ;;
  ret (trim (first_name +++ " " +++ last_name)).

(** [${x.k || fallback}] *)
Definition show_prop_or (x : JSValue) (k fallback : string) : M string :=
  v <- get_prop x k ;;
  v <- or_else v (ret (JStr fallback)) ;;
  to_string v.

(** The callback of [contacts.map(...)] in the search case. *)
Definition contact_line (contact : JSValue) : M string :=
  email_addresses <- get_prop contact "email_addresses" ;;
  let email :=
    let v := opt_prop (opt_index email_addresses 0) "email_address" in
    if truthy v then v else JStr "No email" in
  name <- full_name contact ;;
  email <- to_string email ;;
  id <- show_prop contact "id" ;;
  ret (name +++ " (" +++ email +++ ") - ID: " +++ id).

(** [case 'search_crm_contacts'] *)
Definition case_search_crm_contacts (args : JSValue) : M InvocationResult :=
  query <- destructure args "args" "query" ;;
  limit <- destructure_default args "args" "limit" (JInt 10) ;;
  result <- searchCRM query ;;
  results <- get_prop result "results" ;;
  contacts <-
    (if nullish results then ret (JArr [])
     else sliced <- slice0 results "result.results?" limit ;;
          or_else sliced (ret (JArr []))) ;;
  length <- get_prop contacts "length" ;;
  if strict_eq_int length 0 then
    suffix <-
      (if truthy query
       then q <- to_string query ;; ret (" for " +++ dq +++ q +++ dq)
       else ret EmptyString) ;;
    ret (text_result ("No contacts found" +++ suffix))
  else
    lines <- array_map contacts "contacts" contact_line ;;
    let contactList := join nl lines in
    count <- show_prop contacts "length" ;;
    ret (text_result
           ("Found " +++ count +++ " contact(s):" +++ nl +++ nl +++
            contactList)).

(** [case 'get_crm_contact'] *)
Definition case_get_crm_contact (args : JSValue) : M InvocationResult :=
  contact_id <- destructure args "args" "contact_id" ;;
  contact <- getContact contact_id ;;
  email_addresses <- get_prop contact "email_addresses" ;;
  let email :=
    let v := opt_prop (opt_index email_addresses 0) "email_address" in
    if truthy v then v else JStr "No email" in
  phone_numbers <- get_prop contact "phone_numbers" ;;
  let phone :=
    let v := opt_prop (opt_index phone_numbers 0) "phone_number" in
    if truthy v then v else JStr "No phone" in
  name <- full_name contact ;;
  email <- to_string email ;;
  phone <- to_string phone ;;
  id <- show_prop contact "id" ;;
  remote_id <- show_prop_or contact "remote_id" "N/A" ;;
  created_at <- show_prop_or contact "created_at" "Unknown" ;;
  modified_at <- show_prop_or contact "modified_at" "Unknown" ;;
  ret (text_result
         ("Contact Details:" +++ nl +++
          "Name: " +++ name +++ nl +++
          "Email: " +++ email +++ nl +++
          "Phone: " +++ phone +++ nl +++
          "ID: " +++ id +++ nl +++
          "Remote ID: " +++ remote_id +++ nl +++
          "Created: " +++ created_at +++ nl +++
          "Modified: " +++ modified_at)).

(** [case 'create_crm_opportunity'] *)
Definition case_create_crm_opportunity (args : JSValue) : M InvocationResult :=
  result <- createOpportunity args ;;
  id <- show_model_or result "id" (ret (JStr "N/A")) ;;
  name <- show_model_or result "name" (get_prop args "name") ;;
  amount <- show_model_or result "amount"
              (amount <- get_prop args "amount" ;;
               or_else amount (ret (JInt 0))) ;;
  stage <- show_model_or result "stage"
             (stage <- get_prop args "stage" ;;
              or_else stage (ret (JStr "Not set"))) ;;
  model <- get_prop result "model" ;;
  let status := if truthy model then "Created" else "Pending sync" in
  remote_id <- show_model_or result "remote_id" (ret (JStr "Will be assigned")) ;;
  ret (text_result
         ("Successfully created CRM opportunity via Merge!" +++ nl +++
          "ID: " +++ id +++ nl +++
          "Name: " +++ name +++ nl +++
          "Amount: " +++ amount +++ nl +++
          "Stage: " +++ stage +++ nl +++
          "Status: " +++ status +++ nl +++
          "Remote ID: " +++ remote_id)).

(** The callback of [opportunities.map(...)]. *)
Definition opportunity_line (opp : JSValue) : M string :=
  amount <- get_prop opp "amount" ;;
  amount <- (if truthy amount then to_string amount else ret "No amount") ;;
  name <- show_prop_or opp "name" "Unnamed" ;;
  stage <- show_prop_or opp "stage" "No stage" ;;
  id <- show_prop opp "id" ;;
  ret (name +++ " - " +++ amount +++ " (" +++ stage +++ ") - ID: " +++ id).

(** [xs.map(line).join('\n')] *)
Definition map_lines (xs : JSValue) (expr : string)
  (line : JSValue -> M string) : M string :=
  lines <- array_map xs expr line ;;
  ret (join nl lines).

(** [case 'list_crm_opportunities'] *)
Definition case_list_crm_opportunities (args : JSValue) : M InvocationResult :=
  limit <- destructure_default args "args" "limit" (JInt 10) ;;
  result <- getOpportunities JNull limit ;;
  results <- get_prop result "results" ;;
  opportunities <- or_else results (ret (JArr [])) ;;
  length <- get_prop opportunities "length" ;;
  if strict_eq_int length 0 then
    ret (text_result "No opportunities found in your CRM")
  else
    oppList <- map_lines opportunities "opportunities" opportunity_line ;;
    count <- show_prop opportunities "length" ;;
    length <- get_prop opportunities "length" ;;
    ret (text_result
           ("Found " +++ count +++ " opportunit" +++
            (if strict_eq_int length 1 then "y" else "ies") +++ ":" +++
            nl +++ nl +++ oppList)).

(** The callback of [accounts.map(...)]. *)
Definition account_line (account : JSValue) : M string :=
  name <- show_prop_or account "name" "Unnamed Company" ;;
  id <- show_prop account "id" ;;
  industry <- get_prop account "industry" ;;
  industry <-
    (if truthy industry
     then s <- to_string industry ;; ret (" (" +++ s +++ ")")
     else ret EmptyString) ;;
  ret (name +++ " - ID: " +++ id +++ industry).

(** [case 'get_crm_accounts'] *)
Definition case_get_crm_accounts (args : JSValue) : M InvocationResult :=
  limit <- destructure_default args "args" "limit" (JInt 10) ;;
  result <- getAccounts JNull limit ;;
  results <- get_prop result "results" ;;
  accounts <- or_else results (ret (JArr [])) ;;
  length <- get_prop accounts "length" ;;
  if strict_eq_int length 0 then
    ret (text_result "No accounts/companies found in your CRM")
  else
    accountList <- map_lines accounts "accounts" account_line ;;
    count <- show_prop accounts "length" ;;
    ret (text_result
           ("Found " +++ count +++ " account(s):" +++ nl +++ nl +++
            accountList)).

(** The [switch (name)] of the [CallToolRequestSchema] handler: the branch a
    name selects, [None] being [default]. *)
Inductive Branch : Type :=
| create_crm_contact
| search_crm_contacts
| get_crm_contact
| create_crm_opportunity
| list_crm_opportunities
| get_crm_accounts.

(** The [case] label of a branch. *)
Definition label (b : Branch) : string :=
  match b with
  | create_crm_contact => "create_crm_contact"
  | search_crm_contacts => "search_crm_contacts"
  | get_crm_contact => "get_crm_contact"
  | create_crm_opportunity => "create_crm_opportunity"
  | list_crm_opportunities => "list_crm_opportunities"
  | get_crm_accounts => "get_crm_accounts"
  end.

Definition switch (name : string) : option Branch :=
  if name =? "create_crm_contact" then Some create_crm_contact
  else if name =? "search_crm_contacts" then Some search_crm_contacts
  else if name =? "get_crm_contact" then Some get_crm_contact
  else if name =? "create_crm_opportunity" then Some create_crm_opportunity
  else if name =? "list_crm_opportunities" then Some list_crm_opportunities
  else if name =? "get_crm_accounts" then Some get_crm_accounts
  else None.

Definition dispatch (name : string) (args : JSValue) : M InvocationResult :=
  match switch name with
  | Some create_crm_contact => case_create_crm_contact args
  | Some search_crm_contacts => case_search_crm_contacts args
  | Some get_crm_contact => case_get_crm_contact args
  | Some create_crm_opportunity => case_create_crm_opportunity args
  | Some list_crm_opportunities => case_list_crm_opportunities args
  | Some get_crm_accounts => case_get_crm_accounts args
  | None => throw (Error ("Unknown tool: " +++ name))
  end.

(** The [CallToolRequestSchema] handler: the [switch] inside [try], and the
    [catch] that turns what was thrown into an error result.  The SDK has
    parsed the request against the schema before it calls the handler, so
    [name] is a string; [args] is whatever [arguments] held, [undefined]
    when the request had none. *)
Definition call_tool (name : string) (args : JSValue) : M InvocationResult :=
  try_catch (dispatch name args)
    (fun error =>
       logError ("Error executing tool " +++ name +++ ":") ;;;
       ret (error_result ("Error: " +++ message error))).

(** One request on the invocation channel. *)
Definition handle (req : Request) : M Response :=
  match req with
  | ListTools => ts <- list_tools ;; ret (ToolList ts)
  | CallTool name args => r <- call_tool name args ;; ret (ToolResult r)
  end.

(** [start()]: the connection check, then [app.listen(PORT, ...)] and
    [server.connect(transport)].  The lines the callback of [listen] logs
    once the port is bound are not part of the steps. *)
Definition start (PORT : JSValue) : list Startup :=
  Did (Logged "🚀 Starting Merge MCP Server...") ::
  Did (Logged "🔄 Connecting to Merge unified API...") ::
  let (t, connected) := verifyMergeConnection in
  map Did t ++
  match connected with
  | inr true =>
      [Listening PORT;
       Connected;
       Did (Logged "📡 Merge MCP Server connected via stdio")]
  | _ =>
      [Did (Logged "Failed to connect to Merge. Check your API credentials.");
       Exited 1]
  end.

(** [getContacts(cursor, pageSize)] *)
Definition getContacts (cursor pageSize : JSValue) : M JSValue :=
  page_request "/crm/v1/contacts" cursor pageSize.

(** [updateContact(contactId, updates)] *)
Definition updateContact (contactId updates : JSValue) : M JSValue :=
  id <- to_string contactId ;;
  makeRequest ("/crm/v1/contacts/" +++ id) "PATCH"
    (JObj [("model", updates)]).

(** [createAccount(accountData)] *)
Definition createAccount (accountData : JSValue) : M JSValue :=
  makeRequest "/crm/v1/accounts" "POST" (JObj [("model", accountData)]).

(** [app.get('/health', ...)]; [now] is what [new Date().toISOString()]
    gives when the reply is built. *)
Definition health (now : string) : M HttpReply :=
  try_catch
    (accountDetails <- getAccountDetails ;;
     integration <- get_prop accountDetails "integration" ;;
     integration <- or_else (opt_prop integration "name")
                      (ret (JStr "Unknown")) ;;
     account_id <- get_prop accountDetails "id" ;;
     ret {| reply_status := 200;
            reply_json :=
              JObj [("status", JStr "healthy");
                    ("service", JStr "merge-mcp-server");
                    ("integration", integration);
                    ("account_id", account_id);
                    ("timestamp", JStr now)] |})
    (fun error =>
       ret {| reply_status := 503;
              reply_json :=
                JObj [("status", JStr "unhealthy");
                      ("error", JStr (message error));
                      ("timestamp", JStr now)] |}).

(** [app.get('/info', ...)] *)
Definition info : HttpReply :=
  {| reply_status := 200;
     reply_json :=
       JObj [("service", JStr "merge-mcp-server");
             ("version", JStr "1.0.0");
             ("api_provider", JStr "Merge.dev");
             ("mcp_protocol", JStr "2024-11-05");
             ("note",
              JStr "This server communicates via stdio, not HTTP. Use a proper MCP client.")] |}.

End Server.

(** The module body from its first line to the call of [start()]: the checks
    of the environment, each ending the process through [process.exit(1)]. *)
Definition main {rt : Runtime} (env : string -> option string)
  (fetch : string -> FetchOptions -> Exn + HttpResponse) : list Startup :=
  let MERGE_API_KEY := env "MERGE_API_KEY" in
  let MERGE_ACCOUNT_TOKEN := env "MERGE_ACCOUNT_TOKEN" in
  let PORT := if truthy_env (env "PORT")
              then JStr (env_value (env "PORT")) else JInt 8002 in
  if negb (truthy_env MERGE_API_KEY) then
    [Did (Logged "MERGE_API_KEY environment variable is required");
     Did (Logged "Get your API key from: https://app.merge.dev/keys");
     Exited 1]
  else if negb (truthy_env MERGE_ACCOUNT_TOKEN) then
    [Did (Logged "MERGE_ACCOUNT_TOKEN environment variable is required");
     Did (Logged "This connects to your specific CRM integration (Salesforce, HubSpot, etc.)");
     Exited 1]
  else
    start (env_value MERGE_API_KEY) (env_value MERGE_ACCOUNT_TOKEN) fetch PORT.

End Merge.

(** * What the statements are written with *)

(** A result is well formed when its content is one text block. *)
Definition well_formed (r : InvocationResult) : Prop :=
  exists t, content r = [{| type := "text"; text := t |}].

(** A start-up that ends in [process.exit(code)] with [code] not zero, having
    bound neither the health port nor the stdio channel, and having sent
    nothing upstream. *)
Definition exits_before_binding (steps : list Startup) : Prop :=
  exists lines code,
    steps = map (fun l => Did (Logged l)) lines ++ [Exited code] /\
    code <> 0%Z.

(** The limit a listing handler works with: the [limit] of the arguments, or
    10 when the arguments have none. *)
Definition limit_of (fields : list (string * JSValue)) : JSValue :=
  match lookup "limit" fields with
  | JUndefined => JInt 10
  | _ => lookup "limit" fields
  end.

(** The options of a [GET] request of the Merge client. *)
Definition get_request (apiKey accountToken : string) : FetchOptions :=
  {| method := "GET";
     headers := [("Authorization", "Bearer " +++ apiKey);
                 ("X-Account-Token", accountToken);
                 ("Content-Type", "application/json");
                 ("User-Agent", "MCP-Demo/1.0.0")];
     body := None |}.

(** ** Contacts: what the search reads of one

    A record holds what a tool reads of a payload; [js_of_contact] and the
    like build the smallest payload of a record, to run the examples on. *)

Record Contact : Type := {
  id : string;
  first_name : option string;
  last_name : option string;
  email_addresses : list (option string)
}.

Definition js_of_option (o : option string) : JSValue :=
  match o with
  | Some s => JStr s
  | None => JNull
  end.

Definition js_of_contact (c : Contact) : JSValue :=
  JObj [("id", JStr (id c));
        ("first_name", js_of_option (first_name c));
        ("last_name", js_of_option (last_name c));
        ("email_addresses",
         JArr (map (fun e => JObj [("email_address", js_of_option e)])
                 (email_addresses c)))].

Section SearchSpec.
Context {rt : Runtime}.

(** [query] occurs in [field], case aside. *)
Definition occurs_in (query field : string) : Prop :=
  exists before after,
    toLowerCase field = before +++ toLowerCase query +++ after.

(** The contacts a search for [query] is about: the query occurs in the
    first name, in the last name or in one of the email addresses. *)
Definition matches (query : string) (c : Contact) : Prop :=
  (exists s, first_name c = Some s /\ occurs_in query s) \/
  (exists s, last_name c = Some s /\ occurs_in query s) \/
  (exists s, In (Some s) (email_addresses c) /\ occurs_in query s).

Definition occurs_inb (query : string) (field : option string) : bool :=
  match field with
  | Some s => includes (toLowerCase s) (toLowerCase query)
  | None => false
  end.

Definition matchesb (query : string) (c : Contact) : bool :=
  occurs_inb query (first_name c) ||
  occurs_inb query (last_name c) ||
  existsb (occurs_inb query) (email_addresses c).

Definition text_or (o : option string) (fallback : string) : string :=
  match o with
  | Some s => if s =? EmptyString then fallback else s
  | None => fallback
  end.

(** The line that lists a contact. *)
Definition listed_line (c : Contact) : string :=
  trim (text_or (first_name c) EmptyString +++ " " +++
        text_or (last_name c) EmptyString) +++
  " (" +++ text_or (hd None (email_addresses c)) "No email" +++
  ") - ID: " +++ id c.

(** The text that lists the contacts [cs] found for [query]. *)
Definition listing (query : string) (cs : list Contact) : string :=
  match cs with
  | [] => "No contacts found for " +++ dq +++ query +++ dq
  | _ =>
      "Found " +++ string_of_nat (List.length cs) +++ " contact(s):" +++
      nl +++ nl +++ join nl (map listed_line cs)
  end.

End SearchSpec.

(** ** A runtime to run the examples with

    ASCII case folding and white space, decimal integer literals, and a
    [JSON.stringify] that does not escape. *)

Definition lower_ascii (c : ascii) : ascii :=
  let n := nat_of_ascii c in
  if (65 <=? n)%nat && (n <=? 90)%nat then ascii_of_nat (n + 32) else c.

Fixpoint lower_string (s : string) : string :=
  match s with
  | EmptyString => EmptyString
  | String c rest => String (lower_ascii c) (lower_string rest)
  end.

Definition is_space (c : ascii) : bool :=
  let n := nat_of_ascii c in
  ((9 <=? n)%nat && (n <=? 13)%nat) || (n =? 32)%nat.

Fixpoint trim_start (s : string) : string :=
  match s with
  | EmptyString => EmptyString
  | String c rest => if is_space c then trim_start rest else s
  end.

Fixpoint reverse (s acc : string) : string :=
  match s with
  | EmptyString => acc
  | String c rest => reverse rest (String c acc)
  end.

Definition trim_ascii (s : string) : string :=
  reverse (trim_start (reverse (trim_start s) EmptyString)) EmptyString.

Definition parse_integer (s : string) : Number :=
  let t := trim_ascii s in
  if t =? EmptyString then Int 0
  else match NilEmpty.int_of_string t with
       | Some i => Int (Z.of_int i)
       | None => NaN
       end.

Fixpoint stringify (v : JSValue) : string :=
  match v with
  | JUndefined | JNull | JNum NaN => "null"
  | JBool true => "true"
  | JBool false => "false"
  | JNum (Int z) => string_of_Z z
  | JStr s => dq +++ s +++ dq
  | JArr items =>
      "[" +++ join "," (map stringify items) +++ "]"
  | JObj fields =>
      "{" +++
      join ","
        ((fix each (l : list (string * JSValue)) : list string :=
            match l with
            | [] => []
            | (_, JUndefined) :: rest => each rest
            | (k, x) :: rest =>
                (dq +++ k +++ dq +++ ":" +++ stringify x) :: each rest
            end) fields) +++
      "}"
  end.

Definition ascii_runtime : Runtime :=
  {| StringToNumber := parse_integer;
     JSON_stringify := stringify;
     toLowerCase := lower_string;
     trim := trim_ascii |}.

(** ** Upstreams to run the examples with *)

(** An Octokit whose every call is rejected with [404 Not Found]. *)
Definition octokit_not_found (m : OctokitMethod) (params : JSValue)
  : Exn + JSValue :=
  inl (RequestError 404 "Not Found").

(** An Octokit that creates issue 42 and echoes the title it was given. *)
Definition octokit_echo (m : OctokitMethod) (params : JSValue)
  : Exn + JSValue :=
  inr (JObj [("status", JInt 201);
             ("data",
              JObj [("number", JInt 42);
                    ("title", lookup "title"
                                match params with
                                | JObj fields => fields
                                | _ => []
                                end);
                    ("html_url", JStr "https://x/42");
                    ("state", JStr "open")])]).

(** A Merge upstream that answers every request with one JSON body. *)
Definition fetch_json (page : JSValue) (url : string) (options : FetchOptions)
  : Exn + HttpResponse :=
  inr {| status := 200; bodyText := EmptyString; bodyJson := inr page |}.

(** A Merge upstream that answers every request with one error status. *)
Definition fetch_status (code : Z) (text : string) (url : string)
  (options : FetchOptions) : Exn + HttpResponse :=
  inr {| status := code; bodyText := text; bodyJson := inl (SyntaxError
         "Unexpected token in JSON") |}.

(** A Merge upstream that cannot be reached: [fetch] rejects. *)
Definition fetch_down (url : string) (options : FetchOptions)
  : Exn + HttpResponse :=
  inl (TypeError "fetch failed").

Definition page_of (cs : list Contact) : JSValue :=
  JObj [("next", JNull); ("previous", JNull);
        ("results", JArr (map js_of_contact cs))].

Definition alice : Contact :=
  {| id := "c1"; first_name := Some "Alice"; last_name := Some "Liddell";
     email_addresses := [Some "alice@example.com"] |}.

Definition bob : Contact :=
  {| id := "c2"; first_name := Some "Bob"; last_name := Some "Builder";
     email_addresses := [Some "bob@example.com"] |}.

(** Eleven contacts called Alice, [a1] to [a11]. *)
Definition alices : list Contact :=
  map (fun n => {| id := "a" +++ string_of_nat n;
                   first_name := Some "Alice";
                   last_name := None;
                   email_addresses := [] |})
    (seq 1 11).

(** An environment with the given variables set. *)
Fixpoint env_of (vars : list (string * string)) (k : string) : option string :=
  match vars with
  | [] => None
  | (k', v) :: rest => if k =? k' then Some v else env_of rest k
  end.

(** The requests of a session, handled one after the other. *)
Definition session (handle : Request -> M Response) (requests : list Request)
  : M (list Response) :=
  mapM handle requests.

(** What a computation returns, when it returns: [returns m Q] says that
    every value of [m] satisfies [Q]. *)
Definition returns {A} (m : M A) (Q : A -> Prop) : Prop :=
  forall a, outcome m = inr a -> Q a.

(** A computation that performs no event. *)
Definition silent {A} (m : M A) : Prop := trace m = [].

(** [bad] tells the events that are failed upstream calls, with the error
    each one raises; [surfaces bad m] says that such a call in the trace of
    [m] decides its outcome. *)
Definition surfaces {A} (bad : Event -> option Exn) (m : M A) : Prop :=
  forall ev e, In ev (trace m) -> bad ev = Some e -> outcome m = inl e.

(** An Octokit call that was rejected, and the rejection. *)
Definition octokit_failure
  (octokit : OctokitMethod -> JSValue -> Exn + JSValue) (ev : Event)
  : option Exn :=
  match ev with
  | OctokitCalled m params =>
      match octokit m params with
      | inl e => Some e
      | inr _ => None
      end
  | _ => None
  end.

(** A [fetch] that was rejected or answered with a status outside 2xx, and
    the error [makeRequest] throws for it. *)
Definition fetch_failure
  (fetch : string -> FetchOptions -> Exn + HttpResponse) (ev : Event)
  : option Exn :=
  match ev with
  | Fetched url options =>
      match fetch url options with
      | inl e => Some e
      | inr response =>
          if ok response then None else Some (Merge.api_error response)
      end
  | _ => None
  end.

(** ** Traces *)

(** Every event of [m] satisfies [P]. *)
Definition every {A} (P : Event -> Prop) (m : M A) : Prop :=
  forall ev, In ev (trace m) -> P ev.

Definition is_upstream (ev : Event) : bool :=
  match ev with
  | Logged _ => false
  | Fetched _ _ | OctokitCalled _ _ => true
  end.

(** The number of requests a trace sends upstream. *)
Definition upstream_calls (t : list Event) : nat :=
  List.length (filter is_upstream t).

(** The headers every request of the Merge client carries. *)
Definition merge_headers (apiKey accountToken : string)
  : list (string * string) :=
  [("Authorization", "Bearer " +++ apiKey);
   ("X-Account-Token", accountToken);
   ("Content-Type", "application/json");
   ("User-Agent", "MCP-Demo/1.0.0")].

(** A request of the Merge client: the text of its URL begins with the base
    URL, it carries the credentials, and it has no body when its method is
    the text [GET].  The endpoint is appended to the base URL as it is, so
    this says nothing of the URL the text is parsed to. *)
Definition client_request (apiKey accountToken : string) (ev : Event) : Prop :=
  match ev with
  | Fetched url options =>
      prefix Merge.baseURL url = true /\
      headers options = merge_headers apiKey accountToken /\
      (method options = "GET" -> body options = None)
  | Logged _ => True
  | OctokitCalled _ _ => False
  end.

(** What a tool of the Merge server does: it sends a [GET] without a body
    or a [POST] with one, to a URL whose text is the base URL, [/crm/v1/]
    and a path, and the only line it logs is the failure of a request. *)
Definition tool_request {rt : Runtime} (apiKey accountToken : string)
  (ev : Event) : Prop :=
  match ev with
  | Fetched url options =>
      (exists path, url = Merge.baseURL +++ "/crm/v1/" +++ path) /\
      headers options = merge_headers apiKey accountToken /\
      ((method options = "GET" /\ body options = None) \/
       (method options = "POST" /\
        exists data, body options = Some (JSON_stringify data)))
  | Logged line => exists msg, line = "Merge API request failed: " +++ msg
  | OctokitCalled _ _ => False
  end.

(** What a tool of the GitHub server does: it calls a method of Octokit on
    issues with parameters that name the configured owner and repository,
    and logs nothing.  The route a method requests with its parameters is
    Octokit's. *)
Definition repository_call (owner repo : string) (ev : Event) : Prop :=
  match ev with
  | OctokitCalled m (JObj params) =>
      m <> ReposGet /\
      lookup "owner" params = JStr owner /\
      lookup "repo" params = JStr repo
  | _ => False
  end.

(** The data of a call that names the configured owner and repository. *)
Definition in_repository (owner repo : string)
  (fields : list (string * JSValue)) : Prop :=
  lookup "owner" fields = JStr owner /\ lookup "repo" fields = JStr repo.

(** Every way a request of the Merge client fails, with the error
    [makeRequest] throws: the transport rejects, the status is outside 2xx,
    or the body of a 2xx answer is not JSON. *)
Definition fetch_error
  (fetch : string -> FetchOptions -> Exn + HttpResponse) (ev : Event)
  : option Exn :=
  match ev with
  | Fetched url options =>
      match fetch url options with
      | inl e => Some e
      | inr response =>
          if ok response
          then match bodyJson response with
               | inl e => Some e
               | inr _ => None
               end
          else Some (Merge.api_error response)
      end
  | _ => None
  end.

(** [m] logs the failure of every failed request it made. *)
Definition announces {A} (bad : Event -> option Exn) (m : M A) : Prop :=
  forall ev e,
    In ev (trace m) -> bad ev = Some e ->
    In (Logged ("Merge API request failed: " +++ message e)) (trace m).

(** ** What the other tools read of the records of the two APIs *)

Record Issue : Type := {
  issue_number : Z;
  issue_title : string;
  issue_state : string;
  issue_url : string;
  issue_created : string;
  issue_updated : string;
  issue_body : option string;
  issue_labels : list string
}.

Definition js_of_issue (i : Issue) : JSValue :=
  JObj [("number", JInt (issue_number i));
        ("title", JStr (issue_title i));
        ("state", JStr (issue_state i));
        ("html_url", JStr (issue_url i));
        ("created_at", JStr (issue_created i));
        ("updated_at", JStr (issue_updated i));
        ("body", js_of_option (issue_body i));
        ("labels",
         JArr (map (fun l => JObj [("name", JStr l)]) (issue_labels i)))].

(** The two lines for an issue in the list of issues. *)
Definition issue_entry (i : Issue) : string :=
  "#" +++ string_of_Z (issue_number i) +++ ": " +++ issue_title i +++
  " (" +++ issue_state i +++ ")" +++ nl +++ "  " +++ issue_url i.

(** The text of the list of issues; for no issue it is the heading alone. *)
Definition issues_text (issues : list Issue) : string :=
  "Found " +++ string_of_nat (List.length issues) +++ " issues:" +++
  nl +++ nl +++ join (nl +++ nl) (map issue_entry issues).

(** The text of one issue. *)
Definition issue_text (i : Issue) : string :=
  "Issue #" +++ string_of_Z (issue_number i) +++ ": " +++ issue_title i +++
  nl +++ nl +++
  "State: " +++ issue_state i +++ nl +++
  "Created: " +++ issue_created i +++ nl +++
  "Updated: " +++ issue_updated i +++ nl +++
  "URL: " +++ issue_url i +++ nl +++ nl +++
  "Body:" +++ nl +++
  match issue_body i with
  | Some b => if b =? EmptyString then "No description provided." else b
  | None => "No description provided."
  end.










(** A contact with the fields the details tool shows. *)
Record ContactDetails : Type := {
  basics : Contact;
  phone_numbers : list (option string);
  remote_id : option string;
  created_at : option string;
  modified_at : option string
}.

Definition js_of_details (d : ContactDetails) : JSValue :=
  JObj [("id", JStr (id (basics d)));
        ("first_name", js_of_option (first_name (basics d)));
        ("last_name", js_of_option (last_name (basics d)));
        ("email_addresses",
         JArr (map (fun e => JObj [("email_address", js_of_option e)])
                 (email_addresses (basics d))));
        ("phone_numbers",
         JArr (map (fun p => JObj [("phone_number", js_of_option p)])
                 (phone_numbers d)));
        ("remote_id", js_of_option (remote_id d));
        ("created_at", js_of_option (created_at d));
        ("modified_at", js_of_option (modified_at d))].

Definition details_text {rt : Runtime} (d : ContactDetails) : string :=
  "Contact Details:" +++ nl +++
  "Name: " +++
  trim (text_or (first_name (basics d)) EmptyString +++ " " +++
        text_or (last_name (basics d)) EmptyString) +++ nl +++
  "Email: " +++
  text_or (hd None (email_addresses (basics d))) "No email" +++ nl +++
  "Phone: " +++ text_or (hd None (phone_numbers d)) "No phone" +++ nl +++
  "ID: " +++ id (basics d) +++ nl +++
  "Remote ID: " +++ text_or (remote_id d) "N/A" +++ nl +++
  "Created: " +++ text_or (created_at d) "Unknown" +++ nl +++
  "Modified: " +++ text_or (modified_at d) "Unknown".

(** The text that lists the contacts found without a query. *)
Definition plain_listing {rt : Runtime} (cs : list Contact) : string :=
  match cs with
  | [] => "No contacts found"
  | _ =>
      "Found " +++ string_of_nat (List.length cs) +++ " contact(s):" +++
      nl +++ nl +++ join nl (map listed_line cs)
  end.

(** The options of a [POST] of [data] by the Merge client. *)
Definition post_request {rt : Runtime} (apiKey accountToken : string)
  (data : JSValue) : FetchOptions :=
  {| method := "POST";
     headers := merge_headers apiKey accountToken;
     body := Some (JSON_stringify data) |}.

(** The tools whose handler reads its arguments before anything else. *)
Definition reads_arguments_first : list string :=
  ["create_github_issue"; "list_github_issues"; "get_github_issue";
   "search_crm_contacts"; "get_crm_contact"; "list_crm_opportunities";
   "get_crm_accounts"].

(** The parameters the list-issues tool gives Octokit for the arguments
    [fields] whose limit is the number [n]. *)
Definition issues_query (owner repo : string)
  (fields : list (string * JSValue)) (n : Z) : list (string * JSValue) :=
  [("owner", JStr owner); ("repo", JStr repo);
   ("state", match lookup "state" fields with
             | JUndefined => JStr "open"
             | _ => lookup "state" fields
             end);
   ("per_page", JInt (Z.min n 100))] ++
  (if truthy (lookup "labels" fields)
   then [("labels", lookup "labels" fields)] else []).

Definition is_object (v : JSValue) : bool :=
  match v with
  | JObj _ => true
  | _ => false
  end.

(** Of the values that are not objects, those that are truthy and have a
    [length] above zero: the arrays and the strings that are not empty. *)
Definition has_items (v : JSValue) : bool :=
  match v with
  | JArr (_ :: _) => true
  | JStr (String _ _) => true
  | _ => false
  end.

(** The data the create-issue tool gives Octokit for the arguments
    [fields]. *)
Definition new_issue (owner repo : string) (fields : list (string * JSValue))
  : list (string * JSValue) :=
  [("owner", JStr owner); ("repo", JStr repo);
   ("title", lookup "title" fields);
   ("body", if truthy (lookup "body" fields) then lookup "body" fields
            else JStr EmptyString)] ++
  (if has_items (lookup "labels" fields)
   then [("labels", lookup "labels" fields)] else []) ++
  (if has_items (lookup "assignees" fields)
   then [("assignees", lookup "assignees" fields)] else []).

(** An Octokit that answers every call with [data]. *)
Definition octokit_data (data : JSValue) (m : OctokitMethod)
  (params : JSValue) : Exn + JSValue :=
  inr (JObj [("data", data)]).

Definition crash_issue : Issue :=
  {| issue_number := 7; issue_title := "Crash"; issue_state := "open";
     issue_url := "https://x/7"; issue_created := "2025-01-01";
     issue_updated := "2025-01-02"; issue_body := None;
     issue_labels := ["bug"] |}.


(** What [fetch_json] answers with. *)
Definition answer (page : JSValue) : HttpResponse :=
  {| status := 200; bodyText := EmptyString; bodyJson := inr page |}.





Definition alice_details : ContactDetails :=
  {| basics := alice; phone_numbers := []; remote_id := None;
     created_at := Some "2025-01-01"; modified_at := None |}.

(** The account details of a linked HubSpot account. *)
Definition hubspot : list (string * JSValue) :=
  [("id", JStr "acct-1");
   ("integration", JObj [("name", JStr "HubSpot")])].

(** An argument that may be missing: the string it holds, or none when it
    is [undefined] or [null]. *)
Definition optional_text (v : JSValue) (o : option string) : Prop :=
  match o with
  | Some s => v = JStr s
  | None => nullish v = true
  end.

(** The flag of the result of an invocation, if it has returned one. *)
Definition isError_of (o : Exn + InvocationResult) : option bool :=
  match o with
  | inr r => isError r
  | inl _ => None
  end.

(** The integers a number holds exactly, [Number.isSafeInteger]. *)
Definition safe_integer (z : Z) : Prop :=
  (Z.abs z <=? 9007199254740991)%Z = true.

Definition optional_amount (v : JSValue) (a : option Z) : Prop :=
  match a with
  | Some z => v = JInt z /\ safe_integer z
  | None => nullish v = true
  end.

(** ** Payloads, by what the handlers read of them

    A payload is told by the properties a handler reads of it; it may hold
    any other property, and its properties come in any order. *)

(** An entry of a list of email addresses or phone numbers. *)
Definition entry_of (key : string) (v : JSValue) (o : option string) : Prop :=
  exists fields, v = JObj fields /\ optional_text (lookup key fields) o.

(** A list of such entries, which may be missing. *)
Definition entries_of (key : string) (v : JSValue) (os : list (option string))
  : Prop :=
  (nullish v = true /\ os = []) \/
  (exists items, v = JArr items /\ Forall2 (entry_of key) items os).

Definition contact_fields (fields : list (string * JSValue)) (c : Contact)
  : Prop :=
  lookup "id" fields = JStr (id c) /\
  optional_text (lookup "first_name" fields) (first_name c) /\
  optional_text (lookup "last_name" fields) (last_name c) /\
  entries_of "email_address" (lookup "email_addresses" fields)
    (email_addresses c).

(** [v] is the contact [c] of a page of contacts. *)
Definition contact_of (v : JSValue) (c : Contact) : Prop :=
  exists fields, v = JObj fields /\ contact_fields fields c.

(** [v] is the contact [d] the details tool is answered with. *)
Definition details_of (v : JSValue) (d : ContactDetails) : Prop :=
  exists fields,
    v = JObj fields /\
    contact_fields fields (basics d) /\
    entries_of "phone_number" (lookup "phone_numbers" fields)
      (phone_numbers d) /\
    optional_text (lookup "remote_id" fields) (remote_id d) /\
    optional_text (lookup "created_at" fields) (created_at d) /\
    optional_text (lookup "modified_at" fields) (modified_at d).



Definition issue_fields (fields : list (string * JSValue)) (i : Issue) : Prop :=
  lookup "number" fields = JInt (issue_number i) /\
  safe_integer (issue_number i) /\
  lookup "title" fields = JStr (issue_title i) /\
  lookup "state" fields = JStr (issue_state i) /\
  lookup "html_url" fields = JStr (issue_url i).

(** [v] is the issue [i] of a page of issues: besides what is shown, the
    list tool reads the names of its labels. *)
Definition listed_issue (v : JSValue) (i : Issue) : Prop :=
  exists fields labels,
    v = JObj fields /\
    issue_fields fields i /\
    lookup "labels" fields = JArr labels /\
    Forall (fun label => nullish label = false) labels.

(** [v] is the issue [i] the get tool is answered with. *)
Definition shown_issue (v : JSValue) (i : Issue) : Prop :=
  exists fields,
    v = JObj fields /\
    issue_fields fields i /\
    lookup "created_at" fields = JStr (issue_created i) /\
    lookup "updated_at" fields = JStr (issue_updated i) /\
    optional_text (lookup "body" fields) (issue_body i).

(** ** Sessions and start-up *)

Definition is_invocation (req : Request) : bool :=
  match req with
  | CallTool _ _ => true
  | ListTools => false
  end.

(** A response that answers a request: the catalog for a catalog query, a
    well-formed result for an invocation. *)
Definition answers (catalog : list ToolDescriptor) (req : Request)
  (resp : Response) : Prop :=
  match req, resp with
  | ListTools, ToolList ts => ts = catalog
  | CallTool _ _, ToolResult r => well_formed r
  | _, _ => False
  end.

(** [process.env.PORT || default] *)
Definition port_of (env : string -> option string) (default : Z) : JSValue :=
  if truthy_env (env "PORT") then JStr (env_value (env "PORT"))
  else JInt default.

(** The parameters of the [repos.get] that probes the repository. *)
Definition repository (owner repo : string) : JSValue :=
  JObj [("owner", JStr owner); ("repo", JStr repo)].

(** The URL of the request that probes the Merge account. *)
Definition probe_url : string := Merge.baseURL +++ "/crm/v1/account-details".

(** * The effect monad *)

Lemma outcome_bind {A B} (m : M A) (f : A -> M B) :
  outcome (bind m f) =
  match outcome m with
  | inl e => inl e
  | inr a => outcome (f a)
  end.
Proof.
  destruct m as [t [e | a]]; simpl; [reflexivity |].
  destruct (f a); reflexivity.
Qed.

Lemma trace_bind {A B} (m : M A) (f : A -> M B) :
  trace (bind m f) =
  trace m ++ match outcome m with
             | inl _ => []
             | inr a => trace (f a)
             end.
Proof.
  destruct m as [t [e | a]]; simpl.
  - now rewrite app_nil_r.
  - destruct (f a); reflexivity.
Qed.

Lemma outcome_try_catch {A} (m : M A) (h : Exn -> M A) :
  outcome (try_catch m h) =
  match outcome m with
  | inl e => outcome (h e)
  | inr a => inr a
  end.
Proof.
  destruct m as [t [e | a]]; simpl; [| reflexivity].
  destruct (h e); reflexivity.
Qed.

Lemma trace_try_catch {A} (m : M A) (h : Exn -> M A) :
  trace (try_catch m h) =
  trace m ++ match outcome m with
             | inl e => trace (h e)
             | inr _ => []
             end.
Proof.
  destruct m as [t [e | a]]; simpl.
  - destruct (h e); reflexivity.
  - now rewrite app_nil_r.
Qed.

Lemma bind_ret {A B} (a : A) (f : A -> M B) : bind (ret a) f = f a.
Proof. unfold bind, ret. now destruct (f a). Qed.

Lemma bind_throw {A B} (e : Exn) (f : A -> M B) : bind (throw e) f = throw e.
Proof. reflexivity. Qed.

Lemma outcome_ret {A} (a : A) : outcome (ret a) = inr a.
Proof. reflexivity. Qed.

Lemma returns_ret {A} (a : A) (Q : A -> Prop) : Q a -> returns (ret a) Q.
Proof. intros H b E. now inversion E; subst. Qed.

Lemma returns_throw {A} (e : Exn) (Q : A -> Prop) : returns (throw e) Q.
Proof. intros b E. discriminate E. Qed.

Lemma returns_bind {A B} (m : M A) (f : A -> M B) (Q : B -> Prop) :
  (forall a, returns (f a) Q) -> returns (bind m f) Q.
Proof.
  intros H b. rewrite outcome_bind.
  destruct (outcome m) as [e | a]; [discriminate | apply H].
Qed.

(** Walks a handler down to each of its [return]s. *)
Ltac to_returns :=
  repeat first
    [ apply returns_bind; intro
    | apply returns_ret
    | apply returns_throw
    | match goal with
      | |- returns (if ?b then _ else _) _ => destruct b
      | |- returns (match ?x with _ => _ end) _ => destruct x
      end ].

Lemma silent_ret {A} (a : A) : silent (ret a).
Proof. reflexivity. Qed.

Lemma silent_throw {A} (e : Exn) : silent (@throw A e).
Proof. reflexivity. Qed.

Lemma silent_bind {A B} (m : M A) (f : A -> M B) :
  silent m -> (forall a, silent (f a)) -> silent (bind m f).
Proof.
  unfold silent. intros Hm Hf. rewrite trace_bind, Hm.
  destruct (outcome m); [reflexivity | apply Hf].
Qed.

Lemma silent_mapM {A B} (f : A -> M B) (l : list A) :
  (forall a, silent (f a)) -> silent (mapM f l).
Proof.
  intros Hf. induction l as [| x rest IH]; simpl.
  - apply silent_ret.
  - apply silent_bind; [apply Hf | intro].
    apply silent_bind; [apply IH | intro]. apply silent_ret.
Qed.

(** * Strings *)

Lemma prefix_append (s t : string) : prefix s (s +++ t) = true.
Proof.
  induction s as [| c s IH]; simpl; [now destruct t |].
  destruct (ascii_dec c c) as [_ | N]; [exact IH | now elim N].
Qed.

Lemma includes_prefix (s t : string) : prefix t s = true -> includes s t = true.
Proof. intro H. destruct s; cbn [includes]; now rewrite H. Qed.

Lemma prefix_split (s t : string) :
  prefix s t = true -> exists rest, t = s +++ rest.
Proof.
  revert t. induction s as [| c s IH]; intros t H.
  - now exists t.
  - destruct t as [| d t]; simpl in H; [discriminate |].
    destruct (ascii_dec c d) as [-> | _]; [| discriminate].
    destruct (IH t H) as [rest ->]. now exists rest.
Qed.

Lemma includes_append (before s after : string) :
  includes (before +++ s +++ after) s = true.
Proof.
  induction before as [| c before IH]; simpl.
  - apply includes_prefix, prefix_append.
  - rewrite IH. apply orb_true_r.
Qed.

Lemma append_empty (s : string) : s +++ EmptyString = s.
Proof. induction s as [| c s IH]; simpl; [reflexivity | now rewrite IH]. Qed.

Lemma includes_tail (before s : string) : includes (before +++ s) s = true.
Proof.
  pose proof (includes_append before s EmptyString) as H.
  now rewrite append_empty in H.
Qed.

Lemma includes_split (s t : string) :
  includes s t = true -> exists before after, s = before +++ t +++ after.
Proof.
  induction s as [| c s IH]; cbn [includes]; intro H.
  - rewrite orb_false_r in H. apply prefix_split in H as [rest ->].
    now exists EmptyString, rest.
  - apply orb_true_iff in H as [H | H].
    + apply prefix_split in H as [rest ->]. now exists EmptyString, rest.
    + destruct (IH H) as (before & after & ->).
      now exists (String c before), after.
Qed.

Lemma includes_iff (s t : string) :
  includes s t = true <-> exists before after, s = before +++ t +++ after.
Proof.
  split; [apply includes_split |].
  intros (before & after & ->). apply includes_append.
Qed.

(** * The JavaScript operations perform no event *)

Create HintDb js_ops discriminated.

#[global] Hint Unfold get_prop destructure destructure_default or_else
  to_number Math_min greater_than slice_end slice0 array_receiver array_map
  array_filter array_some call_toLowerCase show_prop : js_ops.

Lemma silent_to_string (v : JSValue) : silent (to_string v).
Proof.
  revert v. fix IH 1.
  intros [| | [] | n | s | items | fields]; simpl; try reflexivity.
  - apply silent_bind; [| intro; apply silent_ret].
    induction items as [| x rest IHrest]; [apply silent_ret |].
    apply silent_bind; [| intro].
    + pose proof (IH x) as Hx. destruct x; solve [apply silent_ret | exact Hx].
    + apply silent_bind; [exact IHrest | intro; apply silent_ret].
  - destruct (has_key "toString" fields); reflexivity.
Qed.

Lemma silent_filterM (p : JSValue -> M JSValue) (l : list JSValue) :
  (forall x, silent (p x)) -> silent (filterM p l).
Proof.
  intros Hp. induction l as [| x rest IH]; simpl.
  - apply silent_ret.
  - apply silent_bind; [apply Hp | intro].
    apply silent_bind; [apply IH | intro]. apply silent_ret.
Qed.

Lemma silent_someM (p : JSValue -> M JSValue) (l : list JSValue) :
  (forall x, silent (p x)) -> silent (someM p l).
Proof.
  intros Hp. induction l as [| x rest IH]; simpl.
  - apply silent_ret.
  - apply silent_bind; [apply Hp | intro hit].
    destruct (truthy hit); [apply silent_ret | apply IH].
Qed.

(** Proves that a computation built from the operations above is silent. *)
Ltac silence :=
  autounfold with js_ops;
  repeat first
    [ apply silent_ret
    | apply silent_throw
    | apply silent_to_string
    | apply silent_bind; [| intro]
    | apply silent_mapM; intro
    | apply silent_filterM; intro
    | apply silent_someM; intro
    | match goal with
      | |- silent (if ?b then _ else _) => destruct b
      | |- silent (match ?x with _ => _ end) => destruct x
      end
    | progress autounfold with js_ops ].

(** ** Failures of the upstream *)

Lemma surfaces_silent {A} bad (m : M A) : silent m -> surfaces bad m.
Proof. intros S ev e H. rewrite S in H. destruct H. Qed.

Lemma surfaces_bind {A B} bad (m : M A) (f : A -> M B) :
  surfaces bad m -> (forall a, surfaces bad (f a)) -> surfaces bad (bind m f).
Proof.
  intros Hm Hf ev e. rewrite trace_bind, outcome_bind. intros H Bad.
  apply in_app_or in H as [H | H].
  - now rewrite (Hm ev e H Bad).
  - destruct (outcome m) as [e' | a]; [destruct H |].
    exact (Hf a ev e H Bad).
Qed.

(** * The catalog and the switch *)

(** Splits on the comparisons of [n] with the [case] labels, first to last. *)
Ltac by_label n :=
  repeat match goal with
         | |- context [String.eqb n ?s] =>
             destruct (String.eqb_spec n s); [subst n |]
         end.

Lemma github_tool_names :
  map name GitHub.tools =
  ["create_github_issue"; "list_github_issues"; "get_github_issue"].
Proof. reflexivity. Qed.

Lemma merge_tool_names :
  map name Merge.tools =
  ["create_crm_contact"; "search_crm_contacts"; "get_crm_contact";
   "create_crm_opportunity"; "list_crm_opportunities"; "get_crm_accounts"].
Proof. reflexivity. Qed.

Lemma github_switch_label (n : string) (b : GitHub.Branch) :
  GitHub.switch n = Some b <-> n = GitHub.label b.
Proof.
  unfold GitHub.switch. by_label n;
    (split; [intro H; inversion H; reflexivity
            | intro H; destruct b; simpl in H; congruence]).
Qed.

Lemma merge_switch_label (n : string) (b : Merge.Branch) :
  Merge.switch n = Some b <-> n = Merge.label b.
Proof.
  unfold Merge.switch. by_label n;
    (split; [intro H; inversion H; reflexivity
            | intro H; destruct b; simpl in H; congruence]).
Qed.

Lemma github_switch_catalog (n : string) :
  In n (map name GitHub.tools) <-> exists b, GitHub.switch n = Some b.
Proof.
  rewrite github_tool_names. split.
  - simpl. intros [<- | [<- | [<- | []]]]; eexists; reflexivity.
  - intros [b H]. apply github_switch_label in H. subst n.
    destruct b; simpl; tauto.
Qed.

Lemma merge_switch_catalog (n : string) :
  In n (map name Merge.tools) <-> exists b, Merge.switch n = Some b.
Proof.
  rewrite merge_tool_names. split.
  - simpl. intros [<- | [<- | [<- | [<- | [<- | [<- | []]]]]]];
      eexists; reflexivity.
  - intros [b H]. apply merge_switch_label in H. subst n.
    destruct b; simpl; tauto.
Qed.

Lemma github_switch_default (n : string) :
  ~ In n (map name GitHub.tools) -> GitHub.switch n = None.
Proof.
  intro H. destruct (GitHub.switch n) as [b |] eqn:E; [| reflexivity].
  elim H. apply github_switch_catalog. now exists b.
Qed.

Lemma merge_switch_default (n : string) :
  ~ In n (map name Merge.tools) -> Merge.switch n = None.
Proof.
  intro H. destruct (Merge.switch n) as [b |] eqn:E; [| reflexivity].
  elim H. apply merge_switch_catalog. now exists b.
Qed.




(** * The dispatch boundary *)

Section GitHubBoundary.
Context {rt : Runtime}.
Variables owner repo : string.
Variable octokit : OctokitMethod -> JSValue -> Exn + JSValue.

Lemma github_dispatch_returns_text (n : string) (args : JSValue) :
  returns (GitHub.dispatch owner repo octokit n args) well_formed.
Proof.
  unfold GitHub.dispatch.
  destruct (GitHub.switch n) as [[] |];
    [ unfold GitHub.case_create_github_issue
    | unfold GitHub.case_list_github_issues
    | unfold GitHub.case_get_github_issue
    | ];
    to_returns; eexists; reflexivity.
Qed.

Lemma github_call_tool_outcome (n : string) (args : JSValue) :
  outcome (GitHub.call_tool owner repo octokit n args) =
  match outcome (GitHub.dispatch owner repo octokit n args) with
  | inl e => inr (error_result ("Error: " +++ message e))
  | inr r => inr r
  end.
Proof.
  unfold GitHub.call_tool. rewrite outcome_try_catch.
  destruct (outcome (GitHub.dispatch owner repo octokit n args));
    reflexivity.
Qed.

Lemma github_boundary (n : string) (args : JSValue) :
  exists r,
    outcome (GitHub.call_tool owner repo octokit n args) = inr r /\
    well_formed r /\
    (forall e,
        outcome (GitHub.dispatch owner repo octokit n args) = inl e ->
        r = error_result ("Error: " +++ message e)) /\
    (forall r',
        outcome (GitHub.dispatch owner repo octokit n args) = inr r' ->
        r = r').
Proof.
  rewrite github_call_tool_outcome.
  pose proof (github_dispatch_returns_text n args) as W.
  destruct (outcome (GitHub.dispatch owner repo octokit n args))
    as [e | r] eqn:E.
  - eexists. split; [reflexivity |]. split; [| split].
    + eexists; reflexivity.
    + intros e' H. now inversion H.
    + intros r' H. discriminate H.
  - exists r. split; [reflexivity |]. split; [| split].
    + now apply W.
    + intros e' H. discriminate H.
    + intros r' H. now inversion H.
Qed.

Lemma github_unknown_tool (n : string) (args : JSValue) :
  ~ In n (map name GitHub.tools) ->
  GitHub.call_tool owner repo octokit n args =
  ([Logged ("Error executing tool " +++ n +++ ":")],
   inr (error_result ("Error: Unknown tool: " +++ n))).
Proof.
  intro H. unfold GitHub.call_tool, GitHub.dispatch.
  now rewrite (github_switch_default n H).
Qed.

End GitHubBoundary.

Section MergeBoundary.
Context {rt : Runtime}.
Variables apiKey accountToken : string.
Variable fetch : string -> FetchOptions -> Exn + HttpResponse.

Lemma merge_dispatch_returns_text (n : string) (args : JSValue) :
  returns (Merge.dispatch apiKey accountToken fetch n args) well_formed.
Proof.
  unfold Merge.dispatch.
  destruct (Merge.switch n) as [[] |];
    [ unfold Merge.case_create_crm_contact
    | unfold Merge.case_search_crm_contacts
    | unfold Merge.case_get_crm_contact
    | unfold Merge.case_create_crm_opportunity
    | unfold Merge.case_list_crm_opportunities
    | unfold Merge.case_get_crm_accounts
    | ];
    to_returns; eexists; reflexivity.
Qed.

Lemma merge_call_tool_outcome (n : string) (args : JSValue) :
  outcome (Merge.call_tool apiKey accountToken fetch n args) =
  match outcome (Merge.dispatch apiKey accountToken fetch n args) with
  | inl e => inr (error_result ("Error: " +++ message e))
  | inr r => inr r
  end.
Proof.
  unfold Merge.call_tool. rewrite outcome_try_catch.
  destruct (outcome (Merge.dispatch apiKey accountToken fetch n args));
    reflexivity.
Qed.

Lemma merge_boundary (n : string) (args : JSValue) :
  exists r,
    outcome (Merge.call_tool apiKey accountToken fetch n args) = inr r /\
    well_formed r /\
    (forall e,
        outcome (Merge.dispatch apiKey accountToken fetch n args) = inl e ->
        r = error_result ("Error: " +++ message e)) /\
    (forall r',
        outcome (Merge.dispatch apiKey accountToken fetch n args) = inr r' ->
        r = r').
Proof.
  rewrite merge_call_tool_outcome.
  pose proof (merge_dispatch_returns_text n args) as W.
  destruct (outcome (Merge.dispatch apiKey accountToken fetch n args))
    as [e | r] eqn:E.
  - eexists. split; [reflexivity |]. split; [| split].
    + eexists; reflexivity.
    + intros e' H. now inversion H.
    + intros r' H. discriminate H.
  - exists r. split; [reflexivity |]. split; [| split].
    + now apply W.
    + intros e' H. discriminate H.
    + intros r' H. now inversion H.
Qed.

Lemma merge_unknown_tool (n : string) (args : JSValue) :
  ~ In n (map name Merge.tools) ->
  Merge.call_tool apiKey accountToken fetch n args =
  ([Logged ("Error executing tool " +++ n +++ ":")],
   inr (error_result ("Error: Unknown tool: " +++ n))).
Proof.
  intro H. unfold Merge.call_tool, Merge.dispatch.
  now rewrite (merge_switch_default n H).
Qed.

End MergeBoundary.


(** C2.  A tool name that is not in the catalog of a server makes its
    [call_tool] handler return the error result, [isError: true], whose text
    is [Error: Unknown tool: ] followed by the name; the text contains the
    name. *)
Theorem unknown_tool_is_reported :
  forall (rt : Runtime) (owner repo : string)
         (octokit : OctokitMethod -> JSValue -> Exn + JSValue)
         (apiKey accountToken : string)
         (fetch : string -> FetchOptions -> Exn + HttpResponse)
         (n : string) (args : JSValue),
    (~ In n (map name GitHub.tools) ->
     outcome (GitHub.call_tool owner repo octokit n args) =
       inr (error_result ("Error: Unknown tool: " +++ n))) /\
    (~ In n (map name Merge.tools) ->
     outcome (Merge.call_tool apiKey accountToken fetch n args) =
       inr (error_result ("Error: Unknown tool: " +++ n))) /\
    isError (error_result ("Error: Unknown tool: " +++ n)) = Some true /\
    includes ("Error: Unknown tool: " +++ n) n = true.
Proof.
  intros. repeat split.
  - intro H. now rewrite github_unknown_tool.
  - intro H. now rewrite merge_unknown_tool.
  - apply includes_tail.
Qed.

Lemma unknown_tool_is_reported_witness :
  outcome (GitHub.call_tool (rt := ascii_runtime) "o" "r" octokit_not_found
             "delete_repo" (JObj [])) =
    inr (error_result "Error: Unknown tool: delete_repo") /\
  outcome (Merge.call_tool (rt := ascii_runtime) "k" "t" (fetch_status 500 "")
             "delete_repo" (JObj [])) =
    inr (error_result "Error: Unknown tool: delete_repo").
Proof.
  destruct (unknown_tool_is_reported ascii_runtime "o" "r" octokit_not_found
              "k" "t" (fetch_status 500 EmptyString) "delete_repo" (JObj []))
    as (G & Mg & _).
  split; [apply G | apply Mg]; simpl; intuition discriminate.
Defined.

(** * The catalog query *)

Lemma session_answers (handle : Request -> M Response)
  (tools : list ToolDescriptor) (requests : list Request) :
  (forall req, exists answer, outcome (handle req) = inr answer) ->
  handle ListTools = ret (ToolList tools) ->
  exists answers,
    outcome (session handle requests) = inr answers /\
    List.length answers = List.length requests /\
    (forall i, nth_error requests i = Some ListTools ->
               nth_error answers i = Some (ToolList tools)).
Proof.
  intros Total Catalog. unfold session.
  induction requests as [| req rest (answers & Out & Len & Same)].
  - exists []. repeat split. intros [| i]; discriminate.
  - destruct (Total req) as [answer A].
    exists (answer :: answers). cbn [mapM].
    rewrite outcome_bind, A, outcome_bind, Out. repeat split.
    + simpl. now rewrite Len.
    + intros [| i] H; simpl in *.
      * inversion H; subst req. rewrite Catalog in A. now inversion A.
      * now apply Same.
Qed.

Lemma github_handle_answers {rt : Runtime} owner repo octokit req :
  exists answer, outcome (GitHub.handle owner repo octokit req) = inr answer.
Proof.
  destruct req as [| n args]; [eexists; reflexivity |].
  destruct (github_boundary owner repo octokit n args) as (r & Out & _).
  exists (ToolResult r). unfold GitHub.handle.
  now rewrite outcome_bind, Out.
Qed.

Lemma merge_handle_answers {rt : Runtime} apiKey accountToken fetch req :
  exists answer,
    outcome (Merge.handle apiKey accountToken fetch req) = inr answer.
Proof.
  destruct req as [| n args]; [eexists; reflexivity |].
  destruct (merge_boundary apiKey accountToken fetch n args) as (r & Out & _).
  exists (ToolResult r). unfold Merge.handle.
  now rewrite outcome_bind, Out.
Qed.

(** C9.  In each server the answer to [list_tools] is the catalog, the same
    names, descriptions and input schemas at every call: answering performs
    no event, and in a session of requests, whatever the other requests and
    whatever the upstream does, every [list_tools] of the session gets that
    same answer. *)
Theorem list_tools_is_idempotent :
  forall (rt : Runtime) (owner repo : string)
         (octokit : OctokitMethod -> JSValue -> Exn + JSValue)
         (apiKey accountToken : string)
         (fetch : string -> FetchOptions -> Exn + HttpResponse)
         (requests : list Request),
    (GitHub.handle owner repo octokit ListTools =
       ([], inr (ToolList GitHub.tools)) /\
     exists answers,
       outcome (session (GitHub.handle owner repo octokit) requests) =
         inr answers /\
       List.length answers = List.length requests /\
       (forall i, nth_error requests i = Some ListTools ->
                  nth_error answers i = Some (ToolList GitHub.tools))) /\
    (Merge.handle apiKey accountToken fetch ListTools =
       ([], inr (ToolList Merge.tools)) /\
     exists answers,
       outcome (session (Merge.handle apiKey accountToken fetch) requests) =
         inr answers /\
       List.length answers = List.length requests /\
       (forall i, nth_error requests i = Some ListTools ->
                  nth_error answers i = Some (ToolList Merge.tools))).
Proof.
  intros. split; (split; [reflexivity |]); apply session_answers.
  - intro req. apply github_handle_answers.
  - reflexivity.
  - intro req. apply merge_handle_answers.
  - reflexivity.
Qed.

(** * Start-up *)

Lemma github_exits_without_token env octokit :
  truthy_env (env "GITHUB_TOKEN") = false ->
  exits_before_binding (GitHub.main env octokit).
Proof.
  intro H. unfold GitHub.main. rewrite H. simpl.
  exists ["GITHUB_TOKEN environment variable is required"], 1%Z.
  split; [reflexivity | discriminate].
Qed.

Lemma github_exits_without_repo env octokit :
  truthy_env (env "GITHUB_REPO") = false ->
  exits_before_binding (GitHub.main env octokit).
Proof.
  intro H.
  destruct (truthy_env (env "GITHUB_TOKEN")) eqn:T;
    [| now apply github_exits_without_token].
  unfold GitHub.main. rewrite T, H. simpl.
  exists ["GITHUB_REPO environment variable is required (format: owner/repo)"],
    1%Z.
  split; [reflexivity | discriminate].
Qed.

Lemma merge_exits_without_key {rt : Runtime} env fetch :
  truthy_env (env "MERGE_API_KEY") = false ->
  exits_before_binding (Merge.main env fetch).
Proof.
  intro H. unfold Merge.main. rewrite H. simpl.
  exists ["MERGE_API_KEY environment variable is required";
          "Get your API key from: https://app.merge.dev/keys"], 1%Z.
  split; [reflexivity | discriminate].
Qed.

Lemma merge_exits_without_token {rt : Runtime} env fetch :
  truthy_env (env "MERGE_ACCOUNT_TOKEN") = false ->
  exits_before_binding (Merge.main env fetch).
Proof.
  intro H.
  destruct (truthy_env (env "MERGE_API_KEY")) eqn:T;
    [| now apply merge_exits_without_key].
  unfold Merge.main. rewrite T, H. simpl.
  exists ["MERGE_ACCOUNT_TOKEN environment variable is required";
          "This connects to your specific CRM integration (Salesforce, HubSpot, etc.)"],
    1%Z.
  split; [reflexivity | discriminate].
Qed.

(** C8.  When [GITHUB_TOKEN] or [GITHUB_REPO] is absent from the environment
    of the GitHub server, or [MERGE_API_KEY] or [MERGE_ACCOUNT_TOKEN] from
    that of the Merge server, the process logs and exits with a status that
    is not zero, and nothing comes before the exit but log lines: neither
    the health port nor the stdio channel is bound, and nothing is sent
    upstream. *)
Theorem missing_credential_exits_before_binding :
  forall (rt : Runtime) (env : string -> option string)
         (octokit : OctokitMethod -> JSValue -> Exn + JSValue)
         (fetch : string -> FetchOptions -> Exn + HttpResponse)
         (variable : string),
    env variable = None ->
    (In variable ["GITHUB_TOKEN"; "GITHUB_REPO"] ->
     exits_before_binding (GitHub.main env octokit)) /\
    (In variable ["MERGE_API_KEY"; "MERGE_ACCOUNT_TOKEN"] ->
     exits_before_binding (Merge.main env fetch)).
Proof.
  intros rt env octokit fetch variable Absent. split.
  - intros [<- | [<- | []]].
    + apply github_exits_without_token. now rewrite Absent.
    + apply github_exits_without_repo. now rewrite Absent.
  - intros [<- | [<- | []]].
    + apply merge_exits_without_key. now rewrite Absent.
    + apply merge_exits_without_token. now rewrite Absent.
Qed.

Lemma missing_credential_exits_before_binding_witness :
  exits_before_binding
    (GitHub.main (env_of [("GITHUB_TOKEN", "ghp_x")]) octokit_echo) /\
  exits_before_binding
    (Merge.main (rt := ascii_runtime) (env_of [("MERGE_API_KEY", "live_x")])
       (fetch_json JNull)).
Proof.
  split.
  - apply (missing_credential_exits_before_binding ascii_runtime
             (env_of [("GITHUB_TOKEN", "ghp_x")]) octokit_echo
             (fetch_json JNull) "GITHUB_REPO"); simpl; auto.
  - apply (missing_credential_exits_before_binding ascii_runtime
             (env_of [("MERGE_API_KEY", "live_x")]) octokit_echo
             (fetch_json JNull) "MERGE_ACCOUNT_TOKEN"); simpl; auto.
Defined.

(** * Upstream failures *)

#[global] Hint Unfold Merge.show_model_or Merge.full_name Merge.show_prop_or
  Merge.contact_line Merge.opportunity_line Merge.map_lines Merge.account_line
  Merge.lower_includes Merge.search_filter GitHub.issue_summary
  GitHub.issue_line : js_ops.

(** Walks a handler: [call] settles its upstream request, and everything
    else is silent. *)
Ltac upstream call :=
  repeat first
    [ apply call
    | apply surfaces_silent; solve [silence]
    | apply surfaces_bind; [| intro]
    | match goal with
      | |- surfaces _ (if ?b then _ else _) => destruct b
      | |- surfaces _ (match ?x with _ => _ end) => destruct x
      end ].

(** The [catch] of [call_tool] keeps what [surfaces] says of the [try]. *)
Lemma surfaces_caught bad (m : M InvocationResult) (line : string) ev e :
  surfaces bad m ->
  (forall l, bad (Logged l) = None) ->
  In ev (trace (try_catch m
                  (fun error =>
                     emit (Logged line) ;;;
                     ret (error_result ("Error: " +++ message error))))) ->
  bad ev = Some e ->
  outcome (try_catch m
             (fun error =>
                emit (Logged line) ;;;
                ret (error_result ("Error: " +++ message error)))) =
  inr (error_result ("Error: " +++ message e)).
Proof.
  intros S Log. rewrite trace_try_catch, outcome_try_catch. intros H Bad.
  apply in_app_or in H as [H | H].
  - now rewrite (S ev e H Bad).
  - destruct (outcome m) as [e' | r]; [| destruct H].
    destruct H as [<- | []]. rewrite Log in Bad. discriminate Bad.
Qed.

Section MergeUpstream.
Context {rt : Runtime}.
Variables apiKey accountToken : string.
Variable fetch : string -> FetchOptions -> Exn + HttpResponse.

Lemma surfaces_makeRequest endpoint method data :
  surfaces (fetch_failure fetch)
    (Merge.makeRequest apiKey accountToken fetch endpoint method data).
Proof.
  unfold Merge.makeRequest.
  match goal with
  | |- context [Fetched ?u ?o] => generalize u, o
  end.
  intros url options ev e.
  rewrite trace_try_catch, outcome_try_catch, trace_bind, outcome_bind.
  cbn [emit trace outcome fst snd Merge.logError].
  destruct (fetch url options) as [e' | response] eqn:F.
  - cbn. intros [<- | [<- | []]]; cbn; rewrite ?F; congruence.
  - destruct (ok response) eqn:OK; cbn.
    + destruct (bodyJson response); cbn;
        (intros [<- | H]; [cbn; rewrite F, OK; discriminate |]).
      * destruct H as [<- | []]. discriminate.
      * destruct H.
    + intros [<- | [<- | []]]; cbn; rewrite ?F, ?OK; congruence.
Qed.

Lemma merge_dispatch_surfaces n args :
  surfaces (fetch_failure fetch)
    (Merge.dispatch apiKey accountToken fetch n args).
Proof.
  unfold Merge.dispatch.
  destruct (Merge.switch n) as [[] |];
    [ unfold Merge.case_create_crm_contact, Merge.createContact
    | unfold Merge.case_search_crm_contacts, Merge.searchCRM
    | unfold Merge.case_get_crm_contact, Merge.getContact
    | unfold Merge.case_create_crm_opportunity, Merge.createOpportunity
    | unfold Merge.case_list_crm_opportunities, Merge.getOpportunities,
        Merge.page_request
    | unfold Merge.case_get_crm_accounts, Merge.getAccounts,
        Merge.page_request
    | ].
  all: upstream surfaces_makeRequest.
Qed.

Lemma merge_reports_status n args url options response :
  In (Fetched url options)
     (trace (Merge.call_tool apiKey accountToken fetch n args)) ->
  fetch url options = inr response ->
  ok response = false ->
  outcome (Merge.call_tool apiKey accountToken fetch n args) =
  inr (error_result
         ("Error: Merge API error " +++ string_of_Z (status response) +++
          ": " +++ bodyText response)).
Proof.
  intros H F OK. unfold Merge.call_tool, Merge.logError in *.
  apply (surfaces_caught (fetch_failure fetch) _ _ (Fetched url options)
           (Merge.api_error response) (merge_dispatch_surfaces n args)).
  - reflexivity.
  - exact H.
  - simpl. now rewrite F, OK.
Qed.

End MergeUpstream.

Section GitHubUpstream.
Context {rt : Runtime}.
Variables owner repo : string.
Variable octokit : OctokitMethod -> JSValue -> Exn + JSValue.

Lemma surfaces_octokit_rest m params :
  surfaces (octokit_failure octokit) (GitHub.octokit_rest octokit m params).
Proof.
  unfold GitHub.octokit_rest. intros ev e.
  rewrite trace_bind, outcome_bind. cbn [emit trace outcome fst snd].
  destruct (octokit m params) as [e' | r] eqn:O; cbn;
    intros [<- | []]; cbn; rewrite O; congruence.
Qed.

Lemma github_dispatch_surfaces n args :
  surfaces (octokit_failure octokit)
    (GitHub.dispatch owner repo octokit n args).
Proof.
  unfold GitHub.dispatch.
  destruct (GitHub.switch n) as [[] |];
    [ unfold GitHub.case_create_github_issue
    | unfold GitHub.case_list_github_issues
    | unfold GitHub.case_get_github_issue
    | ].
  all: upstream surfaces_octokit_rest.
Qed.

Lemma github_reports_rejection n args m params e :
  In (OctokitCalled m params)
     (trace (GitHub.call_tool owner repo octokit n args)) ->
  octokit m params = inl e ->
  outcome (GitHub.call_tool owner repo octokit n args) =
  inr (error_result ("Error: " +++ message e)).
Proof.
  intros H O. unfold GitHub.call_tool, GitHub.logError in *.
  apply (surfaces_caught (octokit_failure octokit) _ _
           (OctokitCalled m params) e (github_dispatch_surfaces n args)).
  - reflexivity.
  - exact H.
  - simpl. now rewrite O.
Qed.

End GitHubUpstream.

(** C3, as the code has it.  In the Merge server, an invocation whose
    upstream request is answered with a status outside 2xx returns the error
    result, [isError: true], whose text is [Error: Merge API error ] followed
    by the status code, a colon and the body of the answer: the text contains
    the status code.  In the GitHub server, an invocation whose Octokit call
    is rejected returns the error result whose text is [Error: ] followed by
    the message of the rejection, whatever Octokit put in it. *)
Theorem upstream_failure_is_reported :
  forall (rt : Runtime) (owner repo : string)
         (octokit : OctokitMethod -> JSValue -> Exn + JSValue)
         (apiKey accountToken : string)
         (fetch : string -> FetchOptions -> Exn + HttpResponse)
         (n : string) (args : JSValue),
    (forall url options response,
        In (Fetched url options)
           (trace (Merge.call_tool apiKey accountToken fetch n args)) ->
        fetch url options = inr response ->
        ok response = false ->
        outcome (Merge.call_tool apiKey accountToken fetch n args) =
          inr (error_result
                 ("Error: Merge API error " +++
                  string_of_Z (status response) +++ ": " +++
                  bodyText response)) /\
        includes ("Error: Merge API error " +++
                  string_of_Z (status response) +++ ": " +++
                  bodyText response)
          (string_of_Z (status response)) = true) /\
    (forall m params e,
        In (OctokitCalled m params)
           (trace (GitHub.call_tool owner repo octokit n args)) ->
        octokit m params = inl e ->
        outcome (GitHub.call_tool owner repo octokit n args) =
          inr (error_result ("Error: " +++ message e))).
Proof.
  intros. split.
  - intros url options response H F OK. split.
    + now apply merge_reports_status with (url := url) (options := options).
    + apply (includes_append "Error: Merge API error ").
  - intros m params e H O.
    now apply github_reports_rejection with (m := m) (params := params).
Qed.

Lemma upstream_failure_is_reported_witness :
  outcome (Merge.call_tool (rt := ascii_runtime) "k" "t"
             (fetch_status 503 "Service Unavailable")
             "get_crm_accounts" (JObj [])) =
    inr (error_result "Error: Merge API error 503: Service Unavailable") /\
  outcome (GitHub.call_tool (rt := ascii_runtime) "o" "r" octokit_not_found
             "get_github_issue" (JObj [("issue_number", JInt 7)])) =
    inr (error_result "Error: Not Found").
Proof.
  destruct (upstream_failure_is_reported ascii_runtime "o" "r"
              octokit_not_found "k" "t"
              (fetch_status 503 "Service Unavailable")
              "get_crm_accounts" (JObj [])) as [Mg _].
  destruct (upstream_failure_is_reported ascii_runtime "o" "r"
              octokit_not_found "k" "t"
              (fetch_status 503 "Service Unavailable")
              "get_github_issue" (JObj [("issue_number", JInt 7)]))
    as [_ G].
  split.
  - refine (proj1 (Mg _ _ {| status := 503;
                             bodyText := "Service Unavailable";
                             bodyJson := inl (SyntaxError
                                                "Unexpected token in JSON") |}
                     _ _ _)).
    + cbv. left. reflexivity.
    + reflexivity.
    + reflexivity.
  - refine (G _ _ (RequestError 404 "Not Found") _ _).
    + cbv. left. reflexivity.
    + reflexivity.
Defined.

(** C3 as the specification words it fails in the GitHub server: Octokit
    rejects with status 404 and the message [Not Found], and the text of the
    result, [Error: Not Found], does not contain [404]. *)
Lemma github_error_text_omits_status :
  octokit_not_found IssuesGet
    (JObj [("owner", JStr "o"); ("repo", JStr "r");
           ("issue_number", JInt 7)]) =
    inl (RequestError 404 "Not Found") /\
  GitHub.call_tool (rt := ascii_runtime) "o" "r" octokit_not_found
    "get_github_issue" (JObj [("issue_number", JInt 7)]) =
    ([OctokitCalled IssuesGet
        (JObj [("owner", JStr "o"); ("repo", JStr "r");
               ("issue_number", JInt 7)]);
      Logged "Error executing tool get_github_issue:"],
     inr (error_result "Error: Not Found")) /\
  includes "Error: Not Found" (string_of_Z 404) = false.
Proof. repeat split. Qed.

(** * Running a handler on given arguments *)

(** Evaluates the steps of a handler that are determined. *)
Ltac run :=
  repeat first
    [ rewrite bind_ret
    | rewrite bind_throw
    | rewrite outcome_ret
    | progress cbn -[bind ret throw String.append string_of_Z string_of_nat
                     dq nl sq includes toLowerCase trim limit_of
                     Merge.makeRequest GitHub.octokit_rest Z.min] ].

Lemma to_string_ret (v : JSValue) (s : string) :
  outcome (to_string v) = inr s -> to_string v = ret s.
Proof.
  intro H. pose proof (silent_to_string v) as S. unfold silent in S.
  destruct (to_string v) as [t o]. simpl in *. now subst.
Qed.

Lemma limit_default (fields : list (string * JSValue)) :
  destructure_default (JObj fields) "args" "limit" (JInt 10) =
  ret (limit_of fields).
Proof. reflexivity. Qed.

Lemma limit_of_given (fields : list (string * JSValue)) :
  match limit_of fields with
  | JUndefined => JInt 20
  | _ => limit_of fields
  end = limit_of fields.
Proof. unfold limit_of. destruct (lookup "limit" fields); reflexivity. Qed.




Section GitHubRuns.
Context {rt : Runtime}.
Variables owner repo : string.
Variable octokit : OctokitMethod -> JSValue -> Exn + JSValue.

Lemma outcome_octokit_rest {A} m params (k : JSValue -> M A) :
  outcome (r <- GitHub.octokit_rest octokit m params ;; k r) =
  match octokit m params with
  | inl e => inl e
  | inr r => outcome (k r)
  end.
Proof.
  unfold GitHub.octokit_rest. rewrite !outcome_bind. cbn [emit outcome snd].
  destruct (octokit m params); reflexivity.
Qed.

Lemma trace_octokit_rest {A} m params (k : JSValue -> M A) :
  exists rest,
    trace (r <- GitHub.octokit_rest octokit m params ;; k r) =
    OctokitCalled m params :: rest.
Proof.
  unfold GitHub.octokit_rest. rewrite !trace_bind.
  cbn [emit trace fst app]. eexists. reflexivity.
Qed.


Lemma github_per_page fields n :
  limit_of fields = JInt n ->
  exists params rest,
    trace (GitHub.call_tool owner repo octokit "list_github_issues"
             (JObj fields)) =
      OctokitCalled IssuesList (JObj params) :: rest /\
    lookup "per_page" params = JInt (Z.min n 100).
Proof.
  intro L. unfold GitHub.call_tool. rewrite trace_try_catch.
  unfold GitHub.dispatch.
  cbn [GitHub.switch String.eqb Ascii.eqb Bool.eqb].
  unfold GitHub.case_list_github_issues.
  rewrite limit_default, L.
  unfold destructure_default, destructure, Math_min, to_number. run.
  match goal with
  | |- context [trace (bind (GitHub.octokit_rest _ ?m (JObj ?p)) ?k)] =>
      destruct (trace_octokit_rest m (JObj p) k) as [rest ->]; exists p
  end.
  eexists. split; [reflexivity |].
  destruct (truthy (lookup "labels" fields)); reflexivity.
Qed.

End GitHubRuns.



Section MergeRuns.
Context {rt : Runtime}.
Variables apiKey accountToken : string.
Variable fetch : string -> FetchOptions -> Exn + HttpResponse.

Lemma makeRequest_get endpoint :
  Merge.makeRequest apiKey accountToken fetch endpoint "GET" JNull =
  try_catch
    (emit (Fetched (Merge.baseURL +++ endpoint)
             (get_request apiKey accountToken)) ;;;
     match fetch (Merge.baseURL +++ endpoint)
             (get_request apiKey accountToken) with
     | inl e => throw e
     | inr response =>
         if negb (ok response) then throw (Merge.api_error response)
         else match bodyJson response with
              | inl e => throw e
              | inr v => ret v
              end
     end)
    (fun error =>
       Merge.logError ("Merge API request failed: " +++ message error) ;;;
       throw error).
Proof. reflexivity. Qed.

Lemma outcome_get {A} endpoint (k : JSValue -> M A) response page :
  fetch (Merge.baseURL +++ endpoint) (get_request apiKey accountToken) =
    inr response ->
  ok response = true ->
  bodyJson response = inr page ->
  outcome (x <- Merge.makeRequest apiKey accountToken fetch endpoint
                  "GET" JNull ;; k x) =
  outcome (k page).
Proof.
  intros F OK J.
  rewrite outcome_bind, makeRequest_get, outcome_try_catch, outcome_bind.
  cbn [emit outcome snd]. rewrite F, OK, J. reflexivity.
Qed.

Lemma trace_get {A} endpoint (k : JSValue -> M A) :
  exists rest,
    trace (x <- Merge.makeRequest apiKey accountToken fetch endpoint
                  "GET" JNull ;; k x) =
    Fetched (Merge.baseURL +++ endpoint) (get_request apiKey accountToken)
      :: rest.
Proof.
  rewrite trace_bind, makeRequest_get, trace_try_catch, trace_bind.
  cbn [emit trace fst app]. eexists. reflexivity.
Qed.

Lemma page_request_limit path fields size :
  outcome (to_string (limit_of fields)) = inr size ->
  Merge.page_request apiKey accountToken fetch path JNull (limit_of fields) =
  Merge.makeRequest apiKey accountToken fetch
    (path +++ "?page_size=" +++ size) "GET" JNull.
Proof.
  intro Sz. unfold Merge.page_request.
  cbn -[bind ret throw String.append to_string Merge.makeRequest limit_of].
  rewrite limit_of_given, (to_string_ret _ _ Sz). now rewrite !bind_ret.
Qed.


Lemma merge_opportunities_request fields size :
  outcome (to_string (limit_of fields)) = inr size ->
  exists rest,
    trace (Merge.call_tool apiKey accountToken fetch
             "list_crm_opportunities" (JObj fields)) =
    Fetched (Merge.baseURL +++ "/crm/v1/opportunities?page_size=" +++ size)
      (get_request apiKey accountToken) :: rest.
Proof.
  intros Sz. unfold Merge.call_tool. rewrite trace_try_catch.
  unfold Merge.dispatch.
  cbn [Merge.switch String.eqb Ascii.eqb Bool.eqb].
  unfold Merge.case_list_crm_opportunities, Merge.getOpportunities.
  rewrite limit_default, bind_ret, (page_request_limit _ _ _ Sz).
  match goal with
  | |- context [trace (bind _ ?k)] =>
      destruct (trace_get ("/crm/v1/opportunities" +++ "?page_size=" +++ size)
                  k) as [rest ->]
  end.
  eexists. reflexivity.
Qed.

Lemma merge_accounts_request fields size :
  outcome (to_string (limit_of fields)) = inr size ->
  exists rest,
    trace (Merge.call_tool apiKey accountToken fetch
             "get_crm_accounts" (JObj fields)) =
    Fetched (Merge.baseURL +++ "/crm/v1/accounts?page_size=" +++ size)
      (get_request apiKey accountToken) :: rest.
Proof.
  intros Sz. unfold Merge.call_tool. rewrite trace_try_catch.
  unfold Merge.dispatch.
  cbn [Merge.switch String.eqb Ascii.eqb Bool.eqb].
  unfold Merge.case_get_crm_accounts, Merge.getAccounts.
  rewrite limit_default, bind_ret, (page_request_limit _ _ _ Sz).
  match goal with
  | |- context [trace (bind _ ?k)] =>
      destruct (trace_get ("/crm/v1/accounts" +++ "?page_size=" +++ size)
                  k) as [rest ->]
  end.
  eexists. reflexivity.
Qed.

End MergeRuns.



(** C10, as the code has it.  Called with an arguments object, the
    list-opportunities and get-accounts tools put the limit they work with,
    the [limit] of the arguments or 10 without one, into the [page_size] of
    the request as it is: for a limit that is a safe integer the request
    asks for [page_size=<limit>] in decimal, no maximum is applied, and a
    limit of 500 asks for [page_size=500].  The list-issues tool of the
    GitHub server gives Octokit the smaller of that limit and 100 as
    [per_page]. *)
Theorem limit_is_forwarded_unclamped :
  forall (rt : Runtime) (owner repo : string)
         (octokit : OctokitMethod -> JSValue -> Exn + JSValue)
         (apiKey accountToken : string)
         (fetch : string -> FetchOptions -> Exn + HttpResponse)
         (fields : list (string * JSValue)) (n : Z),
    limit_of fields = JInt n ->
    safe_integer n ->
    (exists rest,
        trace (Merge.call_tool apiKey accountToken fetch
                 "list_crm_opportunities" (JObj fields)) =
        Fetched (Merge.baseURL +++ "/crm/v1/opportunities?page_size=" +++
                 string_of_Z n)
          (get_request apiKey accountToken) :: rest) /\
    (exists rest,
        trace (Merge.call_tool apiKey accountToken fetch
                 "get_crm_accounts" (JObj fields)) =
        Fetched (Merge.baseURL +++ "/crm/v1/accounts?page_size=" +++
                 string_of_Z n)
          (get_request apiKey accountToken) :: rest) /\
    (exists params rest,
        trace (GitHub.call_tool owner repo octokit "list_github_issues"
                 (JObj fields)) =
          OctokitCalled IssuesList (JObj params) :: rest /\
        lookup "per_page" params = JInt (Z.min n 100)).
Proof.
  intros rt owner repo octokit apiKey accountToken fetch fields n L _.
  split; [| split].
  - apply merge_opportunities_request. now rewrite L.
  - apply merge_accounts_request. now rewrite L.
  - now apply github_per_page.
Qed.

Lemma limit_is_forwarded_unclamped_witness :
  (exists rest,
      trace (Merge.call_tool (rt := ascii_runtime) "k" "t" (fetch_json JNull)
               "list_crm_opportunities" (JObj [("limit", JInt 500)])) =
      Fetched "https://api.merge.dev/api/crm/v1/opportunities?page_size=500"
        (get_request "k" "t") :: rest) /\
  (exists rest,
      trace (Merge.call_tool (rt := ascii_runtime) "k" "t" (fetch_json JNull)
               "get_crm_accounts" (JObj [("limit", JInt 500)])) =
      Fetched "https://api.merge.dev/api/crm/v1/accounts?page_size=500"
        (get_request "k" "t") :: rest) /\
  (exists params rest,
      trace (GitHub.call_tool (rt := ascii_runtime) "o" "r" octokit_echo
               "list_github_issues" (JObj [("limit", JInt 500)])) =
        OctokitCalled IssuesList (JObj params) :: rest /\
      lookup "per_page" params = JInt 100).
Proof.
  exact (limit_is_forwarded_unclamped ascii_runtime "o" "r" octokit_echo
           "k" "t" (fetch_json JNull) [("limit", JInt 500)] 500 eq_refl
           eq_refl).
Defined.

(** C10 as the specification words it, for every invocation, fails on an
    invocation without arguments: the two tools read the limit off the
    arguments before they build the request, so that no request is sent, with
    [page_size=10] or any other, and the result is the error result. *)
Lemma limit_is_not_forwarded_without_arguments :
  upstream_calls
    (trace (Merge.call_tool (rt := ascii_runtime) "k" "t" (fetch_json JNull)
              "list_crm_opportunities" JUndefined)) = 0 /\
  upstream_calls
    (trace (Merge.call_tool (rt := ascii_runtime) "k" "t" (fetch_json JNull)
              "get_crm_accounts" JUndefined)) = 0 /\
  isError_of
    (outcome (Merge.call_tool (rt := ascii_runtime) "k" "t" (fetch_json JNull)
                "list_crm_opportunities" JUndefined)) = Some true /\
  isError_of
    (outcome (Merge.call_tool (rt := ascii_runtime) "k" "t" (fetch_json JNull)
                "get_crm_accounts" JUndefined)) = Some true.
Proof. repeat split; vm_compute; reflexivity. Qed.

(** * Searching contacts *)

Lemma lookup_set_field k v fields : lookup k (set_field k v fields) = v.
Proof.
  induction fields as [| [k' v'] rest IH]; cbn [set_field lookup].
  - now rewrite String.eqb_refl.
  - destruct (k =? k') eqn:E; cbn [lookup]; rewrite ?String.eqb_refl, ?E;
      [reflexivity | exact IH].
Qed.

Lemma firstn_min {A} (k : nat) (l : list A) :
  firstn (Nat.min k (List.length l)) l = firstn k l.
Proof.
  destruct (Nat.le_ge_cases k (List.length l)) as [H | H].
  - now rewrite Nat.min_l.
  - rewrite Nat.min_r by exact H. now rewrite firstn_all, firstn_all2.
Qed.

Lemma firstn_related {A B} (R : A -> B -> Prop) (n : nat) l l' :
  Forall2 R l l' -> Forall2 R (firstn n l) (firstn n l').
Proof.
  intro H. revert n. induction H as [| a b l l' H _ IH]; intros [| n];
    cbn [firstn]; constructor; auto.
Qed.

Lemma related_length {A B} (R : A -> B -> Prop) l l' :
  Forall2 R l l' -> List.length l = List.length l'.
Proof. induction 1; cbn [List.length]; congruence. Qed.

Lemma mapM_related {A B C} (R : A -> B -> Prop) (f : A -> M C) (g : B -> C)
  l l' :
  (forall a b, R a b -> f a = ret (g b)) ->
  Forall2 R l l' -> mapM f l = ret (map g l').
Proof.
  intros H F. induction F as [| a b l l' Rab _ IH]; [reflexivity |].
  cbn [mapM map]. now rewrite (H a b Rab), bind_ret, IH, !bind_ret.
Qed.

Lemma nullish_falsy v : nullish v = true -> truthy v = false.
Proof. destruct v; try discriminate; reflexivity. Qed.

Section SearchFacts.
Context {rt : Runtime}.

(** [${v || fallback}] for a text that may be missing *)
Lemma optional_text_or {A} v o fallback (k : string -> M A) :
  optional_text v o ->
  (x <- or_else v (ret (JStr fallback)) ;; s <- to_string x ;; k s) =
  k (text_or o fallback).
Proof.
  unfold or_else. destruct o as [s |]; cbn [optional_text]; intro H.
  - subst v. destruct s; cbn [truthy String.eqb negb text_or];
      rewrite bind_ret; cbn [to_string]; now rewrite bind_ret.
  - rewrite (nullish_falsy v H), bind_ret. cbn [to_string text_or].
    now rewrite bind_ret.
Qed.

(** [${x.k || fallback}] *)
Lemma show_prop_or_typed fields k o fallback :
  optional_text (lookup k fields) o ->
  Merge.show_prop_or (JObj fields) k fallback = ret (text_or o fallback).
Proof.
  intro H. unfold Merge.show_prop_or, get_prop, or_else. cbn [nullish read].
  rewrite bind_ret. destruct o as [s |]; cbn [optional_text] in H.
  - rewrite H. destruct s; reflexivity.
  - now rewrite (nullish_falsy _ H).
Qed.

(** [x.list?.[0]?.key || fallback] *)
Lemma first_of_typed key v os fallback :
  entries_of key v os ->
  to_string
    (if truthy (opt_prop (opt_index v 0) key)
     then opt_prop (opt_index v 0) key
     else JStr fallback) =
  ret (text_or (hd None os) fallback).
Proof.
  intros [[N ->] | (items & -> & F)].
  - destruct v; try discriminate N; reflexivity.
  - destruct F as [| item o items os (fields & -> & T) _]; [reflexivity |].
    cbn [opt_index nth hd]. unfold opt_prop. cbn [nullish read].
    destruct o as [s |]; cbn [optional_text] in T.
    + rewrite T. destruct s; reflexivity.
    + now rewrite (nullish_falsy _ T).
Qed.

Lemma full_name_typed fields fn ln :
  optional_text (lookup "first_name" fields) fn ->
  optional_text (lookup "last_name" fields) ln ->
  Merge.full_name (JObj fields) =
  ret (trim (text_or fn EmptyString +++ " " +++ text_or ln EmptyString)).
Proof.
  intros F L. unfold Merge.full_name, get_prop. cbn [nullish read].
  rewrite bind_ret, (optional_text_or _ _ _ _ F), bind_ret.
  now rewrite (optional_text_or _ _ _ _ L).
Qed.

Lemma lower_includes_typed v o expr q :
  optional_text v o ->
  Merge.lower_includes v expr (toLowerCase q) =
  ret (match o with
       | Some s => JBool (includes (toLowerCase s) (toLowerCase q))
       | None => JUndefined
       end).
Proof.
  unfold Merge.lower_includes. destruct o as [s |]; cbn [optional_text];
    intro H.
  - subst v. run. reflexivity.
  - now rewrite H.
Qed.

Lemma truthy_lower_includes o q :
  truthy (match o with
          | Some s => JBool (includes (toLowerCase s) (toLowerCase q))
          | None => JUndefined
          end) = occurs_inb q o.
Proof. destruct o; reflexivity. Qed.

Lemma someM_emails q items emails :
  Forall2 (entry_of "email_address") items emails ->
  someM (fun email =>
           email_address <- get_prop email "email_address" ;;
           Merge.lower_includes email_address "email.email_address?"
             (toLowerCase q))
    items =
  ret (existsb (occurs_inb q) emails).
Proof.
  induction 1 as [| item e items emails (fields & -> & T) _ IH];
    [reflexivity |].
  cbn [someM existsb]. unfold get_prop. cbn [nullish read].
  rewrite bind_ret, (lower_includes_typed _ _ _ _ T), bind_ret,
    truthy_lower_includes.
  destruct (occurs_inb q e); [reflexivity | exact IH].
Qed.

(** The callback of the filter, on a contact of the page: it is truthy
    exactly for the contacts [matchesb] accepts. *)
Lemma search_filter_typed q v c :
  contact_of v c ->
  exists r,
    Merge.search_filter (toLowerCase q) v = ret r /\
    truthy r = matchesb q c.
Proof.
  intros (fields & -> & _ & F & L & E).
  unfold Merge.search_filter, matchesb, get_prop, or_else.
  cbn [nullish read]. rewrite bind_ret.
  rewrite (lower_includes_typed _ _ _ _ F), bind_ret, truthy_lower_includes.
  destruct (occurs_inb q (first_name c)) eqn:Fm.
  - eexists. split; [reflexivity |]. now rewrite truthy_lower_includes.
  - rewrite bind_ret, (lower_includes_typed _ _ _ _ L), bind_ret,
      truthy_lower_includes.
    destruct (occurs_inb q (last_name c)) eqn:Lm.
    + eexists. split; [reflexivity |]. now rewrite truthy_lower_includes.
    + rewrite bind_ret. cbn [orb].
      destruct E as [[N ->] | (items & -> & Es)].
      * rewrite N. eexists. split; reflexivity.
      * cbn [nullish]. unfold array_some, array_receiver.
        rewrite bind_ret, (someM_emails _ _ _ Es), bind_ret.
        eexists. split; reflexivity.
Qed.

Lemma filterM_typed q items cs :
  Forall2 contact_of items cs ->
  exists kept,
    filterM (Merge.search_filter (toLowerCase q)) items = ret kept /\
    Forall2 contact_of kept (filter (matchesb q) cs).
Proof.
  induction 1 as [| v c items cs H _ (kept & IH & K)].
  - exists []. split; [reflexivity | constructor].
  - destruct (search_filter_typed q v c H) as (r & R & T).
    cbn [filterM filter]. rewrite R, bind_ret, IH, bind_ret, T.
    destruct (matchesb q c); eexists; (split; [reflexivity |]);
      [now constructor | exact K].
Qed.

Lemma contact_line_typed v c :
  contact_of v c -> Merge.contact_line v = ret (listed_line c).
Proof.
  intros (fields & -> & I & F & L & E).
  unfold Merge.contact_line, get_prop, show_prop, get_prop.
  cbn [nullish read]. rewrite bind_ret, (full_name_typed _ _ _ F L), bind_ret.
  rewrite (first_of_typed _ _ _ _ E), !bind_ret, I. reflexivity.
Qed.

Lemma mapM_contact_line items cs :
  Forall2 contact_of items cs ->
  mapM Merge.contact_line items = ret (map listed_line cs).
Proof. apply mapM_related, contact_line_typed. Qed.

Lemma contact_of_js c : contact_of (js_of_contact c) c.
Proof.
  exists [("id", JStr (id c));
          ("first_name", js_of_option (first_name c));
          ("last_name", js_of_option (last_name c));
          ("email_addresses",
           JArr (map (fun e => JObj [("email_address", js_of_option e)])
                   (email_addresses c)))].
  split; [reflexivity |]. split; [reflexivity |].
  assert (O : forall o, optional_text (js_of_option o) o)
    by (intros [s |]; reflexivity).
  repeat split; try apply O.
  right. eexists. split; [reflexivity |].
  induction (email_addresses c) as [| e es IH]; constructor; [| exact IH].
  eexists. split; [reflexivity | apply O].
Qed.

Lemma contacts_of_js cs : Forall2 contact_of (map js_of_contact cs) cs.
Proof. induction cs; constructor; [apply contact_of_js | assumption]. Qed.

Lemma occurs_inb_spec q o :
  occurs_inb q o = true <-> exists s, o = Some s /\ occurs_in q s.
Proof.
  destruct o as [s |]; simpl.
  - rewrite includes_iff. split.
    + intros H. exists s. split; [reflexivity | exact H].
    + intros (s' & E & H). now inversion E; subst.
  - split; [discriminate | intros (s & E & _); discriminate].
Qed.

(** [matchesb] decides [matches]. *)
Lemma matchesb_spec q c : matchesb q c = true <-> matches q c.
Proof.
  unfold matchesb, matches.
  rewrite !orb_true_iff, !occurs_inb_spec, existsb_exists.
  split.
  - intros [[H | H] | (o & I & H)]; [left | right; left | right; right]; auto.
    apply occurs_inb_spec in H as (s & -> & H). now exists s.
  - intros [H | [H | (s & I & H)]]; [left; left | left; right | right]; auto.
    exists (Some s). split; [exact I |]. apply occurs_inb_spec. now exists s.
Qed.

Variables apiKey accountToken : string.
Variable fetch : string -> FetchOptions -> Exn + HttpResponse.

(** The end of the search case, from the contacts it has sliced. *)
Lemma search_listing (none : InvocationResult) shown listed :
  Forall2 contact_of shown listed ->
  outcome
    (if (Z.of_nat (List.length shown) =? 0)%Z then ret none
     else
       lines <- array_map (JArr shown) "contacts" Merge.contact_line ;;
       count <- show_prop (JArr shown) "length" ;;
       ret (text_result
              ("Found " +++ count +++ " contact(s):" +++ nl +++ nl +++
               join nl lines))) =
  inr match listed with
      | [] => none
      | _ =>
          text_result
            ("Found " +++ string_of_nat (List.length listed) +++
             " contact(s):" +++ nl +++ nl +++
             join nl (map listed_line listed))
      end.
Proof.
  intro K. pose proof (related_length _ _ _ K) as Len.
  pose proof (mapM_contact_line _ _ K) as Lines.
  unfold show_prop, get_prop, array_map, array_receiver.
  cbn [nullish read String.eqb Ascii.eqb Bool.eqb]. rewrite !bind_ret, Len.
  destruct K as [| v c shown listed _ _]; [reflexivity |].
  rewrite Lines.
  change (Z.of_nat (List.length (c :: listed)) =? 0)%Z with false.
  unfold JInt. cbn [to_string]. rewrite !bind_ret. reflexivity.
Qed.

Lemma merge_search_lists fields q limit response page items cs :
  lookup "query" fields = JStr q ->
  q <> EmptyString ->
  limit_of fields = JInt (Z.of_nat limit) ->
  fetch (Merge.baseURL +++ "/crm/v1/contacts")
    (get_request apiKey accountToken) = inr response ->
  ok response = true ->
  bodyJson response = inr (JObj page) ->
  lookup "results" page = JArr items ->
  Forall2 contact_of items cs ->
  outcome (Merge.call_tool apiKey accountToken fetch "search_crm_contacts"
             (JObj fields)) =
  inr (text_result (listing q (firstn limit (filter (matchesb q) cs)))).
Proof.
  intros Q NE L F OK J R Cs.
  rewrite merge_call_tool_outcome. unfold Merge.dispatch.
  cbn [Merge.switch String.eqb Ascii.eqb Bool.eqb].
  unfold Merge.case_search_crm_contacts.
  rewrite limit_default, L. unfold destructure. run. rewrite Q.
  unfold Merge.searchCRM. rewrite outcome_bind.
  erewrite outcome_get; [| exact F | exact OK | exact J].
  assert (T : truthy (JStr q) = true).
  { simpl. destruct q; [now elim NE | reflexivity]. }
  rewrite T. cbn [negb]. unfold call_toLowerCase, get_prop. run.
  rewrite R. unfold array_filter, array_receiver. run.
  destruct (filterM_typed q items cs Cs) as (kept & -> & K).
  run. rewrite lookup_set_field. run.
  unfold slice0, slice_end, to_number, or_else. run.
  assert (N : (Z.of_nat limit <? 0)%Z = false) by (apply Z.ltb_ge; lia).
  rewrite N, Nat2Z.id, firstn_min.
  pose proof (firstn_related _ limit _ _ K) as Kl.
  rewrite (search_listing _ _ _ Kl). unfold listing.
  destruct (firstn limit (filter (matchesb q) cs)); reflexivity.
Qed.

End SearchFacts.

(** C5, as the code has it.  The search tool, called with a query that is
    not empty and a limit (10 without one), against a page of contacts from
    the upstream, lists the first [limit] of the contacts of the page that
    match, in the order of the page, and no other contact; a contact matches
    when the query occurs, case aside, in its first name, in its last name
    or in one of its email addresses.  The contacts of the page are told by
    the properties the tool reads: the ID, the two names and the email
    addresses, whatever else they hold. *)
Theorem search_lists_first_matches :
  forall (rt : Runtime) (apiKey accountToken : string)
         (fetch : string -> FetchOptions -> Exn + HttpResponse)
         (fields : list (string * JSValue)) (q : string) (limit : nat)
         (response : HttpResponse) (page : list (string * JSValue))
         (items : list JSValue) (cs : list Contact),
    lookup "query" fields = JStr q ->
    q <> EmptyString ->
    limit_of fields = JInt (Z.of_nat limit) ->
    fetch (Merge.baseURL +++ "/crm/v1/contacts")
      (get_request apiKey accountToken) = inr response ->
    ok response = true ->
    bodyJson response = inr (JObj page) ->
    lookup "results" page = JArr items ->
    Forall2 contact_of items cs ->
    outcome (Merge.call_tool apiKey accountToken fetch "search_crm_contacts"
               (JObj fields)) =
      inr (text_result (listing q (firstn limit (filter (matchesb q) cs)))) /\
    (forall c, In c (filter (matchesb q) cs) <-> In c cs /\ matches q c).
Proof.
  intros rt apiKey accountToken fetch fields q limit response page items cs
         Q NE L F OK J R Cs.
  split.
  - now apply merge_search_lists
      with (response := response) (page := page) (items := items).
  - intro c. rewrite filter_In, matchesb_spec. reflexivity.
Qed.

Lemma search_lists_first_matches_witness :
  outcome (Merge.call_tool (rt := ascii_runtime) "k" "t"
             (fetch_json (page_of [alice; bob]))
             "search_crm_contacts" (JObj [("query", JStr "alice")])) =
    inr (text_result
           ("Found 1 contact(s):" +++ nl +++ nl +++
            "Alice Liddell (alice@example.com) - ID: c1")) /\
  filter (matchesb (rt := ascii_runtime) "alice") [alice; bob] = [alice].
Proof.
  split; [| reflexivity].
  refine (proj1 (search_lists_first_matches ascii_runtime "k" "t"
                   (fetch_json (page_of [alice; bob]))
                   [("query", JStr "alice")] "alice" 10
                   {| status := 200; bodyText := EmptyString;
                      bodyJson := inr (page_of [alice; bob]) |}
                   [("next", JNull); ("previous", JNull);
                    ("results", JArr (map js_of_contact [alice; bob]))]
                   (map js_of_contact [alice; bob])
                   [alice; bob] _ _ _ _ _ _ _ _));
    try reflexivity.
  - discriminate.
  - apply contacts_of_js.
Defined.

(** C5 as the specification words it fails on a page with more matches than
    the limit: of eleven contacts called Alice, all of which match the query
    [alice], the result lists the first ten, and [a11] is not in it. *)
Lemma search_omits_matches_beyond_limit :
  List.length (filter (matchesb (rt := ascii_runtime) "alice") alices) = 11 /\
  outcome (Merge.call_tool (rt := ascii_runtime) "k" "t"
             (fetch_json (page_of alices))
             "search_crm_contacts" (JObj [("query", JStr "alice")])) =
    inr (text_result (listing (rt := ascii_runtime) "alice"
                        (firstn 10 alices))) /\
  includes (listing (rt := ascii_runtime) "alice" (firstn 10 alices))
    "ID: a11" = false /\
  (listing (rt := ascii_runtime) "alice" (firstn 10 alices) =?
   listing (rt := ascii_runtime) "alice"
     (filter (matchesb (rt := ascii_runtime) "alice") alices)) = false.
Proof. repeat split; vm_compute; reflexivity. Qed.

(** * Invariants of the traces *)

Lemma every_silent {A} P (m : M A) : silent m -> every P m.
Proof. intros S ev H. rewrite S in H. destruct H. Qed.

Lemma every_bind {A B} P (m : M A) (f : A -> M B) :
  every P m -> (forall a, every P (f a)) -> every P (bind m f).
Proof.
  intros Hm Hf ev. rewrite trace_bind. intro H.
  apply in_app_or in H as [H | H]; [now apply Hm |].
  destruct (outcome m) as [e | a]; [destruct H | now apply (Hf a)].
Qed.

Lemma every_try_catch {A} P (m : M A) (h : Exn -> M A) :
  every P m -> (forall e, every P (h e)) -> every P (try_catch m h).
Proof.
  intros Hm Hh ev. rewrite trace_try_catch. intro H.
  apply in_app_or in H as [H | H]; [now apply Hm |].
  destruct (outcome m) as [e | a]; [now apply (Hh e) | destruct H].
Qed.

Lemma every_emit P ev : P ev -> every P (emit ev).
Proof. intros H ev' [<- | []]. exact H. Qed.

Ltac walk_every call :=
  repeat first
    [ apply call
    | apply every_silent; solve [silence]
    | apply every_bind; [| intro]
    | match goal with
      | |- every _ (if ?b then _ else _) => destruct b
      | |- every _ (match ?x with _ => _ end) => destruct x
      end ].

Lemma calls_app (t u : list Event) :
  upstream_calls (t ++ u) = upstream_calls t + upstream_calls u.
Proof. unfold upstream_calls. now rewrite filter_app, length_app. Qed.

Lemma quiet_silent {A} (m : M A) : silent m -> upstream_calls (trace m) = 0.
Proof. intro S. now rewrite S. Qed.

Lemma quiet_bind {A B} (m : M A) (f : A -> M B) :
  upstream_calls (trace m) = 0 ->
  (forall a, upstream_calls (trace (f a)) = 0) ->
  upstream_calls (trace (bind m f)) = 0.
Proof.
  intros Hm Hf. rewrite trace_bind, calls_app, Hm.
  destruct (outcome m); [reflexivity | apply Hf].
Qed.

Lemma single_after {A B} (m : M A) (f : A -> M B) :
  upstream_calls (trace m) = 0 ->
  (forall a, upstream_calls (trace (f a)) <= 1) ->
  upstream_calls (trace (bind m f)) <= 1.
Proof.
  intros Hm Hf. rewrite trace_bind, calls_app, Hm.
  destruct (outcome m); [change (upstream_calls []) with 0; lia | apply Hf].
Qed.

Lemma single_before {A B} (m : M A) (f : A -> M B) :
  upstream_calls (trace m) <= 1 ->
  (forall a, upstream_calls (trace (f a)) = 0) ->
  upstream_calls (trace (bind m f)) <= 1.
Proof.
  intros Hm Hf. rewrite trace_bind, calls_app.
  destruct (outcome m) as [e | a];
    [change (upstream_calls []) with 0; lia | rewrite (Hf a); lia].
Qed.

Lemma single_quiet {A} (m : M A) :
  upstream_calls (trace m) = 0 -> upstream_calls (trace m) <= 1.
Proof. lia. Qed.

(** Walks a handler that sends one request: silent steps, the request
    [call], silent steps. *)
Ltac walk_single call :=
  repeat first
    [ apply call
    | apply quiet_silent; solve [silence]
    | apply single_quiet; apply quiet_silent; solve [silence]
    | apply single_after; [apply quiet_silent; solve [silence] | intro]
    | apply single_before; [| intro; apply quiet_silent; solve [silence]]
    | match goal with
      | |- upstream_calls (trace (if ?b then _ else _)) <= _ => destruct b
      | |- upstream_calls (trace (match ?x with _ => _ end)) <= _ => destruct x
      end ].

Section MergeTraces.
Context {rt : Runtime}.
Variables apiKey accountToken : string.
Variable fetch : string -> FetchOptions -> Exn + HttpResponse.

Lemma prefix_baseURL endpoint : prefix Merge.baseURL (Merge.baseURL +++ endpoint) = true.
Proof. apply prefix_append. Qed.

Lemma makeRequest_trace endpoint verb data :
  exists msgs,
    trace (Merge.makeRequest apiKey accountToken fetch endpoint verb data) =
    Fetched (Merge.baseURL +++ endpoint)
      {| method := verb;
         headers := merge_headers apiKey accountToken;
         body := if truthy data && negb (verb =? "GET")
                 then Some (JSON_stringify data) else None |}
      :: map (fun msg => Logged ("Merge API request failed: " +++ msg)) msgs.
Proof.
  unfold Merge.makeRequest.
  rewrite trace_try_catch, trace_bind, outcome_bind.
  cbn [emit trace outcome fst snd app].
  match goal with |- context [fetch ?u ?o] => destruct (fetch u o) as [e | response] end.
  - exists [message e]. reflexivity.
  - destruct (ok response); cbn [negb].
    + destruct (bodyJson response) as [e | v].
      * exists [message e]. reflexivity.
      * exists []. reflexivity.
    + eexists [_]. reflexivity.
Qed.

Lemma every_makeRequest endpoint verb data :
  every (client_request apiKey accountToken)
    (Merge.makeRequest apiKey accountToken fetch endpoint verb data).
Proof.
  destruct (makeRequest_trace endpoint verb data) as [logs T].
  intros ev. rewrite T. intros [<- | H].
  - split; [apply prefix_baseURL |].
    split; [reflexivity |]. cbn [method body]. intros ->.
    now rewrite andb_false_r.
  - apply in_map_iff in H as (l & <- & _). exact I.
Qed.

Lemma single_makeRequest endpoint verb data :
  upstream_calls
    (trace (Merge.makeRequest apiKey accountToken fetch endpoint verb data)) <= 1.
Proof.
  destruct (makeRequest_trace endpoint verb data) as [logs ->].
  unfold upstream_calls. cbn [filter is_upstream List.length].
  induction logs as [| l logs IH]; [simpl; lia | exact IH].
Qed.

Lemma every_get path :
  every (tool_request apiKey accountToken)
    (Merge.makeRequest apiKey accountToken fetch ("/crm/v1/" +++ path)
       "GET" JNull).
Proof.
  destruct (makeRequest_trace ("/crm/v1/" +++ path) "GET" JNull) as [logs T].
  intros ev. rewrite T. intros [<- | H].
  - cbn [tool_request method headers body]. split; [now exists path |].
    split; [reflexivity |]. now left.
  - apply in_map_iff in H as (l & <- & _). now exists l.
Qed.

Lemma every_post path args :
  every (tool_request apiKey accountToken)
    (Merge.makeRequest apiKey accountToken fetch ("/crm/v1/" +++ path) "POST"
       (JObj [("model", args)])).
Proof.
  destruct (makeRequest_trace ("/crm/v1/" +++ path) "POST"
              (JObj [("model", args)])) as [logs T].
  intros ev. rewrite T. intros [<- | H].
  - cbn [tool_request method headers body]. split; [now exists path |].
    split; [reflexivity |]. right.
    split; [reflexivity | eexists; reflexivity].
  - apply in_map_iff in H as (l & <- & _). now exists l.
Qed.

(** A page request without a cursor. *)
Lemma every_page path pageSize :
  every (tool_request apiKey accountToken)
    (Merge.page_request apiKey accountToken fetch ("/crm/v1/" +++ path)
       JNull pageSize).
Proof.
  unfold Merge.page_request.
  apply every_bind; [apply every_silent; silence | intro size].
  cbn [truthy]. rewrite bind_ret.
  change (("/crm/v1/" +++ path) +++ "?page_size=" +++ size)
    with ("/crm/v1/" +++ path +++ "?page_size=" +++ size).
  apply every_get.
Qed.

Ltac open_merge :=
  unfold Merge.dispatch;
  match goal with |- context [Merge.switch ?n] => destruct (Merge.switch n) as [[] |] end;
    [ unfold Merge.case_create_crm_contact, Merge.createContact
    | unfold Merge.case_search_crm_contacts, Merge.searchCRM
    | unfold Merge.case_get_crm_contact, Merge.getContact
    | unfold Merge.case_create_crm_opportunity, Merge.createOpportunity
    | unfold Merge.case_list_crm_opportunities, Merge.getOpportunities,
        Merge.page_request
    | unfold Merge.case_get_crm_accounts, Merge.getAccounts,
        Merge.page_request
    | ].

Lemma merge_dispatch_requests n args :
  every (tool_request apiKey accountToken)
    (Merge.dispatch apiKey accountToken fetch n args).
Proof.
  unfold Merge.dispatch.
  destruct (Merge.switch n) as [[] |];
    [ unfold Merge.case_create_crm_contact, Merge.createContact
    | unfold Merge.case_search_crm_contacts, Merge.searchCRM
    | unfold Merge.case_get_crm_contact, Merge.getContact
    | unfold Merge.case_create_crm_opportunity, Merge.createOpportunity
    | unfold Merge.case_list_crm_opportunities, Merge.getOpportunities
    | unfold Merge.case_get_crm_accounts, Merge.getAccounts
    | ].
  5, 6: (apply every_bind; [apply every_silent; silence | intro];
         apply every_bind; [apply every_page | intro]).
  all: walk_every every_get.
  all: walk_every every_post.
Qed.

Lemma merge_dispatch_single n args :
  upstream_calls (trace (Merge.dispatch apiKey accountToken fetch n args)) <= 1.
Proof.
  open_merge.
  all: walk_single single_makeRequest.
Qed.

End MergeTraces.

Lemma lookup_set_other k k' v fields :
  k <> k' -> lookup k (set_field k' v fields) = lookup k fields.
Proof.
  intro N. induction fields as [| [k0 v0] rest IH]; cbn [set_field lookup].
  - destruct (String.eqb_spec k k'); [contradiction | reflexivity].
  - destruct (String.eqb_spec k' k0) as [-> | N'].
    + cbn [lookup]. destruct (String.eqb_spec k k0); [contradiction | reflexivity].
    + cbn [lookup]. destruct (k =? k0); [reflexivity | exact IH].
Qed.

Lemma every_bind_returns {A B} P Q (m : M A) (f : A -> M B) :
  returns m Q -> every P m -> (forall a, Q a -> every P (f a)) ->
  every P (bind m f).
Proof.
  intros R Hm Hf ev. rewrite trace_bind. intro H.
  apply in_app_or in H as [H | H]; [now apply Hm |].
  destruct (outcome m) as [e | a] eqn:O; [destruct H |].
  apply (Hf a); [now apply R | exact H].
Qed.

Section GitHubTraces.
Context {rt : Runtime}.
Variables owner repo : string.
Variable octokit : OctokitMethod -> JSValue -> Exn + JSValue.

Lemma trace_octokit m params :
  trace (GitHub.octokit_rest octokit m params) = [OctokitCalled m params].
Proof.
  unfold GitHub.octokit_rest. rewrite trace_bind. cbn [emit trace outcome fst snd app].
  destruct (octokit m params); reflexivity.
Qed.

Lemma every_octokit m params :
  repository_call owner repo (OctokitCalled m params) ->
  every (repository_call owner repo) (GitHub.octokit_rest octokit m params).
Proof. intros H ev. rewrite trace_octokit. intros [<- | []]. exact H. Qed.

Lemma single_octokit m params :
  upstream_calls (trace (GitHub.octokit_rest octokit m params)) <= 1.
Proof. rewrite trace_octokit. unfold upstream_calls. simpl. lia. Qed.

(** The [owner] and [repo] of the data of a new issue survive the two
    optional assignments. *)
Lemma returns_optional_field k v fields :
  k <> "owner" -> k <> "repo" -> in_repository owner repo fields ->
  returns
    (if truthy v
     then len <- get_prop v "length" ;;
          some <- greater_than len 0 ;;
          ret (if some then set_field k v fields else fields)
     else ret fields)
    (in_repository owner repo).
Proof.
  intros N1 N2 [O R]. to_returns.
  - destruct a0; [| now split]. split; rewrite lookup_set_other; auto.
  - now split.
Qed.

Lemma github_create_calls args :
  every (repository_call owner repo)
    (GitHub.case_create_github_issue owner repo octokit args).
Proof.
  unfold GitHub.case_create_github_issue.
  do 4 (apply every_bind; [apply every_silent; silence | intro]).
  apply every_bind_returns with (Q := in_repository owner repo).
  { apply returns_optional_field; [discriminate | discriminate | now split]. }
  { apply every_silent. silence. }
  intros d D.
  apply every_bind_returns with (Q := in_repository owner repo).
  { now apply returns_optional_field. }
  { apply every_silent. silence. }
  intros d' [O R].
  apply every_bind.
  - apply every_octokit. repeat split; [discriminate | exact O | exact R].
  - intro. apply every_silent. silence.
Qed.

Lemma github_dispatch_calls n args :
  every (repository_call owner repo) (GitHub.dispatch owner repo octokit n args).
Proof.
  unfold GitHub.dispatch.
  destruct (GitHub.switch n) as [[] |].
  - apply github_create_calls.
  - unfold GitHub.case_list_github_issues.
    walk_every every_octokit.
    all: repeat split; try discriminate;
      match goal with |- context [truthy ?v] => destruct (truthy v) end;
      reflexivity.
  - unfold GitHub.case_get_github_issue.
    walk_every every_octokit.
    all: repeat split; try discriminate; try reflexivity.
  - apply every_silent. silence.
Qed.

Lemma github_dispatch_single n args :
  upstream_calls (trace (GitHub.dispatch owner repo octokit n args)) <= 1.
Proof.
  unfold GitHub.dispatch.
  destruct (GitHub.switch n) as [[] |];
    [ unfold GitHub.case_create_github_issue
    | unfold GitHub.case_list_github_issues
    | unfold GitHub.case_get_github_issue
    | ].
  all: walk_single single_octokit.
Qed.
End GitHubTraces.

(** * What an invocation sends upstream *)

Lemma calls_logged (t : list Event) (line : string) :
  upstream_calls (t ++ [Logged line]) = upstream_calls t.
Proof. rewrite calls_app. unfold upstream_calls at 2. simpl. lia. Qed.

Section MergeInvocations.
Context {rt : Runtime}.
Variables apiKey accountToken : string.
Variable fetch : string -> FetchOptions -> Exn + HttpResponse.

Lemma merge_call_tool_trace n args :
  trace (Merge.call_tool apiKey accountToken fetch n args) =
  trace (Merge.dispatch apiKey accountToken fetch n args) ++
  match outcome (Merge.dispatch apiKey accountToken fetch n args) with
  | inl _ => [Logged ("Error executing tool " +++ n +++ ":")]
  | inr _ => []
  end.
Proof.
  unfold Merge.call_tool. rewrite trace_try_catch.
  destruct (outcome (Merge.dispatch apiKey accountToken fetch n args));
    reflexivity.
Qed.

Lemma merge_fetched_in_dispatch n args url options :
  In (Fetched url options)
     (trace (Merge.call_tool apiKey accountToken fetch n args)) ->
  In (Fetched url options)
     (trace (Merge.dispatch apiKey accountToken fetch n args)).
Proof.
  rewrite merge_call_tool_trace. intro H.
  apply in_app_or in H as [H | H]; [exact H |].
  destruct (outcome (Merge.dispatch apiKey accountToken fetch n args));
    [destruct H as [H | []]; discriminate H | destruct H].
Qed.

Lemma merge_dispatch_returns_success n args :
  returns (Merge.dispatch apiKey accountToken fetch n args)
    (fun r => exists t, r = text_result t).
Proof.
  unfold Merge.dispatch.
  destruct (Merge.switch n) as [[] |];
    [ unfold Merge.case_create_crm_contact
    | unfold Merge.case_search_crm_contacts
    | unfold Merge.case_get_crm_contact
    | unfold Merge.case_create_crm_opportunity
    | unfold Merge.case_list_crm_opportunities
    | unfold Merge.case_get_crm_accounts
    | ];
    to_returns; eexists; reflexivity.
Qed.

Lemma merge_flag_iff_logged n args :
  (exists text,
      outcome (Merge.call_tool apiKey accountToken fetch n args) =
      inr (error_result text)) <->
  In (Logged ("Error executing tool " +++ n +++ ":"))
     (trace (Merge.call_tool apiKey accountToken fetch n args)).
Proof.
  rewrite merge_call_tool_trace, merge_call_tool_outcome.
  pose proof (merge_dispatch_returns_success n args) as S.
  pose proof (merge_dispatch_requests apiKey accountToken fetch n args) as E.
  destruct (outcome (Merge.dispatch apiKey accountToken fetch n args))
    as [e | r] eqn:O.
  - split.
    + intros _. apply in_or_app. right. now left.
    + intros _. eexists. reflexivity.
  - split.
    + intros [text H]. destruct (S r O) as [t ->]. discriminate H.
    + rewrite app_nil_r. intro H. apply E in H as [msg H]. discriminate H.
Qed.

Lemma surfaces_makeRequest_error endpoint verb data :
  surfaces (fetch_error fetch)
    (Merge.makeRequest apiKey accountToken fetch endpoint verb data).
Proof.
  unfold Merge.makeRequest.
  match goal with
  | |- context [Fetched ?u ?o] => generalize u, o
  end.
  intros url options ev e.
  rewrite trace_try_catch, outcome_try_catch, trace_bind, outcome_bind.
  cbn [emit trace outcome fst snd Merge.logError].
  destruct (fetch url options) as [e' | response] eqn:F.
  - cbn. intros [<- | [<- | []]]; cbn; rewrite ?F; congruence.
  - destruct (ok response) eqn:OK; cbn.
    + destruct (bodyJson response) eqn:J; cbn.
      * intros [<- | [<- | []]]; cbn; rewrite ?F, ?OK, ?J; congruence.
      * intros [<- | []]; cbn; rewrite F, OK, J; discriminate.
    + intros [<- | [<- | []]]; cbn; rewrite ?F, ?OK; congruence.
Qed.

Lemma merge_dispatch_surfaces_error n args :
  surfaces (fetch_error fetch)
    (Merge.dispatch apiKey accountToken fetch n args).
Proof.
  unfold Merge.dispatch.
  destruct (Merge.switch n) as [[] |];
    [ unfold Merge.case_create_crm_contact, Merge.createContact
    | unfold Merge.case_search_crm_contacts, Merge.searchCRM
    | unfold Merge.case_get_crm_contact, Merge.getContact
    | unfold Merge.case_create_crm_opportunity, Merge.createOpportunity
    | unfold Merge.case_list_crm_opportunities, Merge.getOpportunities,
        Merge.page_request
    | unfold Merge.case_get_crm_accounts, Merge.getAccounts,
        Merge.page_request
    | ].
  all: upstream surfaces_makeRequest_error.
Qed.

Lemma announces_silent {A} bad (m : M A) : silent m -> announces bad m.
Proof. intros S ev e H. rewrite S in H. destruct H. Qed.

Lemma announces_bind {A B} bad (m : M A) (f : A -> M B) :
  announces bad m -> (forall a, announces bad (f a)) ->
  announces bad (bind m f).
Proof.
  intros Hm Hf ev e. rewrite trace_bind. intros H Bad.
  apply in_or_app. apply in_app_or in H as [H | H].
  - left. exact (Hm ev e H Bad).
  - right. destruct (outcome m) as [e' | a]; [destruct H |].
    exact (Hf a ev e H Bad).
Qed.

Lemma announces_makeRequest endpoint verb data :
  announces (fetch_error fetch)
    (Merge.makeRequest apiKey accountToken fetch endpoint verb data).
Proof.
  unfold Merge.makeRequest.
  match goal with
  | |- context [Fetched ?u ?o] => generalize u, o
  end.
  intros url options ev e.
  rewrite trace_try_catch, trace_bind, outcome_bind.
  cbn [emit trace outcome fst snd Merge.logError].
  destruct (fetch url options) as [e' | response] eqn:F.
  - cbn. intros [<- | [<- | []]]; cbn; rewrite ?F; try discriminate.
    intro H. inversion H. subst. right. now left.
  - destruct (ok response) eqn:OK; cbn.
    + destruct (bodyJson response) eqn:J; cbn.
      * intros [<- | [<- | []]]; cbn; rewrite ?F, ?OK, ?J; try discriminate.
        intro H. inversion H. subst. right. now left.
      * intros [<- | []]; cbn; rewrite F, OK, J; discriminate.
    + intros [<- | [<- | []]]; cbn; rewrite ?F, ?OK; try discriminate.
      intro H. inversion H. subst. right. now left.
Qed.

Ltac walk_announces call :=
  repeat first
    [ apply call
    | apply announces_silent; solve [silence]
    | apply announces_bind; [| intro]
    | match goal with
      | |- announces _ (if ?b then _ else _) => destruct b
      | |- announces _ (match ?x with _ => _ end) => destruct x
      end ].

Lemma merge_dispatch_announces n args :
  announces (fetch_error fetch)
    (Merge.dispatch apiKey accountToken fetch n args).
Proof.
  unfold Merge.dispatch.
  destruct (Merge.switch n) as [[] |];
    [ unfold Merge.case_create_crm_contact, Merge.createContact
    | unfold Merge.case_search_crm_contacts, Merge.searchCRM
    | unfold Merge.case_get_crm_contact, Merge.getContact
    | unfold Merge.case_create_crm_opportunity, Merge.createOpportunity
    | unfold Merge.case_list_crm_opportunities, Merge.getOpportunities,
        Merge.page_request
    | unfold Merge.case_get_crm_accounts, Merge.getAccounts,
        Merge.page_request
    | ].
  all: walk_announces announces_makeRequest.
Qed.

Lemma merge_failure_reported n args url options e :
  In (Fetched url options)
     (trace (Merge.call_tool apiKey accountToken fetch n args)) ->
  fetch_error fetch (Fetched url options) = Some e ->
  outcome (Merge.call_tool apiKey accountToken fetch n args) =
    inr (error_result ("Error: " +++ message e)) /\
  In (Logged ("Merge API request failed: " +++ message e))
     (trace (Merge.call_tool apiKey accountToken fetch n args)).
Proof.
  intros H Bad. split.
  - unfold Merge.call_tool, Merge.logError in *.
    apply (surfaces_caught (fetch_error fetch) _ _ (Fetched url options) e
             (merge_dispatch_surfaces_error n args)); auto.
  - apply merge_fetched_in_dispatch in H.
    rewrite merge_call_tool_trace. apply in_or_app. left.
    exact (merge_dispatch_announces n args _ e H Bad).
Qed.

Lemma merge_call_tool_single n args :
  upstream_calls (trace (Merge.call_tool apiKey accountToken fetch n args)) <= 1.
Proof.
  rewrite merge_call_tool_trace.
  pose proof (merge_dispatch_single apiKey accountToken fetch n args).
  destruct (outcome (Merge.dispatch apiKey accountToken fetch n args)).
  - now rewrite calls_logged.
  - now rewrite app_nil_r.
Qed.

End MergeInvocations.

Section GitHubInvocations.
Context {rt : Runtime}.
Variables owner repo : string.
Variable octokit : OctokitMethod -> JSValue -> Exn + JSValue.

Lemma github_call_tool_trace n args :
  trace (GitHub.call_tool owner repo octokit n args) =
  trace (GitHub.dispatch owner repo octokit n args) ++
  match outcome (GitHub.dispatch owner repo octokit n args) with
  | inl _ => [Logged ("Error executing tool " +++ n +++ ":")]
  | inr _ => []
  end.
Proof.
  unfold GitHub.call_tool. rewrite trace_try_catch.
  destruct (outcome (GitHub.dispatch owner repo octokit n args));
    reflexivity.
Qed.

Lemma github_called_in_dispatch n args m params :
  In (OctokitCalled m params)
     (trace (GitHub.call_tool owner repo octokit n args)) ->
  In (OctokitCalled m params)
     (trace (GitHub.dispatch owner repo octokit n args)).
Proof.
  rewrite github_call_tool_trace. intro H.
  apply in_app_or in H as [H | H]; [exact H |].
  destruct (outcome (GitHub.dispatch owner repo octokit n args));
    [destruct H as [H | []]; discriminate H | destruct H].
Qed.

Lemma github_dispatch_returns_success n args :
  returns (GitHub.dispatch owner repo octokit n args)
    (fun r => exists t, r = text_result t).
Proof.
  unfold GitHub.dispatch.
  destruct (GitHub.switch n) as [[] |];
    [ unfold GitHub.case_create_github_issue
    | unfold GitHub.case_list_github_issues
    | unfold GitHub.case_get_github_issue
    | ];
    to_returns; eexists; reflexivity.
Qed.

Lemma github_flag_iff_logged n args :
  (exists text,
      outcome (GitHub.call_tool owner repo octokit n args) =
      inr (error_result text)) <->
  In (Logged ("Error executing tool " +++ n +++ ":"))
     (trace (GitHub.call_tool owner repo octokit n args)).
Proof.
  rewrite github_call_tool_trace, github_call_tool_outcome.
  pose proof (github_dispatch_returns_success n args) as S.
  pose proof (github_dispatch_calls owner repo octokit n args) as E.
  destruct (outcome (GitHub.dispatch owner repo octokit n args))
    as [e | r] eqn:O.
  - split.
    + intros _. apply in_or_app. right. now left.
    + intros _. eexists. reflexivity.
  - split.
    + intros [text H]. destruct (S r O) as [t ->]. discriminate H.
    + rewrite app_nil_r. intro H. apply E in H. destruct H.
Qed.

Lemma github_call_tool_single n args :
  upstream_calls (trace (GitHub.call_tool owner repo octokit n args)) <= 1.
Proof.
  rewrite github_call_tool_trace.
  pose proof (github_dispatch_single owner repo octokit n args).
  destruct (outcome (GitHub.dispatch owner repo octokit n args)).
  - now rewrite calls_logged.
  - now rewrite app_nil_r.
Qed.

End GitHubInvocations.

(** X1.  Every request a tool of the Merge server sends carries the bearer
    key, the account token and the two fixed headers, and is a [GET] without
    a body or a [POST] with the JSON of some value as its body.  The text of
    its URL is [https://api.merge.dev/api/crm/v1/] followed by a path; the
    path holds what the caller gave (a contact ID, a limit) as it is,
    without encoding, so this is a statement about the text handed to
    [fetch], not about the URL that text is parsed to. *)
Theorem merge_tools_send_authenticated_requests :
  forall (rt : Runtime) (apiKey accountToken : string)
         (fetch : string -> FetchOptions -> Exn + HttpResponse)
         (n : string) (args : JSValue) (url : string) (options : FetchOptions),
    In (Fetched url options)
       (trace (Merge.call_tool apiKey accountToken fetch n args)) ->
    (exists path, url = Merge.baseURL +++ "/crm/v1/" +++ path) /\
    headers options = merge_headers apiKey accountToken /\
    ((method options = "GET" /\ body options = None) \/
     (method options = "POST" /\
      exists data, body options = Some (JSON_stringify data))).
Proof.
  intros rt apiKey accountToken fetch n args url options H.
  apply merge_fetched_in_dispatch in H.
  exact (merge_dispatch_requests apiKey accountToken fetch n args _ H).
Qed.

Lemma merge_tools_send_authenticated_requests_witness :
  (exists path,
      "https://api.merge.dev/api/crm/v1/contacts/../../../../evil?x=" =
      Merge.baseURL +++ "/crm/v1/" +++ path) /\
  headers (get_request "k" "t") = merge_headers "k" "t" /\
  ((method (get_request "k" "t") = "GET" /\
    body (get_request "k" "t") = None) \/
   (method (get_request "k" "t") = "POST" /\
    exists data,
      body (get_request "k" "t") =
      Some (JSON_stringify (Runtime := ascii_runtime) data))).
Proof.
  apply (merge_tools_send_authenticated_requests ascii_runtime "k" "t"
           (fetch_json JNull) "get_crm_contact"
           (JObj [("contact_id", JStr "../../../../evil?x=")])).
  cbv. left. reflexivity.
Defined.

(** X2.  Every method of the Merge client hands [fetch] a URL whose text
    begins with the base URL, the endpoint being appended as it is, and the
    credentials of the client in the headers; a request whose method is the
    text [GET] carries no body, whatever data it was given. *)
Theorem client_requests_carry_credentials :
  forall (rt : Runtime) (apiKey accountToken : string)
         (fetch : string -> FetchOptions -> Exn + HttpResponse)
         (x y : JSValue) (endpoint verb : string),
    every (client_request apiKey accountToken)
      (Merge.makeRequest apiKey accountToken fetch endpoint verb x) /\
    every (client_request apiKey accountToken)
      (Merge.getContacts apiKey accountToken fetch x y) /\
    every (client_request apiKey accountToken)
      (Merge.createContact apiKey accountToken fetch x) /\
    every (client_request apiKey accountToken)
      (Merge.getContact apiKey accountToken fetch x) /\
    every (client_request apiKey accountToken)
      (Merge.updateContact apiKey accountToken fetch x y) /\
    every (client_request apiKey accountToken)
      (Merge.getOpportunities apiKey accountToken fetch x y) /\
    every (client_request apiKey accountToken)
      (Merge.createOpportunity apiKey accountToken fetch x) /\
    every (client_request apiKey accountToken)
      (Merge.getAccounts apiKey accountToken fetch x y) /\
    every (client_request apiKey accountToken)
      (Merge.createAccount apiKey accountToken fetch x) /\
    every (client_request apiKey accountToken)
      (Merge.getAccountDetails apiKey accountToken fetch) /\
    every (client_request apiKey accountToken)
      (Merge.searchCRM apiKey accountToken fetch x).
Proof.
  intros. repeat split;
    unfold Merge.getContacts, Merge.createContact, Merge.getContact,
      Merge.updateContact, Merge.getOpportunities, Merge.createOpportunity,
      Merge.getAccounts, Merge.createAccount, Merge.getAccountDetails,
      Merge.searchCRM, Merge.page_request;
    walk_every every_makeRequest.
Qed.

(** X3.  An invocation sends at most one request upstream, in either
    server: a handler never retries and never makes a second call. *)
Theorem one_upstream_call_per_invocation :
  forall (rt : Runtime) (owner repo : string)
         (octokit : OctokitMethod -> JSValue -> Exn + JSValue)
         (apiKey accountToken : string)
         (fetch : string -> FetchOptions -> Exn + HttpResponse)
         (n : string) (args : JSValue),
    upstream_calls (trace (GitHub.call_tool owner repo octokit n args)) <= 1 /\
    upstream_calls
      (trace (Merge.call_tool apiKey accountToken fetch n args)) <= 1.
Proof.
  intros. split.
  - apply github_call_tool_single.
  - apply merge_call_tool_single.
Qed.

(** X4.  Every Octokit call of a tool of the GitHub server is a call of a
    method on issues, and its parameters name the configured owner and
    repository, whatever the arguments hold: an [owner] or a [repo] among
    the arguments never reaches the parameters.  What the method requests
    with these parameters is Octokit's and not stated here. *)
Theorem github_calls_name_configured_repository :
  forall (rt : Runtime) (owner repo : string)
         (octokit : OctokitMethod -> JSValue -> Exn + JSValue)
         (n : string) (args : JSValue) (m : OctokitMethod) (params : JSValue),
    In (OctokitCalled m params)
       (trace (GitHub.call_tool owner repo octokit n args)) ->
    m <> ReposGet /\
    exists fields,
      params = JObj fields /\
      lookup "owner" fields = JStr owner /\
      lookup "repo" fields = JStr repo.
Proof.
  intros rt owner repo octokit n args m params H.
  apply github_called_in_dispatch in H.
  apply (github_dispatch_calls owner repo octokit n args) in H.
  destruct params; try destruct H.
  split; [assumption |]. eexists. split; [reflexivity | assumption].
Qed.

Lemma github_calls_name_configured_repository_witness :
  IssuesCreate <> ReposGet /\
  exists fields,
    JObj [("owner", JStr "o"); ("repo", JStr "r"); ("title", JStr "t");
          ("body", JStr EmptyString); ("labels", JArr [JStr "bug"])] =
      JObj fields /\
    lookup "owner" fields = JStr "o" /\
    lookup "repo" fields = JStr "r".
Proof.
  apply (github_calls_name_configured_repository ascii_runtime "o" "r"
           octokit_echo
           "create_github_issue"
           (JObj [("title", JStr "t"); ("owner", JStr "evil");
                  ("repo", JStr "other"); ("labels", JArr [JStr "bug"])])).
  cbv. left. reflexivity.
Defined.

(** X5.  When the request of an invocation of the Merge server fails in any
    way (the transport rejects, the status is outside 2xx, or the body of a
    2xx answer is not JSON), the result is the error result with the message
    of the failure, and the client has logged [Merge API request failed: ]
    followed by that message. *)
Theorem merge_request_failures_are_reported :
  forall (rt : Runtime) (apiKey accountToken : string)
         (fetch : string -> FetchOptions -> Exn + HttpResponse)
         (n : string) (args : JSValue) (url : string) (options : FetchOptions)
         (e : Exn),
    In (Fetched url options)
       (trace (Merge.call_tool apiKey accountToken fetch n args)) ->
    fetch_error fetch (Fetched url options) = Some e ->
    outcome (Merge.call_tool apiKey accountToken fetch n args) =
      inr (error_result ("Error: " +++ message e)) /\
    In (Logged ("Merge API request failed: " +++ message e))
       (trace (Merge.call_tool apiKey accountToken fetch n args)).
Proof.
  intros rt apiKey accountToken fetch n args url options e H Bad.
  now apply merge_failure_reported with (url := url) (options := options).
Qed.

Lemma merge_request_failures_are_reported_witness :
  outcome (Merge.call_tool (rt := ascii_runtime) "k" "t" fetch_down
             "get_crm_contact" (JObj [("contact_id", JStr "c1")])) =
    inr (error_result "Error: fetch failed") /\
  In (Logged "Merge API request failed: fetch failed")
     (trace (Merge.call_tool (rt := ascii_runtime) "k" "t" fetch_down
               "get_crm_contact" (JObj [("contact_id", JStr "c1")]))).
Proof.
  apply (merge_request_failures_are_reported ascii_runtime "k" "t" fetch_down
           "get_crm_contact" (JObj [("contact_id", JStr "c1")])
           "https://api.merge.dev/api/crm/v1/contacts/c1"
           (get_request "k" "t") (TypeError "fetch failed")).
  - cbv. left. reflexivity.
  - reflexivity.
Defined.

(** X6.  In either server the result of an invocation is flagged
    [isError: true] exactly when the line [Error executing tool <name>:] is
    logged: a handler that returns never flags an error itself, and a
    handler never logs that line. *)
Theorem error_flag_iff_logged :
  forall (rt : Runtime) (owner repo : string)
         (octokit : OctokitMethod -> JSValue -> Exn + JSValue)
         (apiKey accountToken : string)
         (fetch : string -> FetchOptions -> Exn + HttpResponse)
         (n : string) (args : JSValue),
    ((exists text,
         outcome (GitHub.call_tool owner repo octokit n args) =
         inr (error_result text)) <->
     In (Logged ("Error executing tool " +++ n +++ ":"))
        (trace (GitHub.call_tool owner repo octokit n args))) /\
    ((exists text,
         outcome (Merge.call_tool apiKey accountToken fetch n args) =
         inr (error_result text)) <->
     In (Logged ("Error executing tool " +++ n +++ ":"))
        (trace (Merge.call_tool apiKey accountToken fetch n args))).
Proof.
  intros. split.
  - apply github_flag_iff_logged.
  - apply merge_flag_iff_logged.
Qed.

(** * The tools of the GitHub server on the payloads of the API *)

Lemma mapM_ret {A B} (f : A -> M B) (g : A -> B) (l : list A) :
  (forall a, In a l -> f a = ret (g a)) -> mapM f l = ret (map g l).
Proof.
  induction l as [| x rest IH]; intro H; [reflexivity |].
  cbn [mapM map]. rewrite (H x (or_introl eq_refl)), bind_ret, IH, !bind_ret.
  - reflexivity.
  - intros a I. apply H. now right.
Qed.

Lemma mapM_throws {A B} (f : A -> M B) (l : list A) (x : A) :
  In x l -> (exists e, outcome (f x) = inl e) ->
  exists e, outcome (mapM f l) = inl e.
Proof.
  intros I [e E]. induction l as [| y rest IH]; [destruct I |].
  cbn [mapM]. rewrite outcome_bind.
  destruct I as [-> | I].
  - rewrite E. now exists e.
  - destruct (outcome (f y)) as [e' | b]; [now exists e' |].
    rewrite outcome_bind. destruct (IH I) as [e' ->]. now exists e'.
Qed.

(** Two maps in a row, over related lists. *)
Lemma mapM_chain {A B C D} (R : A -> B -> Prop) (f : A -> M C)
  (g : C -> M D) (h : B -> D) l l' :
  (forall a b, R a b -> exists c, f a = ret c /\ g c = ret (h b)) ->
  Forall2 R l l' ->
  exists cs, mapM f l = ret cs /\ mapM g cs = ret (map h l').
Proof.
  intros H F. induction F as [| a b l l' Rab _ (cs & Fs & Gs)].
  - exists []. split; reflexivity.
  - destruct (H a b Rab) as (c & Fa & Gc). exists (c :: cs).
    cbn [mapM map]. now rewrite Fa, Gc, Fs, Gs, !bind_ret.
Qed.

Section GitHubTyped.
Context {rt : Runtime}.
Variables owner repo : string.
Variable octokit : OctokitMethod -> JSValue -> Exn + JSValue.

Lemma label_names (labels : list JSValue) :
  Forall (fun label => nullish label = false) labels ->
  mapM (fun label => get_prop label "name") labels =
  ret (map (fun label => read label "name") labels).
Proof.
  intro H. apply mapM_ret. intros label I. unfold get_prop.
  rewrite Forall_forall in H. now rewrite (H label I).
Qed.

Lemma issue_summary_typed v i :
  listed_issue v i ->
  exists summary,
    GitHub.issue_summary v = ret summary /\
    GitHub.issue_line summary = ret (issue_entry i).
Proof.
  intros (fields & labels & -> & (N & _ & T & S & U) & Ls & NN).
  pose proof (label_names _ NN) as Names.
  unfold GitHub.issue_summary, array_map, array_receiver, get_prop in *.
  cbn [nullish read]. rewrite !bind_ret, Ls, bind_ret, Names.
  rewrite bind_ret. eexists. split; [reflexivity |].
  unfold GitHub.issue_line, show_prop, get_prop, issue_entry.
  cbn [nullish read lookup String.eqb Ascii.eqb Bool.eqb].
  rewrite !bind_ret, N, T, S, U. reflexivity.
Qed.

Lemma github_list_params fields n :
  limit_of fields = JInt n ->
  exists rest,
    trace (GitHub.call_tool owner repo octokit "list_github_issues"
             (JObj fields)) =
    OctokitCalled IssuesList (JObj (issues_query owner repo fields n)) :: rest.
Proof.
  intro L. unfold GitHub.call_tool. rewrite trace_try_catch.
  unfold GitHub.dispatch.
  cbn [GitHub.switch String.eqb Ascii.eqb Bool.eqb].
  unfold GitHub.case_list_github_issues.
  rewrite limit_default, L.
  unfold destructure_default, destructure, Math_min, to_number. run.
  unfold issues_query.
  destruct (truthy (lookup "labels" fields));
    match goal with
    | |- context [trace (bind (GitHub.octokit_rest _ ?m ?p) ?k)] =>
        destruct (trace_octokit_rest octokit m p k) as [rest ->]
    end;
    eexists; reflexivity.
Qed.

Lemma github_list_text fields n response items issues :
  limit_of fields = JInt n ->
  octokit IssuesList (JObj (issues_query owner repo fields n)) =
    inr (JObj response) ->
  lookup "data" response = JArr items ->
  Forall2 listed_issue items issues ->
  outcome (GitHub.call_tool owner repo octokit "list_github_issues"
             (JObj fields)) =
  inr (text_result (issues_text issues)).
Proof.
  intros L O D Is.
  destruct (mapM_chain _ _ _ _ _ _ issue_summary_typed Is)
    as (summaries & Ss & Ls).
  pose proof (related_length _ _ _ Is) as Len.
  rewrite github_call_tool_outcome. unfold GitHub.dispatch.
  cbn [GitHub.switch String.eqb Ascii.eqb Bool.eqb].
  unfold GitHub.case_list_github_issues.
  rewrite limit_default, L.
  unfold destructure_default, destructure, Math_min, to_number. run.
  unfold issues_query, JInt in O.
  destruct (truthy (lookup "labels" fields)); cbn [app] in O;
    run; rewrite outcome_octokit_rest, O.
  all: unfold destructure; run; rewrite D.
  all: unfold array_map, array_receiver, show_prop, get_prop; run.
  all: rewrite Ss; run; rewrite Ls; run.
  all: rewrite Len; reflexivity.
Qed.

Lemma github_get_text fields response v i :
  octokit IssuesGet
    (JObj [("owner", JStr owner); ("repo", JStr repo);
           ("issue_number", lookup "issue_number" fields)]) =
    inr (JObj response) ->
  lookup "data" response = v ->
  shown_issue v i ->
  outcome (GitHub.call_tool owner repo octokit "get_github_issue"
             (JObj fields)) =
  inr (text_result (issue_text i)).
Proof.
  intros O D (data & -> & (N & _ & T & S & U) & C & Up & B).
  rewrite github_call_tool_outcome. unfold GitHub.dispatch.
  cbn [GitHub.switch String.eqb Ascii.eqb Bool.eqb].
  unfold GitHub.case_get_github_issue, destructure. run.
  rewrite outcome_octokit_rest, O. unfold destructure. run. rewrite D.
  unfold show_prop, get_prop. cbn [nullish read].
  rewrite !bind_ret, N, T, S, U, C, Up. unfold JInt. cbn [to_string].
  rewrite !bind_ret, (optional_text_or _ _ _ _ B), outcome_ret.
  reflexivity.
Qed.

(** [if (v && v.length > 0) data.k = v] for a [v] that is not an object *)
Lemma forwards_items k v data :
  is_object v = false ->
  (if truthy v
   then len <- get_prop v "length" ;;
        some <- greater_than len 0 ;;
        ret (if some then set_field k v data else data)
   else ret data) =
  ret (if has_items v then set_field k v data else data).
Proof.
  intro H. unfold get_prop, greater_than, to_number.
  destruct v as [| | [|] | [z |] | [| c s] | [| x l] | ];
    try discriminate H; try reflexivity.
  cbn [truthy]. destruct (z =? 0)%Z; reflexivity.
Qed.

Lemma github_create_params fields :
  is_object (lookup "labels" fields) = false ->
  is_object (lookup "assignees" fields) = false ->
  exists rest,
    trace (GitHub.call_tool owner repo octokit "create_github_issue"
             (JObj fields)) =
    OctokitCalled IssuesCreate (JObj (new_issue owner repo fields)) :: rest.
Proof.
  intros Ls As. unfold GitHub.call_tool. rewrite trace_try_catch.
  unfold GitHub.dispatch.
  cbn [GitHub.switch String.eqb Ascii.eqb Bool.eqb].
  unfold GitHub.case_create_github_issue, destructure.
  cbn [nullish read]. rewrite !bind_ret.
  rewrite (forwards_items _ _ _ Ls), bind_ret.
  rewrite (forwards_items _ _ _ As), bind_ret.
  unfold new_issue.
  destruct (has_items (lookup "labels" fields)),
    (has_items (lookup "assignees" fields));
    cbn [set_field String.eqb Ascii.eqb Bool.eqb app];
    match goal with
    | |- context [trace (bind (GitHub.octokit_rest _ ?m ?p) ?k)] =>
        destruct (trace_octokit_rest octokit m p k) as [rest ->]
    end;
    eexists; reflexivity.
Qed.

Lemma github_list_broken_page fields n response items x :
  limit_of fields = JInt n ->
  octokit IssuesList (JObj (issues_query owner repo fields n)) =
    inr (JObj response) ->
  lookup "data" response = JArr items ->
  In x items ->
  nullish (opt_prop x "labels") = true ->
  exists text,
    outcome (GitHub.call_tool owner repo octokit "list_github_issues"
               (JObj fields)) =
    inr (error_result text).
Proof.
  intros L O D I N.
  rewrite github_call_tool_outcome. unfold GitHub.dispatch.
  cbn [GitHub.switch String.eqb Ascii.eqb Bool.eqb].
  unfold GitHub.case_list_github_issues.
  rewrite limit_default, L.
  unfold destructure_default, destructure, Math_min, to_number. run.
  unfold issues_query, JInt in O.
  assert (T : exists e, outcome (GitHub.issue_summary x) = inl e).
  { unfold GitHub.issue_summary, get_prop, opt_prop in *.
    destruct (nullish x) eqn:X; [eexists; reflexivity |].
    run. unfold array_map, array_receiver.
    destruct (read x "labels"); try discriminate N; eexists; reflexivity. }
  destruct (mapM_throws _ _ _ I T) as [e E].
  destruct (truthy (lookup "labels" fields)); cbn [app] in O;
    run; rewrite outcome_octokit_rest, O.
  all: unfold destructure; run; rewrite D.
  all: unfold array_map, array_receiver; run.
  all: rewrite outcome_bind, E; eexists; reflexivity.
Qed.

Lemma listed_issue_js i :
  safe_integer (issue_number i) -> listed_issue (js_of_issue i) i.
Proof.
  intro S. eexists. eexists. split; [reflexivity |].
  split; [repeat split; exact S |]. split; [reflexivity |].
  induction (issue_labels i); constructor; [reflexivity | assumption].
Qed.

Lemma shown_issue_js i :
  safe_integer (issue_number i) -> shown_issue (js_of_issue i) i.
Proof.
  intro S. eexists. split; [reflexivity |].
  split; [repeat split; exact S |]. repeat split.
  cbn [lookup String.eqb Ascii.eqb Bool.eqb]. now destruct (issue_body i).
Qed.

End GitHubTyped.

(** X7.  The create-issue tool gives Octokit the title as it is, the body or
    an empty string, and the labels and the assignees when they are truthy
    and have a [length] above zero: of the values that are not objects, the
    arrays and the strings that are not empty.  An empty array, a number or
    a boolean is left out of the call, and a string such as [bug] goes to
    Octokit as it is. *)
Theorem create_issue_forwards_values_with_items :
  forall (rt : Runtime) (owner repo : string)
         (octokit : OctokitMethod -> JSValue -> Exn + JSValue)
         (fields : list (string * JSValue)),
    is_object (lookup "labels" fields) = false ->
    is_object (lookup "assignees" fields) = false ->
    exists rest,
      trace (GitHub.call_tool owner repo octokit "create_github_issue"
               (JObj fields)) =
      OctokitCalled IssuesCreate (JObj (new_issue owner repo fields)) :: rest.
Proof.
  intros rt owner repo octokit fields Ls As.
  now apply github_create_params.
Qed.

Lemma create_issue_forwards_values_with_items_witness :
  exists rest,
    trace (GitHub.call_tool (rt := ascii_runtime) "o" "r" octokit_echo
             "create_github_issue"
             (JObj [("title", JStr "t"); ("labels", JStr "bug");
                    ("assignees", JArr [])])) =
    OctokitCalled IssuesCreate
      (JObj [("owner", JStr "o"); ("repo", JStr "r"); ("title", JStr "t");
             ("body", JStr EmptyString);
             ("labels", JStr "bug")]) :: rest.
Proof.
  exact (create_issue_forwards_values_with_items ascii_runtime "o" "r"
           octokit_echo
           [("title", JStr "t"); ("labels", JStr "bug");
            ("assignees", JArr [])]
           eq_refl eq_refl).
Defined.

(** X8.  The list-issues tool asks Octokit for the state of the arguments,
    [open] when they have none and otherwise whatever they hold, for the
    labels only when the arguments have some, and for a page of the limit
    cut at 100. *)
Theorem list_issues_query_is_built_from_arguments :
  forall (rt : Runtime) (owner repo : string)
         (octokit : OctokitMethod -> JSValue -> Exn + JSValue)
         (fields : list (string * JSValue)) (n : Z),
    limit_of fields = JInt n ->
    exists rest,
      trace (GitHub.call_tool owner repo octokit "list_github_issues"
               (JObj fields)) =
      OctokitCalled IssuesList (JObj (issues_query owner repo fields n))
        :: rest.
Proof.
  intros rt owner repo octokit fields n L. now apply github_list_params.
Qed.

Lemma list_issues_query_is_built_from_arguments_witness :
  exists rest,
    trace (GitHub.call_tool (rt := ascii_runtime) "o" "r" octokit_echo
             "list_github_issues" (JObj [("state", JStr "merged")])) =
    OctokitCalled IssuesList
      (JObj [("owner", JStr "o"); ("repo", JStr "r");
             ("state", JStr "merged"); ("per_page", JInt 10)]) :: rest.
Proof.
  exact (list_issues_query_is_built_from_arguments ascii_runtime "o" "r"
           octokit_echo [("state", JStr "merged")] 10 eq_refl).
Defined.

(** X9.  When Octokit answers the list-issues tool with a page of issues,
    the result is not an error and its text is the heading
    [Found <count> issues:] followed by two lines for each issue, number,
    title, state and URL; for an empty page the text is the heading alone,
    [Found 0 issues:].  An issue of the page is told by what the tool reads
    of it: its number, title, state, URL and an array of labels, whatever
    else it holds. *)
Theorem list_issues_text_lists_the_page :
  forall (rt : Runtime) (owner repo : string)
         (octokit : OctokitMethod -> JSValue -> Exn + JSValue)
         (fields : list (string * JSValue)) (n : Z)
         (response : list (string * JSValue)) (items : list JSValue)
         (issues : list Issue),
    limit_of fields = JInt n ->
    octokit IssuesList (JObj (issues_query owner repo fields n)) =
      inr (JObj response) ->
    lookup "data" response = JArr items ->
    Forall2 listed_issue items issues ->
    outcome (GitHub.call_tool owner repo octokit "list_github_issues"
               (JObj fields)) =
      inr (text_result (issues_text issues)).
Proof.
  intros rt owner repo octokit fields n response items issues L O D Is.
  now apply github_list_text
    with (n := n) (response := response) (items := items).
Qed.

Lemma list_issues_text_lists_the_page_witness :
  outcome (GitHub.call_tool (rt := ascii_runtime) "o" "r"
             (octokit_data (JArr [js_of_issue crash_issue]))
             "list_github_issues" (JObj [])) =
    inr (text_result
           ("Found 1 issues:" +++ nl +++ nl +++
            "#7: Crash (open)" +++ nl +++ "  https://x/7")).
Proof.
  exact (list_issues_text_lists_the_page ascii_runtime "o" "r"
           (octokit_data (JArr [js_of_issue crash_issue]))
           [] 10 [("data", JArr [js_of_issue crash_issue])]
           [js_of_issue crash_issue] [crash_issue] eq_refl eq_refl eq_refl
           (Forall2_cons _ _ (listed_issue_js crash_issue eq_refl)
              (Forall2_nil _))).
Defined.

(** X10.  When Octokit answers the get-issue tool with an issue, the result
    is not an error and its text shows number, title, state, dates, URL and
    body; an issue whose body is missing or empty shows
    [No description provided.] in its place.  The issue is told by what the
    tool reads of it, whatever else it holds. *)
Theorem get_issue_text_shows_the_issue :
  forall (rt : Runtime) (owner repo : string)
         (octokit : OctokitMethod -> JSValue -> Exn + JSValue)
         (fields response : list (string * JSValue)) (i : Issue),
    octokit IssuesGet
      (JObj [("owner", JStr owner); ("repo", JStr repo);
             ("issue_number", lookup "issue_number" fields)]) =
      inr (JObj response) ->
    shown_issue (lookup "data" response) i ->
    outcome (GitHub.call_tool owner repo octokit "get_github_issue"
               (JObj fields)) =
      inr (text_result (issue_text i)).
Proof.
  intros rt owner repo octokit fields response i O D.
  now apply github_get_text
    with (response := response) (v := lookup "data" response).
Qed.

Lemma get_issue_text_shows_the_issue_witness :
  outcome (GitHub.call_tool (rt := ascii_runtime) "o" "r"
             (octokit_data (js_of_issue crash_issue))
             "get_github_issue" (JObj [("issue_number", JInt 7)])) =
    inr (text_result
           ("Issue #7: Crash" +++ nl +++ nl +++ "State: open" +++ nl +++
            "Created: 2025-01-01" +++ nl +++ "Updated: 2025-01-02" +++ nl +++
            "URL: https://x/7" +++ nl +++ nl +++ "Body:" +++ nl +++
            "No description provided.")).
Proof.
  exact (get_issue_text_shows_the_issue ascii_runtime "o" "r"
           (octokit_data (js_of_issue crash_issue))
           [("issue_number", JInt 7)]
           [("data", js_of_issue crash_issue)] crash_issue
           eq_refl (shown_issue_js crash_issue eq_refl)).
Defined.

(** X11.  The list-issues tool reads the labels of every issue of the page,
    though it shows none: when one element of the page has no [labels], the
    whole invocation is an error result and no issue is listed. *)
Theorem list_issues_fails_on_issue_without_labels :
  forall (rt : Runtime) (owner repo : string)
         (octokit : OctokitMethod -> JSValue -> Exn + JSValue)
         (fields : list (string * JSValue)) (n : Z)
         (response : list (string * JSValue)) (items : list JSValue)
         (x : JSValue),
    limit_of fields = JInt n ->
    octokit IssuesList (JObj (issues_query owner repo fields n)) =
      inr (JObj response) ->
    lookup "data" response = JArr items ->
    In x items ->
    nullish (opt_prop x "labels") = true ->
    exists text,
      outcome (GitHub.call_tool owner repo octokit "list_github_issues"
                 (JObj fields)) =
      inr (error_result text).
Proof.
  intros rt owner repo octokit fields n response items x L O D I N.
  now apply github_list_broken_page
    with (n := n) (response := response) (items := items) (x := x).
Qed.

Lemma list_issues_fails_on_issue_without_labels_witness :
  exists text,
    outcome (GitHub.call_tool (rt := ascii_runtime) "o" "r"
               (octokit_data
                  (JArr [JObj [("number", JInt 1);
                               ("title", JStr "No labels")]]))
               "list_github_issues" (JObj [])) =
    inr (error_result text).
Proof.
  apply (list_issues_fails_on_issue_without_labels ascii_runtime "o" "r"
           (octokit_data
              (JArr [JObj [("number", JInt 1); ("title", JStr "No labels")]]))
           [] 10
           [("data", JArr [JObj [("number", JInt 1);
                                 ("title", JStr "No labels")]])]
           [JObj [("number", JInt 1); ("title", JStr "No labels")]]
           (JObj [("number", JInt 1); ("title", JStr "No labels")]));
    try reflexivity.
  now left.
Defined.

(** * The tools of the Merge server on the payloads of the API *)



Section MergeTyped.
Context {rt : Runtime}.
Variables apiKey accountToken : string.
Variable fetch : string -> FetchOptions -> Exn + HttpResponse.

Lemma merge_search_plain fields limit response page items cs :
  truthy (lookup "query" fields) = false ->
  limit_of fields = JInt (Z.of_nat limit) ->
  fetch (Merge.baseURL +++ "/crm/v1/contacts")
    (get_request apiKey accountToken) = inr response ->
  ok response = true ->
  bodyJson response = inr (JObj page) ->
  lookup "results" page = JArr items ->
  Forall2 contact_of items cs ->
  outcome (Merge.call_tool apiKey accountToken fetch "search_crm_contacts"
             (JObj fields)) =
  inr (text_result (plain_listing (firstn limit cs))).
Proof.
  intros Q L F OK J R Cs.
  rewrite merge_call_tool_outcome. unfold Merge.dispatch.
  cbn [Merge.switch String.eqb Ascii.eqb Bool.eqb].
  unfold Merge.case_search_crm_contacts.
  rewrite limit_default, L. unfold destructure. run.
  unfold Merge.searchCRM. rewrite outcome_bind.
  erewrite outcome_get; [| exact F | exact OK | exact J].
  rewrite Q. cbn [negb]. unfold get_prop. run. rewrite R.
  unfold slice0, slice_end, to_number, or_else. run.
  assert (N : (Z.of_nat limit <? 0)%Z = false) by (apply Z.ltb_ge; lia).
  rewrite N, Nat2Z.id, firstn_min.
  pose proof (firstn_related _ limit _ _ Cs) as Kl.
  rewrite (search_listing _ _ _ Kl). unfold plain_listing.
  destruct (firstn limit cs); reflexivity.
Qed.






Lemma merge_contact_details fields cid response v d :
  lookup "contact_id" fields = JStr cid ->
  fetch (Merge.baseURL +++ "/crm/v1/contacts/" +++ cid)
    (get_request apiKey accountToken) = inr response ->
  ok response = true ->
  bodyJson response = inr v ->
  details_of v d ->
  outcome (Merge.call_tool apiKey accountToken fetch "get_crm_contact"
             (JObj fields)) =
  inr (text_result (details_text d)).
Proof.
  intros C F OK J (data & -> & (I & Fn & Ln & Es) & Ps & Rm & Cr & Md).
  rewrite merge_call_tool_outcome. unfold Merge.dispatch.
  cbn [Merge.switch String.eqb Ascii.eqb Bool.eqb].
  unfold Merge.case_get_crm_contact, Merge.getContact, destructure.
  cbn [nullish read]. rewrite bind_ret, C. cbn [to_string]. rewrite bind_ret.
  erewrite outcome_get; [| exact F | exact OK | exact J].
  rewrite (full_name_typed _ _ _ Fn Ln).
  rewrite (show_prop_or_typed _ _ _ _ Rm), (show_prop_or_typed _ _ _ _ Cr),
    (show_prop_or_typed _ _ _ _ Md).
  unfold show_prop, get_prop. cbn [nullish read]. rewrite !bind_ret.
  rewrite (first_of_typed _ _ _ _ Es), bind_ret.
  rewrite (first_of_typed _ _ _ _ Ps), bind_ret, I.
  cbn [to_string]. rewrite !bind_ret, outcome_ret. reflexivity.
Qed.

Lemma optional_text_js o : optional_text (js_of_option o) o.
Proof. destruct o; reflexivity. Qed.



Lemma entries_of_js key os :
  entries_of key
    (JArr (map (fun o => JObj [(key, js_of_option o)]) os)) os.
Proof.
  right. eexists. split; [reflexivity |].
  induction os as [| o os IH]; constructor; [| exact IH].
  eexists. split; [reflexivity |]. cbn [lookup]. rewrite String.eqb_refl.
  apply optional_text_js.
Qed.

Lemma details_of_js d : details_of (js_of_details d) d.
Proof.
  eexists. split; [reflexivity |].
  cbn [lookup String.eqb Ascii.eqb Bool.eqb].
  repeat split; try apply optional_text_js; apply entries_of_js.
Qed.

End MergeTyped.

(** X12.  The search tool called without a query, or with an empty one,
    filters nothing: it lists the first [limit] contacts of the page of the
    upstream (10 without a limit), in the order of the page, and for an
    empty page the text is [No contacts found] with no query after it.  The
    contacts of the page are told by the properties the tool reads, whatever
    else they hold. *)
Theorem search_without_query_lists_the_page :
  forall (rt : Runtime) (apiKey accountToken : string)
         (fetch : string -> FetchOptions -> Exn + HttpResponse)
         (fields : list (string * JSValue)) (limit : nat)
         (response : HttpResponse) (page : list (string * JSValue))
         (items : list JSValue) (cs : list Contact),
    truthy (lookup "query" fields) = false ->
    limit_of fields = JInt (Z.of_nat limit) ->
    fetch (Merge.baseURL +++ "/crm/v1/contacts")
      (get_request apiKey accountToken) = inr response ->
    ok response = true ->
    bodyJson response = inr (JObj page) ->
    lookup "results" page = JArr items ->
    Forall2 contact_of items cs ->
    outcome (Merge.call_tool apiKey accountToken fetch "search_crm_contacts"
               (JObj fields)) =
      inr (text_result (plain_listing (firstn limit cs))).
Proof.
  intros rt apiKey accountToken fetch fields limit response page items cs
         Q L F OK J R Cs.
  now apply merge_search_plain
    with (response := response) (page := page) (items := items).
Qed.

Lemma search_without_query_lists_the_page_witness :
  outcome (Merge.call_tool (rt := ascii_runtime) "k" "t"
             (fetch_json (page_of [alice; bob]))
             "search_crm_contacts"
             (JObj [("query", JStr EmptyString); ("limit", JInt 1)])) =
    inr (text_result
           ("Found 1 contact(s):" +++ nl +++ nl +++
            "Alice Liddell (alice@example.com) - ID: c1")).
Proof.
  exact (search_without_query_lists_the_page ascii_runtime "k" "t"
           (fetch_json (page_of [alice; bob]))
           [("query", JStr EmptyString); ("limit", JInt 1)] 1
           (answer (page_of [alice; bob]))
           [("next", JNull); ("previous", JNull);
            ("results", JArr (map js_of_contact [alice; bob]))]
           (map js_of_contact [alice; bob])
           [alice; bob] eq_refl eq_refl eq_refl eq_refl eq_refl eq_refl
           (contacts_of_js [alice; bob])).
Defined.





(** X15.  The contact tool asks the upstream for
    [/crm/v1/contacts/<contact_id>] and, when it answers with a contact,
    shows the trimmed name, the first email address or [No email], the
    first phone number or [No phone], the ID, the remote ID or [N/A], and
    the two dates or [Unknown].  The contact is told by the properties the
    tool reads, whatever else it holds. *)
Theorem contact_details_are_shown_with_fallbacks :
  forall (rt : Runtime) (apiKey accountToken : string)
         (fetch : string -> FetchOptions -> Exn + HttpResponse)
         (fields : list (string * JSValue)) (cid : string)
         (response : HttpResponse) (v : JSValue) (d : ContactDetails),
    lookup "contact_id" fields = JStr cid ->
    fetch (Merge.baseURL +++ "/crm/v1/contacts/" +++ cid)
      (get_request apiKey accountToken) = inr response ->
    ok response = true ->
    bodyJson response = inr v ->
    details_of v d ->
    outcome (Merge.call_tool apiKey accountToken fetch "get_crm_contact"
               (JObj fields)) =
      inr (text_result (details_text d)).
Proof.
  intros rt apiKey accountToken fetch fields cid response v d C F OK J D.
  now apply merge_contact_details
    with (cid := cid) (response := response) (v := v).
Qed.

Lemma contact_details_are_shown_with_fallbacks_witness :
  outcome (Merge.call_tool (rt := ascii_runtime) "k" "t"
             (fetch_json (js_of_details alice_details))
             "get_crm_contact" (JObj [("contact_id", JStr "c1")])) =
    inr (text_result
           ("Contact Details:" +++ nl +++
            "Name: Alice Liddell" +++ nl +++
            "Email: alice@example.com" +++ nl +++
            "Phone: No phone" +++ nl +++
            "ID: c1" +++ nl +++
            "Remote ID: N/A" +++ nl +++
            "Created: 2025-01-01" +++ nl +++
            "Modified: Unknown")).
Proof.
  exact (contact_details_are_shown_with_fallbacks ascii_runtime "k" "t"
           (fetch_json (js_of_details alice_details))
           [("contact_id", JStr "c1")] "c1"
           (answer (js_of_details alice_details))
           (js_of_details alice_details) alice_details
           eq_refl eq_refl eq_refl eq_refl (details_of_js alice_details)).
Defined.

(** * Creating records *)

Section MergeCreate.
Context {rt : Runtime}.
Variables apiKey accountToken : string.
Variable fetch : string -> FetchOptions -> Exn + HttpResponse.

Lemma makeRequest_post endpoint fields :
  Merge.makeRequest apiKey accountToken fetch endpoint "POST" (JObj fields) =
  try_catch
    (emit (Fetched (Merge.baseURL +++ endpoint)
             (post_request apiKey accountToken (JObj fields))) ;;;
     match fetch (Merge.baseURL +++ endpoint)
             (post_request apiKey accountToken (JObj fields)) with
     | inl e => throw e
     | inr response =>
         if negb (ok response) then throw (Merge.api_error response)
         else match bodyJson response with
              | inl e => throw e
              | inr v => ret v
              end
     end)
    (fun error =>
       Merge.logError ("Merge API request failed: " +++ message error) ;;;
       throw error).
Proof. reflexivity. Qed.

Lemma outcome_post {A} endpoint fields (k : JSValue -> M A) response page :
  fetch (Merge.baseURL +++ endpoint)
    (post_request apiKey accountToken (JObj fields)) = inr response ->
  ok response = true ->
  bodyJson response = inr page ->
  outcome (x <- Merge.makeRequest apiKey accountToken fetch endpoint
                  "POST" (JObj fields) ;; k x) =
  outcome (k page).
Proof.
  intros F OK J.
  rewrite outcome_bind, makeRequest_post, outcome_try_catch, outcome_bind.
  cbn [emit outcome snd]. rewrite F, OK, J. reflexivity.
Qed.

Lemma trace_post {A} endpoint fields (k : JSValue -> M A) :
  exists rest,
    trace (x <- Merge.makeRequest apiKey accountToken fetch endpoint
                  "POST" (JObj fields) ;; k x) =
    Fetched (Merge.baseURL +++ endpoint)
      (post_request apiKey accountToken (JObj fields)) :: rest.
Proof.
  rewrite trace_bind, makeRequest_post, trace_try_catch, trace_bind.
  cbn [emit trace fst app]. eexists. reflexivity.
Qed.

Lemma merge_create_posts_model tool path args :
  (tool = "create_crm_contact" /\ path = "/crm/v1/contacts") \/
  (tool = "create_crm_opportunity" /\ path = "/crm/v1/opportunities") ->
  exists rest,
    trace (Merge.call_tool apiKey accountToken fetch tool args) =
    Fetched (Merge.baseURL +++ path)
      (post_request apiKey accountToken (JObj [("model", args)])) :: rest.
Proof.
  intros [[-> ->] | [-> ->]]; rewrite merge_call_tool_trace;
    unfold Merge.dispatch; cbn [Merge.switch String.eqb Ascii.eqb Bool.eqb];
    [unfold Merge.case_create_crm_contact, Merge.createContact
    |unfold Merge.case_create_crm_opportunity, Merge.createOpportunity];
    match goal with
    | |- context [trace (bind (Merge.makeRequest _ _ _ ?p _ (JObj ?f)) ?k)] =>
        destruct (trace_post p f k) as [rest ->]
    end; eexists; reflexivity.
Qed.

Lemma merge_contact_pending args response page :
  fetch (Merge.baseURL +++ "/crm/v1/contacts")
    (post_request apiKey accountToken (JObj [("model", args)])) =
    inr response ->
  ok response = true ->
  bodyJson response = inr (JObj page) ->
  nullish (lookup "model" page) = true ->
  outcome (Merge.call_tool apiKey accountToken fetch "create_crm_contact"
             args) =
  inr (text_result
         ("Successfully created CRM contact via Merge!" +++ nl +++
          "ID: N/A" +++ nl +++
          "Name: undefined undefined" +++ nl +++
          "Email: N/A" +++ nl +++
          "Status: Pending sync" +++ nl +++
          "Remote ID: Will be assigned")).
Proof.
  intros F OK J N.
  rewrite merge_call_tool_outcome. unfold Merge.dispatch.
  cbn [Merge.switch String.eqb Ascii.eqb Bool.eqb].
  unfold Merge.case_create_crm_contact, Merge.createContact.
  erewrite outcome_post; [| exact F | exact OK | exact J].
  unfold Merge.show_model_or, Merge.first_entry, get_prop, opt_prop, or_else.
  cbn [nullish read]. rewrite !bind_ret.
  destruct (lookup "model" page); try discriminate N; run; reflexivity.
Qed.

Lemma merge_opportunity_pending fields name amount stage response page :
  lookup "name" fields = JStr name ->
  optional_amount (lookup "amount" fields) amount ->
  optional_text (lookup "stage" fields) stage ->
  fetch (Merge.baseURL +++ "/crm/v1/opportunities")
    (post_request apiKey accountToken (JObj [("model", JObj fields)])) =
    inr response ->
  ok response = true ->
  bodyJson response = inr (JObj page) ->
  nullish (lookup "model" page) = true ->
  outcome (Merge.call_tool apiKey accountToken fetch "create_crm_opportunity"
             (JObj fields)) =
  inr (text_result
         ("Successfully created CRM opportunity via Merge!" +++ nl +++
          "ID: N/A" +++ nl +++
          "Name: " +++ name +++ nl +++
          "Amount: " +++
          string_of_Z (match amount with Some z => z | None => 0%Z end) +++
          nl +++
          "Stage: " +++ text_or stage "Not set" +++ nl +++
          "Status: Pending sync" +++ nl +++
          "Remote ID: Will be assigned")).
Proof.
  intros Nm Am St F OK J N.
  rewrite merge_call_tool_outcome. unfold Merge.dispatch.
  cbn [Merge.switch String.eqb Ascii.eqb Bool.eqb].
  unfold Merge.case_create_crm_opportunity, Merge.createOpportunity.
  erewrite outcome_post; [| exact F | exact OK | exact J].
  unfold Merge.show_model_or, get_prop, opt_prop, or_else.
  cbn [nullish read]. rewrite !bind_ret, Nm.
  assert (U : forall v k, nullish v = true ->
                (if nullish v then JUndefined else read v k) = JUndefined).
  { intros v k H. now rewrite H. }
  rewrite !(U _ _ N). cbn [truthy]. rewrite !bind_ret.
  assert (Amount :
    (amount0 <- (if truthy (lookup "amount" fields)
                 then ret (lookup "amount" fields) else ret (JInt 0)) ;;
     to_string amount0) =
    ret (string_of_Z (match amount with Some z => z | None => 0%Z end))).
  { destruct amount as [z |]; cbn [optional_amount] in Am.
    - destruct Am as [Am _]. rewrite Am. unfold JInt. cbn [truthy].
      destruct (z =? 0)%Z eqn:E; cbn [negb]; rewrite bind_ret;
        [| reflexivity].
      apply Z.eqb_eq in E. now subst.
    - destruct (lookup "amount" fields); try discriminate Am; reflexivity. }
  assert (Stage :
    (stage0 <- (if truthy (lookup "stage" fields)
                then ret (lookup "stage" fields) else ret (JStr "Not set")) ;;
     to_string stage0) =
    ret (text_or stage "Not set")).
  { destruct stage as [s |]; cbn [optional_text] in St.
    - rewrite St. destruct s; reflexivity.
    - destruct (lookup "stage" fields); try discriminate St; reflexivity. }
  cbn [to_string]. rewrite !bind_ret.
  rewrite Amount, bind_ret, Stage, !bind_ret.
  cbn [to_string]. rewrite ?bind_ret, outcome_ret.
  destruct (lookup "model" page); try discriminate N; reflexivity.
Qed.

End MergeCreate.

(** X16.  The two create tools send their arguments upstream as they are,
    before reading any of them: the first event of the invocation is a
    [POST] whose body is the JSON of [{ model: arguments }], to
    [/crm/v1/contacts] or to [/crm/v1/opportunities], whatever the
    arguments are. *)
Theorem create_tools_post_arguments_as_model :
  forall (rt : Runtime) (apiKey accountToken : string)
         (fetch : string -> FetchOptions -> Exn + HttpResponse)
         (args : JSValue),
    (exists rest,
        trace (Merge.call_tool apiKey accountToken fetch
                 "create_crm_contact" args) =
        Fetched (Merge.baseURL +++ "/crm/v1/contacts")
          (post_request apiKey accountToken (JObj [("model", args)]))
          :: rest) /\
    (exists rest,
        trace (Merge.call_tool apiKey accountToken fetch
                 "create_crm_opportunity" args) =
        Fetched (Merge.baseURL +++ "/crm/v1/opportunities")
          (post_request apiKey accountToken (JObj [("model", args)]))
          :: rest).
Proof.
  intros. split.
  - apply merge_create_posts_model. left. now split.
  - apply merge_create_posts_model. right. now split.
Qed.

(** X17.  When the upstream answers the creation of a contact with a 2xx
    body that has no [model], the result is still a success: the ID and the
    email read [N/A], the name reads [undefined undefined], the status
    [Pending sync] and the remote ID [Will be assigned]; nothing of the
    arguments is shown. *)
Theorem contact_created_without_model_is_pending :
  forall (rt : Runtime) (apiKey accountToken : string)
         (fetch : string -> FetchOptions -> Exn + HttpResponse)
         (args : JSValue) (response : HttpResponse)
         (page : list (string * JSValue)),
    fetch (Merge.baseURL +++ "/crm/v1/contacts")
      (post_request apiKey accountToken (JObj [("model", args)])) =
      inr response ->
    ok response = true ->
    bodyJson response = inr (JObj page) ->
    nullish (lookup "model" page) = true ->
    outcome (Merge.call_tool apiKey accountToken fetch "create_crm_contact"
               args) =
      inr (text_result
             ("Successfully created CRM contact via Merge!" +++ nl +++
              "ID: N/A" +++ nl +++
              "Name: undefined undefined" +++ nl +++
              "Email: N/A" +++ nl +++
              "Status: Pending sync" +++ nl +++
              "Remote ID: Will be assigned")).
Proof.
  intros rt apiKey accountToken fetch args response page F OK J N.
  now apply merge_contact_pending with (response := response) (page := page).
Qed.

Lemma contact_created_without_model_is_pending_witness :
  outcome (Merge.call_tool (rt := ascii_runtime) "k" "t"
             (fetch_json (JObj []))
             "create_crm_contact"
             (JObj [("first_name", JStr "Ada");
                    ("last_name", JStr "Lovelace")])) =
    inr (text_result
           ("Successfully created CRM contact via Merge!" +++ nl +++
            "ID: N/A" +++ nl +++
            "Name: undefined undefined" +++ nl +++
            "Email: N/A" +++ nl +++
            "Status: Pending sync" +++ nl +++
            "Remote ID: Will be assigned")).
Proof.
  exact (contact_created_without_model_is_pending ascii_runtime "k" "t"
           (fetch_json (JObj []))
           (JObj [("first_name", JStr "Ada"); ("last_name", JStr "Lovelace")])
           (answer (JObj [])) [] eq_refl eq_refl eq_refl eq_refl).
Defined.

(** X18.  When the upstream answers the creation of an opportunity with a
    2xx body that has no [model], the text is built from the arguments: the
    name given, the amount given or [0], the stage given or [Not set], with
    the ID [N/A] and the status [Pending sync].  The amount of the
    arguments is a safe integer or missing. *)
Theorem opportunity_created_without_model_shows_arguments :
  forall (rt : Runtime) (apiKey accountToken : string)
         (fetch : string -> FetchOptions -> Exn + HttpResponse)
         (fields : list (string * JSValue)) (name : string)
         (amount : option Z) (stage : option string)
         (response : HttpResponse) (page : list (string * JSValue)),
    lookup "name" fields = JStr name ->
    optional_amount (lookup "amount" fields) amount ->
    optional_text (lookup "stage" fields) stage ->
    fetch (Merge.baseURL +++ "/crm/v1/opportunities")
      (post_request apiKey accountToken (JObj [("model", JObj fields)])) =
      inr response ->
    ok response = true ->
    bodyJson response = inr (JObj page) ->
    nullish (lookup "model" page) = true ->
    outcome (Merge.call_tool apiKey accountToken fetch
               "create_crm_opportunity" (JObj fields)) =
      inr (text_result
             ("Successfully created CRM opportunity via Merge!" +++ nl +++
              "ID: N/A" +++ nl +++
              "Name: " +++ name +++ nl +++
              "Amount: " +++
              string_of_Z (match amount with Some z => z | None => 0%Z end) +++
              nl +++
              "Stage: " +++ text_or stage "Not set" +++ nl +++
              "Status: Pending sync" +++ nl +++
              "Remote ID: Will be assigned")).
Proof.
  intros rt apiKey accountToken fetch fields name amount stage response page
         Nm Am St F OK J N.
  now apply merge_opportunity_pending
    with (response := response) (page := page).
Qed.

Lemma opportunity_created_without_model_shows_arguments_witness :
  outcome (Merge.call_tool (rt := ascii_runtime) "k" "t"
             (fetch_json (JObj []))
             "create_crm_opportunity"
             (JObj [("name", JStr "Renewal"); ("amount", JInt 1200)])) =
    inr (text_result
           ("Successfully created CRM opportunity via Merge!" +++ nl +++
            "ID: N/A" +++ nl +++
            "Name: Renewal" +++ nl +++
            "Amount: 1200" +++ nl +++
            "Stage: Not set" +++ nl +++
            "Status: Pending sync" +++ nl +++
            "Remote ID: Will be assigned")).
Proof.
  exact (opportunity_created_without_model_shows_arguments ascii_runtime
           "k" "t" (fetch_json (JObj []))
           [("name", JStr "Renewal"); ("amount", JInt 1200)]
           "Renewal" (Some 1200%Z) None
           (answer (JObj [])) [] eq_refl (conj eq_refl eq_refl) eq_refl
           eq_refl eq_refl eq_refl eq_refl).
Defined.

(** * Invocations without arguments *)

Section Arguments.
Context {rt : Runtime}.
Variables owner repo : string.
Variable octokit : OctokitMethod -> JSValue -> Exn + JSValue.
Variables apiKey accountToken : string.
Variable fetch : string -> FetchOptions -> Exn + HttpResponse.

Lemma nullish_cases v : nullish v = true -> v = JUndefined \/ v = JNull.
Proof. destruct v; try discriminate; auto. Qed.

Lemma github_rejects_missing_arguments n args :
  In n reads_arguments_first ->
  nullish args = true ->
  (exists t, outcome (GitHub.call_tool owner repo octokit n args) =
             inr (error_result t)) /\
  upstream_calls (trace (GitHub.call_tool owner repo octokit n args)) = 0.
Proof.
  intros I N. apply nullish_cases in N.
  cbn [reads_arguments_first In] in I.
  repeat (destruct I as [<- | I];
          [destruct N as [-> | ->];
           (split; [eexists; reflexivity | reflexivity]) |]).
  destruct I.
Qed.

Lemma merge_rejects_missing_arguments n args :
  In n reads_arguments_first ->
  nullish args = true ->
  (exists t, outcome (Merge.call_tool apiKey accountToken fetch n args) =
             inr (error_result t)) /\
  upstream_calls (trace (Merge.call_tool apiKey accountToken fetch n args)) = 0.
Proof.
  intros I N. apply nullish_cases in N.
  cbn [reads_arguments_first In] in I.
  repeat (destruct I as [<- | I];
          [destruct N as [-> | ->];
           (split; [eexists; reflexivity | reflexivity]) |]).
  destruct I.
Qed.

End Arguments.

(** X19.  Every tool but the two create tools reads its arguments before it
    does anything else: called without arguments ([undefined] or [null]) it
    returns the error result and sends nothing upstream, in either server. *)
Theorem missing_arguments_are_rejected_before_any_request :
  forall (rt : Runtime) (owner repo : string)
         (octokit : OctokitMethod -> JSValue -> Exn + JSValue)
         (apiKey accountToken : string)
         (fetch : string -> FetchOptions -> Exn + HttpResponse)
         (n : string) (args : JSValue),
    In n reads_arguments_first ->
    nullish args = true ->
    ((exists t, outcome (GitHub.call_tool owner repo octokit n args) =
                inr (error_result t)) /\
     upstream_calls (trace (GitHub.call_tool owner repo octokit n args)) = 0) /\
    ((exists t, outcome (Merge.call_tool apiKey accountToken fetch n args) =
                inr (error_result t)) /\
     upstream_calls
       (trace (Merge.call_tool apiKey accountToken fetch n args)) = 0) /\
    (forall tool,
        In tool (map name GitHub.tools ++ map name Merge.tools) ->
        In tool reads_arguments_first \/
        tool = "create_crm_contact" \/ tool = "create_crm_opportunity").
Proof.
  intros rt owner repo octokit apiKey accountToken fetch n args I N.
  split; [| split].
  - now apply github_rejects_missing_arguments.
  - now apply merge_rejects_missing_arguments.
  - intros tool T. cbn in T.
    repeat (destruct T as [<- | T]; [cbn; tauto |]). destruct T.
Qed.

Lemma missing_arguments_are_rejected_before_any_request_witness :
  (exists t,
      outcome (Merge.call_tool (rt := ascii_runtime) "k" "t" fetch_down
                 "get_crm_contact" JUndefined) =
      inr (error_result t)) /\
  upstream_calls
    (trace (Merge.call_tool (rt := ascii_runtime) "k" "t" fetch_down
              "get_crm_contact" JUndefined)) = 0.
Proof.
  refine (proj1 (proj2 (missing_arguments_are_rejected_before_any_request
                          ascii_runtime "o" "r" octokit_not_found "k" "t"
                          fetch_down "get_crm_contact" JUndefined _ _))).
  - cbv. tauto.
  - reflexivity.
Defined.

(** * Sessions *)

Section Sessions.

Lemma session_is_answered (handle : Request -> M Response)
  (catalog : list ToolDescriptor) :
  (forall req, exists resp,
      outcome (handle req) = inr resp /\ answers catalog req resp) ->
  forall requests, exists responses,
    outcome (session handle requests) = inr responses /\
    Forall2 (answers catalog) requests responses.
Proof.
  intros H requests. unfold session.
  induction requests as [| req rest (rs & O & F)].
  - exists []. split; [reflexivity | constructor].
  - destruct (H req) as (r & Or & Ar). exists (r :: rs).
    cbn [mapM]. rewrite outcome_bind, Or, outcome_bind, O.
    split; [reflexivity | now constructor].
Qed.

Lemma session_calls (handle : Request -> M Response) :
  (forall req, exists resp, outcome (handle req) = inr resp) ->
  (forall req,
      upstream_calls (trace (handle req)) <=
      if is_invocation req then 1 else 0) ->
  forall requests,
    upstream_calls (trace (session handle requests)) <=
    List.length (filter is_invocation requests).
Proof.
  intros R H requests. unfold session.
  induction requests as [| req rest IH]; [cbn; lia |].
  cbn [mapM filter]. rewrite trace_bind, calls_app.
  destruct (R req) as (r & ->).
  rewrite trace_bind, calls_app.
  assert (T : forall A (m : M (list A)) y,
             upstream_calls
               (match outcome m with
                | inl _ => []
                | inr ys => trace (ret (y :: ys))
                end) = 0).
  { intros A m y. destruct (outcome m); reflexivity. }
  rewrite T. specialize (H req).
  destruct (is_invocation req); cbn [List.length]; lia.
Qed.

Context {rt : Runtime}.
Variables owner repo : string.
Variable octokit : OctokitMethod -> JSValue -> Exn + JSValue.
Variables apiKey accountToken : string.
Variable fetch : string -> FetchOptions -> Exn + HttpResponse.

Lemma github_handle_answered req :
  exists resp,
    outcome (GitHub.handle owner repo octokit req) = inr resp /\
    answers GitHub.tools req resp.
Proof.
  destruct req as [| n args]; cbn [GitHub.handle].
  - eexists. split; reflexivity.
  - destruct (github_boundary owner repo octokit n args) as (r & O & W & _).
    exists (ToolResult r). rewrite outcome_bind, O. split; [reflexivity | exact W].
Qed.

Lemma merge_handle_answered req :
  exists resp,
    outcome (Merge.handle apiKey accountToken fetch req) = inr resp /\
    answers Merge.tools req resp.
Proof.
  destruct req as [| n args]; cbn [Merge.handle].
  - eexists. split; reflexivity.
  - destruct (merge_boundary apiKey accountToken fetch n args) as (r & O & W & _).
    exists (ToolResult r). rewrite outcome_bind, O. split; [reflexivity | exact W].
Qed.

Lemma github_handle_calls req :
  upstream_calls (trace (GitHub.handle owner repo octokit req)) <=
  if is_invocation req then 1 else 0.
Proof.
  destruct req as [| n args]; cbn [GitHub.handle is_invocation].
  - cbn. lia.
  - rewrite trace_bind, calls_app.
    pose proof (github_call_tool_single owner repo octokit n args).
    destruct (outcome (GitHub.call_tool owner repo octokit n args));
      cbn [trace ret fst upstream_calls filter List.length]; lia.
Qed.

Lemma merge_handle_calls req :
  upstream_calls (trace (Merge.handle apiKey accountToken fetch req)) <=
  if is_invocation req then 1 else 0.
Proof.
  destruct req as [| n args]; cbn [Merge.handle is_invocation].
  - cbn. lia.
  - rewrite trace_bind, calls_app.
    pose proof (merge_call_tool_single apiKey accountToken fetch n args).
    destruct (outcome (Merge.call_tool apiKey accountToken fetch n args));
      cbn [trace ret fst upstream_calls filter List.length]; lia.
Qed.

End Sessions.

(** X20.  A session of requests is answered request by request, whatever
    the upstream does: a catalog query by the catalog, an invocation by a
    well-formed result, so that a failed invocation does not end the
    session; and the session sends upstream at most one request for each
    invocation, none for a catalog query. *)
Theorem sessions_answer_every_request :
  forall (rt : Runtime) (owner repo : string)
         (octokit : OctokitMethod -> JSValue -> Exn + JSValue)
         (apiKey accountToken : string)
         (fetch : string -> FetchOptions -> Exn + HttpResponse)
         (requests : list Request),
    (exists responses,
        outcome (session (GitHub.handle owner repo octokit) requests) =
          inr responses /\
        Forall2 (answers GitHub.tools) requests responses) /\
    (exists responses,
        outcome (session (Merge.handle apiKey accountToken fetch) requests) =
          inr responses /\
        Forall2 (answers Merge.tools) requests responses) /\
    upstream_calls
      (trace (session (GitHub.handle owner repo octokit) requests)) <=
      List.length (filter is_invocation requests) /\
    upstream_calls
      (trace (session (Merge.handle apiKey accountToken fetch) requests)) <=
      List.length (filter is_invocation requests).
Proof.
  intros. repeat split.
  - apply session_is_answered, github_handle_answered.
  - apply session_is_answered, merge_handle_answered.
  - apply session_calls; [| apply github_handle_calls].
    intro req. destruct (github_handle_answered owner repo octokit req)
      as (r & O & _). now exists r.
  - apply session_calls; [| apply merge_handle_calls].
    intro req. destruct (merge_handle_answered apiKey accountToken fetch req)
      as (r & O & _). now exists r.
Qed.

(** * Start-up with a repository and a probe *)

Lemma includes_cons c s x :
  includes (String c s) x = false -> includes s x = false.
Proof. cbn [includes]. intro H. now apply orb_false_elim in H. Qed.

Lemma no_slash_head c s :
  includes (String c s) "/" = false -> Ascii.eqb c "/" = false.
Proof.
  cbn [includes]. intro H. apply orb_false_elim in H as [H _].
  destruct (Ascii.eqb_spec c "/") as [-> | N]; [| reflexivity].
  cbn [prefix] in H. destruct (ascii_dec "/" "/"); [| congruence].
  destruct s; discriminate H.
Qed.

Lemma split_no_slash s : includes s "/" = false -> split "/" s = [s].
Proof.
  induction s as [| c s IH]; intro H; [reflexivity |].
  cbn [split]. rewrite (no_slash_head _ _ H), IH; [reflexivity |].
  exact (includes_cons _ _ _ H).
Qed.

Lemma split_at_slash a b :
  includes a "/" = false -> split "/" (a +++ "/" +++ b) = a :: split "/" b.
Proof.
  induction a as [| c a IH]; intro H; [reflexivity |].
  change (String c a +++ "/" +++ b) with (String c (a +++ "/" +++ b)).
  cbn [split]. rewrite (no_slash_head _ _ H).
  rewrite IH; [reflexivity | exact (includes_cons _ _ _ H)].
Qed.

Lemma split_head a tail :
  includes a "/" = false ->
  tail = EmptyString \/ prefix "/" tail = true ->
  exists rest, split "/" (a +++ tail) = a :: rest.
Proof.
  intros H [-> | P].
  - rewrite append_empty. exists []. now apply split_no_slash.
  - destruct tail as [| c tail]; [discriminate P |].
    cbn [prefix] in P. destruct (ascii_dec "/" c) as [<- |]; [| discriminate].
    exists (split "/" tail). exact (split_at_slash a tail H).
Qed.

Lemma nonempty_eqb s : s <> EmptyString -> (s =? EmptyString) = false.
Proof. intro H. now apply String.eqb_neq. Qed.

Lemma github_main_parses env octokit owner repo tail :
  truthy_env (env "GITHUB_TOKEN") = true ->
  env "GITHUB_REPO" = Some (owner +++ "/" +++ repo +++ tail) ->
  owner <> EmptyString ->
  repo <> EmptyString ->
  includes owner "/" = false ->
  includes repo "/" = false ->
  tail = EmptyString \/ prefix "/" tail = true ->
  GitHub.main env octokit =
  GitHub.start owner repo octokit (port_of env 8001).
Proof.
  intros T R NO NR SO SR Tl. unfold GitHub.main. rewrite T, R.
  cbn [negb truthy_env env_value].
  assert (E : (owner +++ "/" +++ repo +++ tail =? EmptyString) = false).
  { destruct owner; [now elim NO | reflexivity]. }
  rewrite E. cbn [negb].
  rewrite (split_at_slash owner (repo +++ tail) SO).
  destruct (split_head repo tail SR Tl) as [rest ->].
  cbn [nth]. rewrite (nonempty_eqb _ NO), (nonempty_eqb _ NR).
  reflexivity.
Qed.

Lemma github_malformed_repo env octokit s :
  env "GITHUB_REPO" = Some s ->
  includes s "/" = false \/ prefix "/" s = true \/
  (exists owner, includes owner "/" = false /\ s = owner +++ "/") ->
  exits_before_binding (GitHub.main env octokit).
Proof.
  intros R Bad.
  destruct (truthy_env (env "GITHUB_TOKEN")) eqn:T;
    [| now apply github_exits_without_token].
  destruct (truthy_env (env "GITHUB_REPO")) eqn:TR;
    [| now apply github_exits_without_repo].
  unfold GitHub.main. rewrite T, TR, R. cbn [negb env_value].
  assert (E : (nth 0 (split "/" s) EmptyString =? EmptyString) ||
              (nth 1 (split "/" s) EmptyString =? EmptyString) = true).
  { destruct Bad as [N | [P | (o & N & ->)]].
    - rewrite (split_no_slash s N). cbn [nth]. apply orb_true_r.
    - destruct s as [| c s]; [discriminate P |].
      cbn [prefix] in P. destruct (ascii_dec "/" c) as [<- |]; [| discriminate].
      reflexivity.
    - change (o +++ "/") with (o +++ "/" +++ EmptyString).
      rewrite (split_at_slash o EmptyString N). cbn [split nth].
      apply orb_true_r. }
  rewrite E.
  exists ["GITHUB_REPO must be in format " +++ dq +++ "owner/repo" +++ dq], 1%Z.
  split; [reflexivity | discriminate].
Qed.

Section Probes.
Context {rt : Runtime}.
Variables owner repo : string.
Variable octokit : OctokitMethod -> JSValue -> Exn + JSValue.
Variables apiKey accountToken : string.
Variable fetch : string -> FetchOptions -> Exn + HttpResponse.

Lemma github_failed_probe PORT e :
  octokit ReposGet (repository owner repo) = inl e ->
  GitHub.start owner repo octokit PORT =
  [Did (Logged "🚀 Starting GitHub MCP Server...");
   Did (OctokitCalled ReposGet (repository owner repo));
   Did (Logged "❌ Failed to connect to GitHub:");
   Did (Logged "Failed to connect to GitHub. Check your token and repo settings.");
   Exited 1].
Proof.
  intro O. unfold GitHub.start, GitHub.verifyGitHubConnection,
    GitHub.octokit_rest. fold (repository owner repo). rewrite O. reflexivity.
Qed.

Lemma github_answered_probe PORT response data full_name :
  octokit ReposGet (repository owner repo) = inr (JObj response) ->
  lookup "data" response = JObj data ->
  lookup "full_name" data = JStr full_name ->
  GitHub.start owner repo octokit PORT =
  [Did (Logged "🚀 Starting GitHub MCP Server...");
   Did (OctokitCalled ReposGet (repository owner repo));
   Did (Logged ("✅ Connected to GitHub repo: " +++ full_name));
   Listening PORT;
   Connected;
   Did (Logged "📡 MCP Server connected via stdio")].
Proof.
  intros O D N. unfold GitHub.start, GitHub.verifyGitHubConnection,
    GitHub.octokit_rest, destructure, show_prop, get_prop.
  fold (repository owner repo). rewrite O. cbn [emit bind ret nullish read app].
  rewrite D. cbn [bind ret nullish read app]. rewrite N. reflexivity.
Qed.

Lemma merge_probe_failed e :
  fetch_error fetch (Fetched probe_url (get_request apiKey accountToken)) =
    Some e ->
  Merge.getAccountDetails apiKey accountToken fetch =
  ([Fetched probe_url (get_request apiKey accountToken);
    Logged ("Merge API request failed: " +++ message e)], inl e).
Proof.
  unfold fetch_error, Merge.getAccountDetails. rewrite makeRequest_get.
  fold probe_url. intro B.
  destruct (fetch probe_url (get_request apiKey accountToken))
    as [e' | response].
  - injection B as <-. reflexivity.
  - destruct (ok response).
    + destruct (bodyJson response) as [e' | v]; [| discriminate].
      injection B as <-. reflexivity.
    + injection B as <-. reflexivity.
Qed.

Lemma merge_probe_answered response v :
  fetch probe_url (get_request apiKey accountToken) = inr response ->
  ok response = true ->
  bodyJson response = inr v ->
  Merge.getAccountDetails apiKey accountToken fetch =
  ([Fetched probe_url (get_request apiKey accountToken)], inr v).
Proof.
  intros F OK J. unfold Merge.getAccountDetails. rewrite makeRequest_get.
  fold probe_url. rewrite F. cbn [emit bind try_catch app].
  rewrite OK. cbn [negb ret throw]. rewrite J. reflexivity.
Qed.

Lemma merge_failed_probe PORT e :
  fetch_error fetch (Fetched probe_url (get_request apiKey accountToken)) =
    Some e ->
  Merge.start apiKey accountToken fetch PORT =
  [Did (Logged "🚀 Starting Merge MCP Server...");
   Did (Logged "🔄 Connecting to Merge unified API...");
   Did (Fetched probe_url (get_request apiKey accountToken));
   Did (Logged ("Merge API request failed: " +++ message e));
   Did (Logged "❌ Failed to connect to Merge:");
   Did (Logged "💡 Check your MERGE_API_KEY and MERGE_ACCOUNT_TOKEN");
   Did (Logged "🔗 Get tokens from: https://app.merge.dev/");
   Did (Logged "Failed to connect to Merge. Check your API credentials.");
   Exited 1].
Proof.
  intro B. unfold Merge.start, Merge.verifyMergeConnection.
  rewrite (merge_probe_failed e B). reflexivity.
Qed.

Lemma merge_answered_probe PORT response details integration provider account :
  fetch probe_url (get_request apiKey accountToken) = inr response ->
  ok response = true ->
  bodyJson response = inr (JObj details) ->
  lookup "integration" details = JObj integration ->
  lookup "name" integration = js_of_option provider ->
  lookup "id" details = JStr account ->
  Merge.start apiKey accountToken fetch PORT =
  [Did (Logged "🚀 Starting Merge MCP Server...");
   Did (Logged "🔄 Connecting to Merge unified API...");
   Did (Fetched probe_url (get_request apiKey accountToken));
   Did (Logged "✅ Connected to Merge CRM integration");
   Did (Logged ("🏢 Provider: " +++ text_or provider "Unknown"));
   Did (Logged ("📋 Account: " +++ account));
   Listening PORT;
   Connected;
   Did (Logged "📡 Merge MCP Server connected via stdio")].
Proof.
  intros F OK J I N A. unfold Merge.start, Merge.verifyMergeConnection.
  rewrite (merge_probe_answered response _ F OK J).
  unfold get_prop, opt_prop, or_else, show_prop, get_prop.
  cbn [bind ret nullish read app try_catch Merge.log emit].
  rewrite I. cbn [nullish read]. rewrite N, A.
  destruct provider as [[| ? ?] |]; reflexivity.
Qed.

Lemma github_health now :
  exists r,
    GitHub.health owner repo octokit now =
      ([OctokitCalled ReposGet (repository owner repo)], inr r) /\
    (reply_status r = 200%Z \/ reply_status r = 503%Z) /\
    (reply_status r = 200%Z <->
     exists v, octokit ReposGet (repository owner repo) = inr v) /\
    (forall e, octokit ReposGet (repository owner repo) = inl e ->
               read (reply_json r) "error" = JStr (message e)).
Proof.
  unfold GitHub.health, GitHub.octokit_rest. fold (repository owner repo).
  destruct (octokit ReposGet (repository owner repo)) as [e | v]; eexists;
    (split; [reflexivity |]); cbn [reply_status reply_json].
  - split; [now right |]. split.
    + split; [discriminate | intros [v V]; discriminate V].
    + intros e' E. now injection E as <-.
  - split; [now left |]. split.
    + split; [now exists v | reflexivity].
    + discriminate.
Qed.

Lemma merge_health now :
  exists r,
    outcome (Merge.health apiKey accountToken fetch now) = inr r /\
    upstream_calls (trace (Merge.health apiKey accountToken fetch now)) = 1 /\
    (reply_status r = 200%Z \/ reply_status r = 503%Z) /\
    (reply_status r = 200%Z <->
     exists response v,
       fetch probe_url (get_request apiKey accountToken) = inr response /\
       ok response = true /\ bodyJson response = inr v /\ nullish v = false).
Proof.
  unfold Merge.health.
  destruct (fetch_error fetch
              (Fetched probe_url (get_request apiKey accountToken)))
    as [e |] eqn:B.
  - rewrite (merge_probe_failed e B). eexists.
    split; [reflexivity |]. split; [reflexivity |].
    split; [now right |]. split; [discriminate |].
    intros (response & v & F & OK & J & _). exfalso.
    unfold fetch_error in B. now rewrite F, OK, J in B.
  - unfold fetch_error in B.
    destruct (fetch probe_url (get_request apiKey accountToken))
      as [e | response] eqn:F; [discriminate |].
    destruct (ok response) eqn:OK; [| discriminate].
    destruct (bodyJson response) as [e | v] eqn:J; [discriminate |].
    rewrite (merge_probe_answered response v F OK J).
    unfold get_prop, or_else. cbn [bind try_catch ret app].
    destruct (nullish v) eqn:N.
    + eexists. split; [reflexivity |]. split; [reflexivity |].
      split; [now right |]. split; [discriminate |].
      intros (response' & v' & F' & _ & J' & N').
      injection F' as <-. rewrite J in J'. injection J' as <-.
      now rewrite N in N'.
    + cbn [bind throw ret app].
      destruct (truthy (opt_prop (read v "integration") "name"));
        (eexists; split; [reflexivity |]; split; [reflexivity |];
         split; [now left |]; split; [| reflexivity]; intros _;
         now exists response, v).
Qed.

End Probes.

(** X21.  With the token set and [GITHUB_REPO] of the form [owner/repo],
    where neither half is empty or holds a slash, the GitHub server starts
    on that owner and repository, with the port of [PORT] or 8001; what
    follows a second slash is dropped without a word. *)
Theorem repository_is_parsed_from_environment :
  forall (env : string -> option string)
         (octokit : OctokitMethod -> JSValue -> Exn + JSValue)
         (owner repo tail : string),
    truthy_env (env "GITHUB_TOKEN") = true ->
    env "GITHUB_REPO" = Some (owner +++ "/" +++ repo +++ tail) ->
    owner <> EmptyString ->
    repo <> EmptyString ->
    includes owner "/" = false ->
    includes repo "/" = false ->
    tail = EmptyString \/ prefix "/" tail = true ->
    GitHub.main env octokit =
    GitHub.start owner repo octokit (port_of env 8001).
Proof.
  intros env octokit owner repo tail T R NO NR SO SR Tl.
  now apply github_main_parses with (tail := tail).
Qed.

Lemma repository_is_parsed_from_environment_witness :
  GitHub.main
    (env_of [("GITHUB_TOKEN", "ghp_x"); ("GITHUB_REPO", "octo/demo/extra")])
    octokit_not_found =
  GitHub.start "octo" "demo" octokit_not_found (JInt 8001).
Proof.
  refine (repository_is_parsed_from_environment
            (env_of [("GITHUB_TOKEN", "ghp_x");
                     ("GITHUB_REPO", "octo/demo/extra")])
            octokit_not_found "octo" "demo" "/extra"
            eq_refl eq_refl _ _ eq_refl eq_refl (or_intror eq_refl));
    discriminate.
Defined.

(** X22.  A [GITHUB_REPO] with no slash, with a slash first, or with
    nothing after its only slash ends the process with a status that is not
    zero before anything is bound or sent upstream. *)
Theorem malformed_repository_exits_before_binding :
  forall (env : string -> option string)
         (octokit : OctokitMethod -> JSValue -> Exn + JSValue)
         (s : string),
    env "GITHUB_REPO" = Some s ->
    includes s "/" = false \/ prefix "/" s = true \/
    (exists owner, includes owner "/" = false /\ s = owner +++ "/") ->
    exits_before_binding (GitHub.main env octokit).
Proof.
  intros env octokit s R Bad. now apply github_malformed_repo with (s := s).
Qed.

Lemma malformed_repository_exits_before_binding_witness :
  exits_before_binding
    (GitHub.main (env_of [("GITHUB_TOKEN", "ghp_x"); ("GITHUB_REPO", "octo")])
       octokit_echo).
Proof.
  exact (malformed_repository_exits_before_binding
           (env_of [("GITHUB_TOKEN", "ghp_x"); ("GITHUB_REPO", "octo")])
           octokit_echo "octo" eq_refl (or_introl eq_refl)).
Defined.

(** X23.  When the probe of the start-up fails (Octokit rejects
    [repos.get]; the request for the account details fails in any way), the
    process logs the failure and exits with status 1: the health port and
    the stdio channel are never bound, and the probe is the only request
    sent. *)
Theorem failed_probe_exits_before_binding :
  forall (rt : Runtime) (owner repo : string)
         (octokit : OctokitMethod -> JSValue -> Exn + JSValue)
         (apiKey accountToken : string)
         (fetch : string -> FetchOptions -> Exn + HttpResponse)
         (PORT : JSValue) (rejection failure : Exn),
    octokit ReposGet (repository owner repo) = inl rejection ->
    fetch_error fetch (Fetched probe_url (get_request apiKey accountToken)) =
      Some failure ->
    GitHub.start owner repo octokit PORT =
      [Did (Logged "🚀 Starting GitHub MCP Server...");
       Did (OctokitCalled ReposGet (repository owner repo));
       Did (Logged "❌ Failed to connect to GitHub:");
       Did (Logged "Failed to connect to GitHub. Check your token and repo settings.");
       Exited 1] /\
    Merge.start apiKey accountToken fetch PORT =
      [Did (Logged "🚀 Starting Merge MCP Server...");
       Did (Logged "🔄 Connecting to Merge unified API...");
       Did (Fetched probe_url (get_request apiKey accountToken));
       Did (Logged ("Merge API request failed: " +++ message failure));
       Did (Logged "❌ Failed to connect to Merge:");
       Did (Logged "💡 Check your MERGE_API_KEY and MERGE_ACCOUNT_TOKEN");
       Did (Logged "🔗 Get tokens from: https://app.merge.dev/");
       Did (Logged "Failed to connect to Merge. Check your API credentials.");
       Exited 1].
Proof.
  intros rt owner repo octokit apiKey accountToken fetch PORT rejection
         failure O B.
  split.
  - now apply github_failed_probe with (e := rejection).
  - now apply merge_failed_probe.
Qed.

Lemma failed_probe_exits_before_binding_witness :
  GitHub.start "octo" "demo" octokit_not_found (JInt 8001) =
    [Did (Logged "🚀 Starting GitHub MCP Server...");
     Did (OctokitCalled ReposGet (repository "octo" "demo"));
     Did (Logged "❌ Failed to connect to GitHub:");
     Did (Logged "Failed to connect to GitHub. Check your token and repo settings.");
     Exited 1] /\
  Merge.start (rt := ascii_runtime) "k" "t" (fetch_status 401 "Unauthorized")
    (JInt 8001) =
    [Did (Logged "🚀 Starting Merge MCP Server...");
     Did (Logged "🔄 Connecting to Merge unified API...");
     Did (Fetched probe_url (get_request "k" "t"));
     Did (Logged "Merge API request failed: Merge API error 401: Unauthorized");
     Did (Logged "❌ Failed to connect to Merge:");
     Did (Logged "💡 Check your MERGE_API_KEY and MERGE_ACCOUNT_TOKEN");
     Did (Logged "🔗 Get tokens from: https://app.merge.dev/");
     Did (Logged "Failed to connect to Merge. Check your API credentials.");
     Exited 1].
Proof.
  exact (failed_probe_exits_before_binding ascii_runtime "octo" "demo"
           octokit_not_found "k" "t" (fetch_status 401 "Unauthorized")
           (JInt 8001) (RequestError 404 "Not Found")
           (Error "Merge API error 401: Unauthorized") eq_refl eq_refl).
Defined.

(** X24.  When the probe is answered, the server binds the health port and
    then the stdio channel, in that order, after the probe and nothing
    else.  For the GitHub server the answer must hold the full name of the
    repository, which is logged; the Merge server, started from an
    environment with both credentials, logs the provider ([Unknown]
    without one) and the account, and listens on the port of [PORT] or on
    8002. *)
Theorem answered_probe_binds_port_then_stdio :
  forall (rt : Runtime) (owner repo : string)
         (octokit : OctokitMethod -> JSValue -> Exn + JSValue)
         (fetch : string -> FetchOptions -> Exn + HttpResponse)
         (env : string -> option string) (PORT : JSValue)
         (response data : list (string * JSValue)) (full_name : string)
         (answer : HttpResponse)
         (details integration : list (string * JSValue))
         (provider : option string) (account : string),
    octokit ReposGet (repository owner repo) = inr (JObj response) ->
    lookup "data" response = JObj data ->
    lookup "full_name" data = JStr full_name ->
    truthy_env (env "MERGE_API_KEY") = true ->
    truthy_env (env "MERGE_ACCOUNT_TOKEN") = true ->
    fetch probe_url
      (get_request (env_value (env "MERGE_API_KEY"))
         (env_value (env "MERGE_ACCOUNT_TOKEN"))) = inr answer ->
    ok answer = true ->
    bodyJson answer = inr (JObj details) ->
    lookup "integration" details = JObj integration ->
    lookup "name" integration = js_of_option provider ->
    lookup "id" details = JStr account ->
    GitHub.start owner repo octokit PORT =
      [Did (Logged "🚀 Starting GitHub MCP Server...");
       Did (OctokitCalled ReposGet (repository owner repo));
       Did (Logged ("✅ Connected to GitHub repo: " +++ full_name));
       Listening PORT;
       Connected;
       Did (Logged "📡 MCP Server connected via stdio")] /\
    Merge.main env fetch =
      [Did (Logged "🚀 Starting Merge MCP Server...");
       Did (Logged "🔄 Connecting to Merge unified API...");
       Did (Fetched probe_url
              (get_request (env_value (env "MERGE_API_KEY"))
                 (env_value (env "MERGE_ACCOUNT_TOKEN"))));
       Did (Logged "✅ Connected to Merge CRM integration");
       Did (Logged ("🏢 Provider: " +++ text_or provider "Unknown"));
       Did (Logged ("📋 Account: " +++ account));
       Listening (port_of env 8002);
       Connected;
       Did (Logged "📡 Merge MCP Server connected via stdio")].
Proof.
  intros rt owner repo octokit fetch env PORT response data full_name answer
         details integration provider account O D N K T F OK J I P A.
  split.
  - now apply github_answered_probe with (response := response) (data := data).
  - unfold Merge.main. rewrite K, T. cbn [negb].
    now apply merge_answered_probe
      with (response := answer) (details := details)
           (integration := integration).
Qed.

Lemma answered_probe_binds_port_then_stdio_witness :
  GitHub.start "octo" "demo"
    (octokit_data (JObj [("full_name", JStr "octo/demo")])) (JInt 8001) =
    [Did (Logged "🚀 Starting GitHub MCP Server...");
     Did (OctokitCalled ReposGet (repository "octo" "demo"));
     Did (Logged "✅ Connected to GitHub repo: octo/demo");
     Listening (JInt 8001);
     Connected;
     Did (Logged "📡 MCP Server connected via stdio")] /\
  Merge.main (rt := ascii_runtime)
    (env_of [("MERGE_API_KEY", "k"); ("MERGE_ACCOUNT_TOKEN", "t");
             ("PORT", "9000")])
    (fetch_json (JObj hubspot)) =
    [Did (Logged "🚀 Starting Merge MCP Server...");
     Did (Logged "🔄 Connecting to Merge unified API...");
     Did (Fetched probe_url (get_request "k" "t"));
     Did (Logged "✅ Connected to Merge CRM integration");
     Did (Logged "🏢 Provider: HubSpot");
     Did (Logged "📋 Account: acct-1");
     Listening (JStr "9000");
     Connected;
     Did (Logged "📡 Merge MCP Server connected via stdio")].
Proof.
  exact (answered_probe_binds_port_then_stdio ascii_runtime "octo" "demo"
           (octokit_data (JObj [("full_name", JStr "octo/demo")]))
           (fetch_json (JObj hubspot))
           (env_of [("MERGE_API_KEY", "k"); ("MERGE_ACCOUNT_TOKEN", "t");
                    ("PORT", "9000")])
           (JInt 8001)
           [("data", JObj [("full_name", JStr "octo/demo")])]
           [("full_name", JStr "octo/demo")] "octo/demo"
           (answer (JObj hubspot)) hubspot [("name", JStr "HubSpot")]
           (Some "HubSpot") "acct-1"
           eq_refl eq_refl eq_refl eq_refl eq_refl eq_refl eq_refl eq_refl
           eq_refl eq_refl eq_refl).
Defined.

(** X25.  The health route never throws and sends exactly one request
    upstream, the probe.  It answers 200 or 503: for the GitHub server 200
    exactly when Octokit answered [repos.get], whatever the answer holds,
    and a rejection is reported by its message; for the Merge server 200
    exactly when the request for the account details got a 2xx answer whose
    JSON body is neither [null] nor missing. *)
Theorem health_reports_the_probe :
  forall (rt : Runtime) (owner repo : string)
         (octokit : OctokitMethod -> JSValue -> Exn + JSValue)
         (apiKey accountToken : string)
         (fetch : string -> FetchOptions -> Exn + HttpResponse)
         (now : string),
    (exists r,
        GitHub.health owner repo octokit now =
          ([OctokitCalled ReposGet (repository owner repo)], inr r) /\
        (reply_status r = 200%Z \/ reply_status r = 503%Z) /\
        (reply_status r = 200%Z <->
         exists v, octokit ReposGet (repository owner repo) = inr v) /\
        (forall e, octokit ReposGet (repository owner repo) = inl e ->
                   read (reply_json r) "error" = JStr (message e))) /\
    (exists r,
        outcome (Merge.health apiKey accountToken fetch now) = inr r /\
        upstream_calls
          (trace (Merge.health apiKey accountToken fetch now)) = 1 /\
        (reply_status r = 200%Z \/ reply_status r = 503%Z) /\
        (reply_status r = 200%Z <->
         exists response v,
           fetch probe_url (get_request apiKey accountToken) = inr response /\
           ok response = true /\ bodyJson response = inr v /\
           nullish v = false)).
Proof.
  intros. split.
  - apply github_health.
  - apply merge_health.
Qed.
